(** * Oxygen-station manager: level, status, readings, listing, statistics

    A shallow embedding of the oxygen-station code of the hospital
    management back end, and the properties its specification states.

    Two applications share the subject:
    - the FastAPI application [backend/main.py], whose level-update endpoint
      checks the capacity bound and derives the status from the thresholds
      (module [Main]);
    - the Flask application [backend/app.py] on top of
      [backend/services/oxygen_service.py], with the tables created by
      [backend/scripts/init_database.py] (module [OxygenService]).
    The patients of the same Flask application, served by
    [backend/services/patient_service.py], follow in module [PatientService].

    Modelling conventions.
    - Python [int] is [Z].  A Python [float] is the rational its decimal text
      denotes, which is what the connector sends; arithmetic inside a
      statement is exact.  A DECIMAL(p,2) column keeps a value rounded to two
      decimals, halves away from zero, and refuses one that needs more than
      p digits; VARCHAR, TEXT and INT columns refuse what does not fit.
    - A text is a [string] holding the UTF-8 encoding of the Python text; a
      column counts its characters.
    - A time is a whole number of seconds, a date a whole number of days.
    - A table is the list of its rows in insertion order.  Every SQL statement
      of the source is given by the function that computes its effect on the
      tables, with SQL's NULL written [None].  The engine runs in its default
      strict mode: a value a column refuses and a division by zero in a
      data-changing statement are errors, and a statement that fails changes
      no row.
    - What the source leaves to the engine is a parameter of the model
      ([Sql.Engine], [Sql.Scan]): how the collation of the tables compares
      texts, in which order rows with equal sort keys are delivered, what
      becomes of an ORDER BY text that is not a column and a direction, how
      the server words the messages that name its own objects, and whether a
      connection handed back to the pool can still roll back.  The
      properties hold for every engine that keeps the laws of [Sql.Lawful]
      and [Sql.LawfulScan]; [Sql.reference] is one such engine, on which the
      scenarios are run.
    - The storage is reachable: connection failures are not represented; the
      exceptions that remain are the ones the statements themselves cause.
    - An UPDATE reports the rows whose stored values it changes, and leaves
      the other rows it names as they are.
    - The level update of [main.py] works on a table whose definition is not
      part of the repository: its rows are given with the columns the
      endpoint reads, compares and derives; the column [updated_at], which
      the update also sets to the current time, is not among them. *)

From Stdlib Require Import ZArith QArith Qround Qabs List String Ascii Bool.
From Stdlib Require Import Lia Lqa Permutation Sorted.
Import ListNotations.

Local Open Scope string_scope.
Local Open Scope list_scope.
Local Open Scope Z_scope.

(** ** Python scaffolding shared by the two applications *)

(** The exceptions the modelled code can raise. *)
Inductive exn :=
| DatabaseError (msg : string)
| ZeroDivisionError
| AttributeError (msg : string).

(** [str(e)] *)
Definition str (e : exn) : string :=
  match e with
  | DatabaseError msg => msg
  | ZeroDivisionError => "integer division or modulo by zero"
  | AttributeError msg => msg
  end.

(** Truthiness of an optional string: [None] and the empty string are false. *)
Definition truthy_str (s : option string) : option string :=
  match s with
  | Some EmptyString => None
  | other => other
  end.

(** Truthiness of an optional number: [None] and zero are false. *)
Definition truthy_num (q : option Q) : option Q :=
  match q with
  | Some x => if Qeq_bool x 0 then None else Some x
  | None => None
  end.

(** All occurrences joined by a separator, Python's [sep.join]. *)
Fixpoint join (sep : string) (parts : list string) : string :=
  match parts with
  | [] => ""
  | [p] => p
  | p :: rest => (p ++ sep ++ join sep rest)%string
  end.

(** ** SQL: expressions, column types and what the engine decides *)

Module Sql.

(** *** Expressions over nullable exact numbers *)

(** A nullable numeric value. *)
Definition num := option Q.

(** The truth value of a condition: [None] is UNKNOWN. *)
Definition cond := option bool.

Definition lit (z : Z) : num := Some (inject_Z z).

(** [a / b]: NULL when an operand is NULL or the divisor is zero. *)
Definition div (a b : num) : num :=
  match a, b with
  | Some x, Some y => if Qeq_bool y 0 then None else Some (x / y)%Q
  | _, _ => None
  end.

Definition mul (a b : num) : num :=
  match a, b with
  | Some x, Some y => Some (x * y)%Q
  | _, _ => None
  end.

Definition le (a b : num) : cond :=
  match a, b with
  | Some x, Some y => Some (Qle_bool x y)
  | _, _ => None
  end.

Definition lt (a b : num) : cond :=
  match a, b with
  | Some x, Some y => Some (negb (Qle_bool y x))
  | _, _ => None
  end.

(** A WHEN or WHERE condition selects only when it is TRUE. *)
Definition is_true (c : cond) : bool :=
  match c with
  | Some true => true
  | _ => false
  end.

(** [CASE WHEN c THEN 1 END]: NULL unless the condition is TRUE. *)
Definition case_when_1 (c : cond) : option Z :=
  if is_true c then Some 1 else None.

(** [COUNT(expr)] counts the rows whose value is not NULL. *)
Definition count {A : Type} (vals : list (option A)) : Z :=
  Z.of_nat (List.length (filter (fun v => match v with Some _ => true | None => false end) vals)).

(** The values that are not NULL. *)
Fixpoint non_null {A : Type} (vals : list (option A)) : list A :=
  match vals with
  | [] => []
  | Some v :: rest => v :: non_null rest
  | None :: rest => non_null rest
  end.

Definition total (qs : list Q) : Q := fold_right Qplus 0%Q qs.

(** [SUM(expr)]: NULL when no row has a value. *)
Definition sum (vals : list num) : num :=
  match non_null vals with
  | [] => None
  | qs => Some (total qs)
  end.

(** [AVG(expr)]: the mean of the values that are not NULL. *)
Definition avg (vals : list num) : num :=
  match non_null vals with
  | [] => None
  | qs => Some (total qs / inject_Z (Z.of_nat (List.length qs)))%Q
  end.

(** *** Words of the language

    Keywords and the names of columns are read without regard to the case
    of ASCII letters. *)

Definition fold_case (c : ascii) : ascii :=
  let n := nat_of_ascii c in
  if (Nat.leb 65 n && Nat.leb n 90)%bool then ascii_of_nat (n + 32) else c.

Fixpoint name_eq (a b : string) : bool :=
  match a, b with
  | EmptyString, EmptyString => true
  | String x a', String y b' => Ascii.eqb (fold_case x) (fold_case y) && name_eq a' b'
  | _, _ => false
  end.

Definition letter (c : ascii) : bool :=
  let n := nat_of_ascii (fold_case c) in (Nat.leb 97 n && Nat.leb n 122)%bool.

Definition digit (c : ascii) : bool :=
  let n := nat_of_ascii c in (Nat.leb 48 n && Nat.leb n 57)%bool.

Fixpoint all_chars (p : ascii -> bool) (s : string) : bool :=
  match s with
  | EmptyString => true
  | String c s' => p c && all_chars p s'
  end.

(** A word: letters of the ASCII alphabet, at least one. *)
Definition word (s : string) : bool :=
  match s with
  | EmptyString => false
  | _ => all_chars letter s
  end.

(** A name as it may stand unquoted in a statement: a letter, then letters,
    digits and underscores. *)
Definition identifier (s : string) : bool :=
  match s with
  | EmptyString => false
  | String c s' => letter c && all_chars (fun x => letter x || digit x || Ascii.eqb x "_") s'
  end.

(** *** Column types *)

(** The integer nearest to a rational, halves away from zero. *)
Definition round_half_away (q : Q) : Z :=
  Z.sgn (Qnum q) * ((2 * Z.abs (Qnum q) + Z.pos (Qden q)) / (2 * Z.pos (Qden q))).

(** The value a DECIMAL(precision, 2) column keeps for a number: rounded to
    two decimals; none when the rounded value needs more digits. *)
Definition decimal (precision : Z) (q : Q) : option Q :=
  let cents := round_half_away (q * 100) in
  if Z.abs cents <? 10 ^ precision then Some (Qred (cents # 100)) else None.

Definition max_int : Z := 2147483647.

(** INT *)
Definition int (z : Z) : option Z :=
  if (- max_int - 1 <=? z) && (z <=? max_int) then Some z else None.

(** A byte that continues a character of more than one byte. *)
Definition continuation (c : ascii) : bool :=
  let n := nat_of_ascii c in (Nat.leb 128 n && Nat.ltb n 192)%bool.

(** The number of characters of a text. *)
Fixpoint char_length (s : string) : Z :=
  match s with
  | EmptyString => 0
  | String c s' => (if continuation c then 0 else 1) + char_length s'
  end.

(** The first [n] characters of a text, and the text without them. *)
Fixpoint take_chars (n : nat) (s : string) : string :=
  match s with
  | EmptyString => EmptyString
  | String c s' =>
      if continuation c then String c (take_chars n s')
      else match n with
           | O => EmptyString
           | S m => String c (take_chars m s')
           end
  end.

Fixpoint drop_chars (n : nat) (s : string) : string :=
  match s with
  | EmptyString => EmptyString
  | String c s' =>
      if continuation c then drop_chars n s'
      else match n with
           | O => s
           | S m => drop_chars m s'
           end
  end.

Definition blank (s : string) : bool := all_chars (fun c => Ascii.eqb c " ") s.

(** The value a VARCHAR(n) column keeps for a text: the text when it has at
    most [n] characters; blanks beyond the width are cut off; none when
    anything else would have to go. *)
Definition varchar (n : Z) (s : string) : option string :=
  if char_length s <=? n then Some s
  else if blank (drop_chars (Z.to_nat n) s) then Some (take_chars (Z.to_nat n) s)
  else None.

(** TEXT: up to 65535 bytes, with the same allowance for blanks. *)
Definition text (s : string) : option string :=
  let width := Z.to_nat 65535 in
  if Z.of_nat (String.length s) <=? 65535 then Some s
  else if blank (substring width (String.length s - width) s)
       then Some (substring 0 width s)
  else None.

(** A text without the blanks at its end. *)
Fixpoint rtrim (s : string) : string :=
  match s with
  | EmptyString => EmptyString
  | String c s' =>
      match rtrim s' with
      | EmptyString => if Ascii.eqb c " " then EmptyString else String c EmptyString
      | rest => String c rest
      end
  end.

(** The number a text of decimal digits denotes. *)
Fixpoint digits_value (acc : Z) (s : string) : Z :=
  match s with
  | EmptyString => acc
  | String c s' => digits_value (10 * acc + Z.of_nat (nat_of_ascii c) - 48) s'
  end.

(** The errors of the strict mode for a value a column refuses. *)
Definition out_of_range (column : string) : exn :=
  DatabaseError ("1264 (22003): Out of range value for column '" ++ column ++ "' at row 1")%string.

Definition too_long (column : string) : exn :=
  DatabaseError ("1406 (22001): Data too long for column '" ++ column ++ "' at row 1")%string.

Definition truncated (column : string) : exn :=
  DatabaseError ("1265 (01000): Data truncated for column '" ++ column ++ "' at row 1")%string.

(** The errors of a SELECT the engine cannot read or resolve.  Of the syntax
    error this is the sentence the message opens with; the server goes on to
    quote the statement from the place it stopped at. *)
Definition syntax_error : exn :=
  DatabaseError "1064 (42000): You have an error in your SQL syntax".

Definition unknown_column_error (name : string) : exn :=
  DatabaseError ("1054 (42S22): Unknown column '" ++ name ++ "' in 'order clause'")%string.

(** A value on its way into a column, or the error that refuses it. *)
Definition stored (A : Type) : Type := (exn + A)%type.

Definition and_then {A B : Type} (c : stored A) (k : A -> stored B) : stored B :=
  match c with
  | inl e => inl e
  | inr a => k a
  end.

Definition decimal_column (column : string) (precision : Z) (q : Q) : stored Q :=
  match decimal precision q with
  | Some v => inr v
  | None => inl (out_of_range column)
  end.

Definition int_column (column : string) (z : Z) : stored Z :=
  match int z with
  | Some v => inr v
  | None => inl (out_of_range column)
  end.

Definition varchar_column (column : string) (n : Z) (s : string) : stored string :=
  match varchar n s with
  | Some v => inr v
  | None => inl (too_long column)
  end.

Definition text_column (column : string) (s : string) : stored string :=
  match text s with
  | Some v => inr v
  | None => inl (too_long column)
  end.

(** A column that takes NULL. *)
Definition nullable {A B : Type} (store : A -> stored B) (v : option A) : stored (option B) :=
  match v with
  | None => inr None
  | Some a => and_then (store a) (fun b => inr (Some b))
  end.

(** *** What the engine decides *)

(** The failures whose message names objects of the server. *)
Inductive failure :=
| ForeignKeyFails (table column referenced referenced_column : string)
| DuplicateEntry (table column value : string)
| AutoIncrementExhausted (table : string).

(** An engine with its connector: the collation of the tables
    ([utf8mb4_unicode_ci]) as equality, order and LIKE pattern matching; the
    words its grammar reserves; the wording of the failures above; and the
    exception [connection.rollback()] raises on a connection the pool has
    taken back, if it raises one. *)
Class Engine := {
  str_eq : string -> string -> bool;
  str_leb : string -> string -> bool;
  like : string -> string -> bool;
  reserved : string -> bool;
  wording : failure -> string;
  rollback : option exn
}.

(** The order of the rows of a table of row type [A] in the answer to a
    SELECT: [deliver sort_by sort_order limit offset rows] is the order in
    which the selected rows reach the sort, which decides between rows with
    equal keys; [other_order] is the answer when the ORDER BY text is not a
    column of the table followed by a direction. *)
Class Scan (A : Type) := {
  deliver : string -> string -> Z -> Z -> list A -> list A;
  other_order : list string -> string -> string -> Z -> Z -> list A -> exn + list A
}.

Section WithEngine.

Context {engine : Engine}.

(** The member an ENUM column keeps for a text: blanks at the end are
    dropped; the member the text equals under the collation, or else the
    member a text of digits numbers; none is an error in strict mode. *)
Definition enum (members : list string) (s : string) : option string :=
  let t := rtrim s in
  match find (fun m => str_eq m t) members with
  | Some m => Some m
  | None =>
      if negb (String.eqb t "") && all_chars digit t && (Z.of_nat (String.length t) <? 6)
         && (1 <=? digits_value 0 t) && (digits_value 0 t <=? Z.of_nat (List.length members))
      then nth_error members (Z.to_nat (digits_value 0 t - 1))
      else None
  end.

Definition enum_column (column : string) (members : list string) (s : string) : stored string :=
  match enum members s with
  | Some m => inr m
  | None => inl (truncated column)
  end.

(** The position of a member, by which an ENUM column sorts. *)
Fixpoint enum_index (members : list string) (s : string) : Z :=
  match members with
  | [] => 0
  | m :: rest => if String.eqb m s then 1 else
                   match enum_index rest s with 0 => 0 | n => n + 1 end
  end.

(** A value as [ORDER BY] compares it: NULL sorts first. *)
Inductive value :=
| VNull
| VInt (z : Z)
| VNum (q : Q)
| VStr (s : string).

Definition value_leb (a b : value) : bool :=
  match a, b with
  | VNull, _ => true
  | _, VNull => false
  | VInt x, VInt y => x <=? y
  | VNum x, VNum y => Qle_bool x y
  | VInt x, VNum y => Qle_bool (inject_Z x) y
  | VNum x, VInt y => Qle_bool x (inject_Z y)
  | VStr x, VStr y => str_leb x y
  | VStr _, _ => false
  | _, VStr _ => true
  end.

(** Insertion sort that keeps rows with equal keys in the order they come. *)
Fixpoint insert_by {A : Type} (leb : A -> A -> bool) (x : A) (l : list A) : list A :=
  match l with
  | [] => [x]
  | y :: l' => if leb x y then x :: l else y :: insert_by leb x l'
  end.

Definition sort_by {A : Type} (leb : A -> A -> bool) (l : list A) : list A :=
  fold_right (insert_by leb) [] l.

Definition order_by {A : Type} (key : A -> value) (ascending : bool) (rows : list A) : list A :=
  if ascending then sort_by (fun a b => value_leb (key a) (key b)) rows
  else sort_by (fun a b => value_leb (key b) (key a)) rows.

End WithEngine.

(** The direction of a sort: ascending when the text is ASC or empty,
    descending when it is DESC; any other text is not a direction. *)
Definition direction (sort_order : string) : option bool :=
  if name_eq sort_order "ASC" || name_eq sort_order "" then Some true
  else if name_eq sort_order "DESC" then Some false
  else None.

(** The largest number the grammar reads after LIMIT and OFFSET. *)
Definition max_limit : Z := 18446744073709551615.

(** [LIMIT limit OFFSET offset]: a negative number and one above
    [max_limit] do not parse. *)
Definition bad_limit (limit offset : Z) : bool :=
  (limit <? 0) || (offset <? 0) || (max_limit <? limit) || (max_limit <? offset).

Definition limit_offset {A : Type} (limit offset : Z) (rows : list A) : list A :=
  firstn (Z.to_nat limit) (skipn (Z.to_nat offset) rows).

(** *** The laws of an engine

    What the properties below use of the collation: its equality is an
    equivalence, on words it is equality up to the case of the letters, and
    its order is total and transitive.  The word [id] is not reserved. *)
Class Lawful (engine : Engine) : Prop := {
  str_eq_refl : forall a, str_eq a a = true;
  str_eq_sym : forall a b, str_eq a b = true -> str_eq b a = true;
  str_eq_trans : forall a b c, str_eq a b = true -> str_eq b c = true -> str_eq a c = true;
  str_eq_words : forall a b, word a = true -> word b = true -> str_eq a b = name_eq a b;
  str_leb_total : forall a b, str_leb a b = true \/ str_leb b a = true;
  str_leb_trans : forall a b c, str_leb a b = true -> str_leb b c = true -> str_leb a c = true;
  id_not_reserved : reserved "id" = false
}.

(** Rows are delivered each once; whatever the ORDER BY text, an answer
    holds selected rows only; and a name that is neither reserved nor a
    column of the table is answered with the error that says so. *)
Class LawfulScan {engine : Engine} (A : Type) (scan : Scan A) : Prop := {
  deliver_perm : forall sb so limit offset (rows : list A),
      Permutation (deliver sb so limit offset rows) rows;
  other_selected : forall columns sb so limit offset (rows window : list A),
      other_order columns sb so limit offset rows = inr window -> incl window rows;
  unknown_name : forall columns sb so limit offset (rows : list A),
      identifier sb = true -> reserved sb = false ->
      existsb (name_eq sb) columns = false ->
      direction so <> None -> bad_limit limit offset = false ->
      other_order columns sb so limit offset rows = inl (unknown_column_error sb)
}.

(** *** The engine of the scenarios

    The collation on ASCII texts: letters without regard to case, blanks at
    the end of no account, the order of the character codes otherwise. *)

Definition lower (s : string) : list nat :=
  map (fun c => nat_of_ascii (fold_case c)) (list_ascii_of_string (rtrim s)).

Fixpoint codes_leb (a b : list nat) : bool :=
  match a, b with
  | [], _ => true
  | _ :: _, [] => false
  | x :: a', y :: b' =>
      if Nat.ltb x y then true else if Nat.ltb y x then false else codes_leb a' b'
  end.

Fixpoint codes_eqb (a b : list nat) : bool :=
  match a, b with
  | [], [] => true
  | x :: a', y :: b' => Nat.eqb x y && codes_eqb a' b'
  | _, _ => false
  end.

(** [s LIKE pat] with the wildcards [%] and [_]. *)
Fixpoint like_ascii (pat : string) : string -> bool :=
  match pat with
  | EmptyString => fun s => match s with EmptyString => true | _ => false end
  | String c pat' =>
      if Ascii.eqb c "%" then
        fix any (s : string) : bool :=
          like_ascii pat' s || match s with EmptyString => false | String _ s' => any s' end
      else if Ascii.eqb c "_" then
        fun s => match s with EmptyString => false | String _ s' => like_ascii pat' s' end
      else
        fun s => match s with
                 | EmptyString => false
                 | String d s' => Ascii.eqb (fold_case c) (fold_case d) && like_ascii pat' s'
                 end
  end.

(** Words the grammar keeps for itself, among them the ones of the
    statements of the services. *)
Definition reserved_words : list string :=
  ["select"; "from"; "where"; "order"; "by"; "group"; "having"; "limit"; "asc"; "desc";
   "and"; "or"; "not"; "null"; "true"; "false"; "insert"; "update"; "delete"; "table";
   "key"; "index"; "like"; "in"; "is"; "as"; "on"; "join"; "union"; "case"; "when";
   "then"; "else"; "end"; "div"; "mod"; "values"; "set"; "into"].

(** The messages as MySQL 8 words them for the tables of
    [scripts/init_database.py] in the database [healthcare_db], the default
    of [config/database.py]; a counter at the end of INT issues its last
    value again. *)
Definition reference_wording (f : failure) : string :=
  match f with
  | ForeignKeyFails table column referenced referenced_column =>
      ("1452 (23000): Cannot add or update a child row: a foreign key constraint fails (`healthcare_db`.`"
         ++ table ++ "`, CONSTRAINT `" ++ table ++ "_ibfk_1` FOREIGN KEY (`" ++ column
         ++ "`) REFERENCES `" ++ referenced ++ "` (`" ++ referenced_column
         ++ "`) ON DELETE CASCADE)")%string
  | DuplicateEntry table column value =>
      ("1062 (23000): Duplicate entry '" ++ value ++ "' for key '" ++ table ++ "."
         ++ column ++ "'")%string
  | AutoIncrementExhausted table =>
      ("1062 (23000): Duplicate entry '2147483647' for key '" ++ table ++ ".PRIMARY'")%string
  end.

Definition reference : Engine := {|
  str_eq := fun a b => codes_eqb (lower a) (lower b);
  str_leb := fun a b => codes_leb (lower a) (lower b);
  like := like_ascii;
  reserved := fun s => existsb (name_eq s) reserved_words;
  wording := reference_wording;
  rollback := None
|}.

(** The same engine behind a pool whose connections are no longer usable
    once the [with] block has handed them back. *)
Definition closing_pool : Engine := {|
  str_eq := fun a b => codes_eqb (lower a) (lower b);
  str_leb := fun a b => codes_leb (lower a) (lower b);
  like := like_ascii;
  reserved := fun s => existsb (name_eq s) reserved_words;
  wording := reference_wording;
  rollback := Some (AttributeError "'NoneType' object has no attribute 'rollback'")
|}.

(** Rows come in the order of the table; a sort text that is no direction
    does not parse, and a name that is no column is not known. *)
Definition table_order (A : Type) : Scan A := {|
  deliver := fun _ _ _ _ rows => rows;
  other_order := fun columns sb so limit offset rows =>
    match direction so with
    | None => inl syntax_error
    | Some _ =>
        if bad_limit limit offset then inl syntax_error
        else if identifier sb && negb (existsb (name_eq sb) reserved_words)
        then inl (unknown_column_error sb)
        else inl syntax_error
    end
|}.

(** Rows come in the order of the table for the first page and in the
    opposite order for the later ones. *)
Definition later_pages_reversed (A : Type) : Scan A := {|
  deliver := fun _ _ _ offset rows => if 0 <? offset then rev rows else rows;
  other_order := other_order (Scan := table_order A)
|}.

End Sql.

#[global] Existing Instance Sql.reference | 100.
#[global] Existing Instance Sql.table_order | 100.

(** The values a statement gives its columns are converted one after the
    other, in the order of the statement. *)
Declare Scope column_scope.
Delimit Scope column_scope with column.
Notation "x <- c ;; k" := (Sql.and_then c (fun x => k))
  (at level 100, c at next level, right associativity) : column_scope.

(** ** The FastAPI application: [backend/main.py] *)

Module Main.

(** A row of [oxygen_stations] as [main.py] uses the table: the columns the
    level update reads, compares and derives, and the ones that identify the
    station.  The thresholds are percentages and may be NULL.  The table has
    more columns, [updated_at] among them, which the update sets to the
    current time; the definition of the table is not in the repository, and
    these columns are not represented. *)
Record Station := mkStation {
  station_id : Z;
  station_code : string;
  station_name : string;
  location : string;
  capacity_liters : Z;
  current_level_liters : Z;
  status : string;
  alert_threshold_low : Sql.num;
  alert_threshold_critical : Sql.num
}.

Definition Table := list Station.

(** [raise HTTPException(status_code, detail)] *)
Record HTTPException := mkHTTPException {
  status_code : Z;
  detail : string
}.

(** The body returned by a successful level update. *)
Record LevelUpdated := mkLevelUpdated {
  message : string;
  new_level_liters : Z
}.

(** [SELECT capacity_liters FROM oxygen_stations WHERE station_id = %s],
    fetching one row. *)
Definition check_query (id : Z) (db : Table) : option Z :=
  option_map capacity_liters (find (fun r => station_id r =? id) db).

(** [(%s / capacity_liters) * 100] *)
Definition level_percentage (level : Z) (r : Station) : Sql.num :=
  Sql.mul (Sql.div (Sql.lit level) (Sql.lit (capacity_liters r))) (Sql.lit 100).

(** The CASE expression that the update assigns to [status]. *)
Definition status_case (level : Z) (r : Station) : string :=
  if Sql.is_true (Sql.le (level_percentage level r) (alert_threshold_critical r)) then "critical"
  else if Sql.is_true (Sql.le (level_percentage level r) (alert_threshold_low r)) then "low"
  else "normal".

Definition set_level (level : Z) (r : Station) : Station :=
  mkStation (station_id r) (station_code r) (station_name r) (location r)
            (capacity_liters r) level (status_case level r)
            (alert_threshold_low r) (alert_threshold_critical r).

(** [UPDATE oxygen_stations SET current_level_liters = %s, status = CASE ... END,
    updated_at = CURRENT_TIMESTAMP WHERE station_id = %s], on the columns
    represented.  In the engine's strict mode a division by zero in a
    data-changing statement is an error and changes nothing. *)
Definition update_query (level id : Z) (db : Table) : exn + Table :=
  if existsb (fun r => (station_id r =? id) && (capacity_liters r =? 0)) db
  then inl (DatabaseError "1365 (22012): Division by 0")
  else inr (map (fun r => if station_id r =? id then set_level level r else r) db).

(** [update_oxygen_level(station_id, new_level_liters)]: the answer and the
    table afterwards.  [DatabaseManager.execute_query] turns an error of the
    engine into a 500. *)
Definition update_oxygen_level (id level : Z) (db : Table)
  : (HTTPException + LevelUpdated) * Table :=
  match check_query id db with
  | None => (inl (mkHTTPException 404 "Oxygen station not found"), db)
  | Some capacity =>
      if level >? capacity
      then (inl (mkHTTPException 400 "Level cannot exceed capacity"), db)
      else
        match update_query level id db with
        | inl e => (inl (mkHTTPException 500 ("Database error: " ++ str e)%string), db)
        | inr db' => (inr (mkLevelUpdated "Oxygen level updated successfully" level), db')
        end
  end.

End Main.

(** ** The Flask application: [models/database.py], [config/database.py],
       [services/oxygen_service.py] and [app.py] *)

Module OxygenService.

Definition datetime := Z.

(** *** [models/database.py] *)

Record DatabaseResult (A : Type) := mkDatabaseResult {
  success : bool;
  data : option A;
  error : option string;
  insert_id : option Z
}.
Arguments mkDatabaseResult {A}.
Arguments success {A}.
Arguments data {A}.
Arguments error {A}.
Arguments insert_id {A}.

Record PaginationParams := mkPaginationParams {
  page : Z;
  limit : Z;
  sort_by : string;
  sort_order : string
}.

Record PaginatedResult (A : Type) := mkPaginatedResult {
  pr_data : list A;
  pr_total : Z;
  pr_page : Z;
  pr_limit : Z;
  pr_total_pages : Z
}.
Arguments mkPaginatedResult {A}.
Arguments pr_data {A}.
Arguments pr_total {A}.
Arguments pr_page {A}.
Arguments pr_limit {A}.
Arguments pr_total_pages {A}.

Record OxygenStation := mkOxygenStation {
  station_id : Z;
  station_name : string;
  location : string;
  capacity_liters : Q;
  current_level : Q;
  pressure_psi : option Q;
  flow_rate : option Q;
  status : string;
  last_refill : option datetime;
  next_maintenance : option datetime;
  supplier : option string;
  alerts_enabled : bool;
  created_at : datetime;
  updated_at : datetime
}.

Record CreateOxygenStation := mkCreateOxygenStation {
  cs_station_name : string;
  cs_location : string;
  cs_capacity_liters : Q;
  cs_current_level : Q;
  cs_pressure_psi : option Q;
  cs_flow_rate : option Q;
  cs_status : string;
  cs_last_refill : option datetime;
  cs_next_maintenance : option datetime;
  cs_supplier : option string;
  cs_alerts_enabled : bool
}.

Record UpdateOxygenStation := mkUpdateOxygenStation {
  us_station_name : option string;
  us_location : option string;
  us_capacity_liters : option Q;
  us_current_level : option Q;
  us_pressure_psi : option Q;
  us_flow_rate : option Q;
  us_status : option string;
  us_last_refill : option datetime;
  us_next_maintenance : option datetime;
  us_supplier : option string;
  us_alerts_enabled : option bool
}.

Record OxygenReading := mkOxygenReading {
  reading_id : Z;
  rd_station_id : Z;
  level_liters : Q;
  rd_pressure_psi : option Q;
  rd_flow_rate : option Q;
  temperature : option Q;
  timestamp : datetime
}.

Record CreateOxygenReading := mkCreateOxygenReading {
  cr_station_id : Z;
  cr_level_liters : Q;
  cr_pressure_psi : option Q;
  cr_flow_rate : option Q;
  cr_temperature : option Q
}.

Record OxygenStationFilter := mkOxygenStationFilter {
  f_status : option string;
  f_location : option string;
  low_level_threshold : option Q
}.

Record OxygenStatusSummary := mkOxygenStatusSummary {
  total_stations : Z;
  operational_stations : Z;
  maintenance_stations : Z;
  offline_stations : Z;
  total_capacity : Q;
  total_current_level : Q;
  average_fill_percentage : Q;
  low_level_alerts : Z
}.

(** The defaults of the dataclasses. *)
Definition default_filter : OxygenStationFilter := mkOxygenStationFilter None None None.
Definition default_pagination : PaginationParams := mkPaginationParams 1 50 "id" "ASC".

(** *** The store: the two tables of [scripts/init_database.py], their
    AUTO_INCREMENT counters and the clock of the engine *)

Record DB := mkDB {
  stations : list OxygenStation;
  readings : list OxygenReading;
  station_seq : Z;
  reading_seq : Z;
  clock : datetime
}.

(** Code that reads and writes the store and may raise. *)
Definition M (A : Type) : Type := DB -> (exn + A) * DB.

Definition ret {A : Type} (a : A) : M A := fun db => (inr a, db).

Definition raise {A : Type} (e : exn) : M A := fun db => (inl e, db).

Definition bind {A B : Type} (m : M A) (k : A -> M B) : M B :=
  fun db =>
    match m db with
    | (inl e, db') => (inl e, db')
    | (inr a, db') => k a db'
    end.

(** [try: m except Exception as e: handler e] *)
Definition try_except {A : Type} (m : M A) (handler : exn -> M A) : M A :=
  fun db =>
    match m db with
    | (inl e, db') => handler e db'
    | (inr a, db') => (inr a, db')
    end.

Declare Scope py_scope.
Delimit Scope py_scope with py.
Notation "x <- m ;; k" := (bind m (fun x => k))
  (at level 100, m at next level, right associativity) : py_scope.
Notation "m ;;; k" := (bind m (fun _ => k))
  (at level 100, right associativity) : py_scope.

(** The members of [ENUM('operational', 'maintenance', 'offline')]. *)
Definition status_values : list string := ["operational"; "maintenance"; "offline"].

Definition default {A : Type} (o : option A) (d : A) : A :=
  match o with
  | Some a => a
  | None => d
  end.

Definition opt_value {A : Type} (inj : A -> Sql.value) (o : option A) : Sql.value :=
  match o with
  | Some a => inj a
  | None => Sql.VNull
  end.

(** [current_level / capacity_liters] on a row. *)
Definition level_ratio (r : OxygenStation) : Sql.num :=
  Sql.div (Some (current_level r)) (Some (capacity_liters r)).

(** A condition of the WHERE clause with the parameter bound to it. *)
Inductive condition :=
| StatusEquals (s : string)
| LocationLike (pattern : string)
| LevelRatioBelow (q : Q).

Definition condition_sql (c : condition) : string :=
  match c with
  | StatusEquals _ => "status = %s"
  | LocationLike _ => "location LIKE %s"
  | LevelRatioBelow _ => "(current_level / capacity_liters) < %s"
  end.

(** [WHERE c1 AND c2 ...], empty without conditions. *)
Definition where_clause (conds : list condition) : string :=
  match conds with
  | [] => ""
  | _ => ("WHERE " ++ join " AND " (map condition_sql conds))%string
  end.

(** The ORDER BY clause both data queries interpolate. *)
Definition order_by_clause (pagination : PaginationParams) : string :=
  ("ORDER BY " ++ sort_by pagination ++ " " ++ sort_order pagination)%string.

(** The columns of [oxygen_stations] and the value each sorts by. *)
Definition station_columns : list (string * (OxygenStation -> Sql.value)) :=
  [ ("station_id", fun r => Sql.VInt (station_id r));
    ("station_name", fun r => Sql.VStr (station_name r));
    ("location", fun r => Sql.VStr (location r));
    ("capacity_liters", fun r => Sql.VNum (capacity_liters r));
    ("current_level", fun r => Sql.VNum (current_level r));
    ("pressure_psi", fun r => opt_value Sql.VNum (pressure_psi r));
    ("flow_rate", fun r => opt_value Sql.VNum (flow_rate r));
    ("status", fun r => Sql.VInt (Sql.enum_index status_values (status r)));
    ("last_refill", fun r => opt_value Sql.VInt (last_refill r));
    ("next_maintenance", fun r => opt_value Sql.VInt (next_maintenance r));
    ("supplier", fun r => opt_value Sql.VStr (supplier r));
    ("alerts_enabled", fun r => Sql.VInt (if alerts_enabled r then 1 else 0));
    ("created_at", fun r => Sql.VInt (created_at r));
    ("updated_at", fun r => Sql.VInt (updated_at r)) ].

(** The columns of [oxygen_readings]. *)
Definition reading_columns : list (string * (OxygenReading -> Sql.value)) :=
  [ ("reading_id", fun r => Sql.VInt (reading_id r));
    ("station_id", fun r => Sql.VInt (rd_station_id r));
    ("level_liters", fun r => Sql.VNum (level_liters r));
    ("pressure_psi", fun r => opt_value Sql.VNum (rd_pressure_psi r));
    ("flow_rate", fun r => opt_value Sql.VNum (rd_flow_rate r));
    ("temperature", fun r => opt_value Sql.VNum (temperature r));
    ("timestamp", fun r => Sql.VInt (timestamp r)) ].

(** The column a sort text names, if it is the name of one. *)
Definition column {A : Type} (cols : list (string * (A -> Sql.value))) (name : string)
  : option (A -> Sql.value) :=
  option_map snd (find (fun c => Sql.name_eq (fst c) name) cols).

(** The SET list of the dynamic update: one assignment per field that is not
    [None], in the order of the dataclass. *)
Definition update_fields (u : UpdateOxygenStation) : list string :=
  let field {A : Type} (name : string) (v : option A) : list string :=
    match v with
    | Some _ => [(name ++ " = %s")%string]
    | None => []
    end in
  field "station_name" (us_station_name u) ++ field "location" (us_location u)
  ++ field "capacity_liters" (us_capacity_liters u) ++ field "current_level" (us_current_level u)
  ++ field "pressure_psi" (us_pressure_psi u) ++ field "flow_rate" (us_flow_rate u)
  ++ field "status" (us_status u) ++ field "last_refill" (us_last_refill u)
  ++ field "next_maintenance" (us_next_maintenance u) ++ field "supplier" (us_supplier u)
  ++ field "alerts_enabled" (us_alerts_enabled u).

(** A row after the assignments of values the columns have accepted, at time
    [now]: the SET list ends with [updated_at = NOW()]. *)
Definition assign (v : UpdateOxygenStation) (now : datetime) (r : OxygenStation)
  : OxygenStation :=
  let keep {A : Type} (v : option A) (old : option A) : option A :=
    match v with
    | Some a => Some a
    | None => old
    end in
  mkOxygenStation (station_id r)
    (default (us_station_name v) (station_name r))
    (default (us_location v) (location r))
    (default (us_capacity_liters v) (capacity_liters r))
    (default (us_current_level v) (current_level r))
    (keep (us_pressure_psi v) (pressure_psi r))
    (keep (us_flow_rate v) (flow_rate r))
    (default (us_status v) (status r))
    (keep (us_last_refill v) (last_refill r))
    (keep (us_next_maintenance v) (next_maintenance r))
    (keep (us_supplier v) (supplier r))
    (default (us_alerts_enabled v) (alerts_enabled r))
    (created_at r) now.

(** [SET current_level = %s]: [updated_at] follows on its own
    (ON UPDATE CURRENT_TIMESTAMP). *)
Definition with_level (level : Q) (now : datetime) (r : OxygenStation) : OxygenStation :=
  mkOxygenStation (station_id r) (station_name r) (location r) (capacity_liters r) level
    (pressure_psi r) (flow_rate r) (status r) (last_refill r) (next_maintenance r)
    (supplier r) (alerts_enabled r) (created_at r) now.

(** Two rows with the same stored values, column by column. *)
Definition same_number (a b : option Q) : bool :=
  match a, b with
  | Some x, Some y => Qeq_bool x y
  | None, None => true
  | _, _ => false
  end.

Definition same_time (a b : option datetime) : bool :=
  match a, b with
  | Some x, Some y => x =? y
  | None, None => true
  | _, _ => false
  end.

Definition same_text (a b : option string) : bool :=
  match a, b with
  | Some x, Some y => String.eqb x y
  | None, None => true
  | _, _ => false
  end.

Definition same_station (a b : OxygenStation) : bool :=
  (station_id a =? station_id b)
  && String.eqb (station_name a) (station_name b)
  && String.eqb (location a) (location b)
  && Qeq_bool (capacity_liters a) (capacity_liters b)
  && Qeq_bool (current_level a) (current_level b)
  && same_number (pressure_psi a) (pressure_psi b)
  && same_number (flow_rate a) (flow_rate b)
  && String.eqb (status a) (status b)
  && same_time (last_refill a) (last_refill b)
  && same_time (next_maintenance a) (next_maintenance b)
  && same_text (supplier a) (supplier b)
  && Bool.eqb (alerts_enabled a) (alerts_enabled b)
  && (created_at a =? created_at b)
  && (updated_at a =? updated_at b).

(** An UPDATE by identifier: the rows of the identifier that the assignments
    [f] change are rewritten, the others stay; the number of rows changed is
    what [cursor.rowcount] reports. *)
Definition rewrite_rows (f : OxygenStation -> OxygenStation) (id : Z)
  (rows : list OxygenStation) : list OxygenStation :=
  map (fun r => if (station_id r =? id) && negb (same_station (f r) r) then f r else r) rows.

Definition rows_changed (f : OxygenStation -> OxygenStation) (id : Z)
  (rows : list OxygenStation) : Z :=
  Z.of_nat (List.length
              (filter (fun r => (station_id r =? id) && negb (same_station (f r) r)) rows)).

(** The rows an update of the level by identifier changes, and the table
    after it. *)
Definition level_changes (level : Q) (id : Z) (r : OxygenStation) : bool :=
  (station_id r =? id) && negb (Qeq_bool level (current_level r)).

Definition levels_set (level : Q) (id : Z) (now : datetime) (rows : list OxygenStation)
  : list OxygenStation :=
  map (fun r => if level_changes level id r then with_level level now r else r) rows.

Definition set_stations (rows : list OxygenStation) (db : DB) : DB :=
  mkDB rows (readings db) (station_seq db) (reading_seq db) (clock db).

(** [SELECT * FROM oxygen_stations WHERE station_id = %s] *)
Definition select_station (id : Z) : M (list OxygenStation) :=
  fun db => (inr (filter (fun r => station_id r =? id) (stations db)), db).

(** [DELETE FROM oxygen_stations WHERE station_id = %s]; the readings of the
    station go with it (ON DELETE CASCADE). *)
Definition delete_station_rows (id : Z) : M Z :=
  fun db =>
    (inr (Z.of_nat (List.length (filter (fun r => station_id r =? id) (stations db)))),
     mkDB (filter (fun r => negb (station_id r =? id)) (stations db))
          (filter (fun r => negb (rd_station_id r =? id)) (readings db))
          (station_seq db) (reading_seq db) (clock db)).

(** The row the statistics query returns. *)
Record stats_row := mkStatsRow {
  col_total_stations : Z;
  col_operational_stations : Z;
  col_maintenance_stations : Z;
  col_offline_stations : Z;
  col_total_capacity : Sql.num;
  col_total_current_level : Sql.num;
  col_average_fill_percentage : Sql.num;
  col_low_level_alerts : Z
}.

(** *** [config/database.py]

    A SELECT statement the service composes: the text handed to the engine
    and the answer of the engine to it. *)
Record query (A : Type) := mkQuery {
  text : string;
  answer : DB -> exn + A
}.
Arguments mkQuery {A}.
Arguments text {A}.
Arguments answer {A}.

(** [execute_query(query, params)] *)
Definition execute_query {A : Type} (q : query A) : M A :=
  fun db => (answer q db, db).

Local Open Scope py_scope.

(** The result every method returns from its [except] clause. *)
Definition failed {A : Type} (e : exn) : M (DatabaseResult A) :=
  ret (mkDatabaseResult false None (Some (str e)) None).

(** [a // b] on Python integers. *)
Definition floordiv (a b : Z) : M Z :=
  if b =? 0 then raise ZeroDivisionError else ret (a / b).

(** The conditions [find_all_stations] collects from the filter. *)
Definition where_conditions (filters : OxygenStationFilter) : list condition :=
  match truthy_str (f_status filters) with
  | Some s => [StatusEquals s]
  | None => []
  end
  ++ match truthy_str (f_location filters) with
     | Some l => [LocationLike ("%" ++ l ++ "%")%string]
     | None => []
     end
  ++ match truthy_num (low_level_threshold filters) with
     | Some t => [LevelRatioBelow (t / 100)%Q]
     | None => []
     end.

(** [float(value or 0)] on a nullable aggregate. *)
Definition float_or_0 (v : Sql.num) : Q := default (truthy_num v) 0%Q.

Definition find_station_by_id (id : Z) : M (DatabaseResult OxygenStation) :=
  try_except
    (found <- select_station id ;;
     match found with
     | [] => ret (mkDatabaseResult false None (Some "Oxygen station not found") None)
     | station :: _ => ret (mkDatabaseResult true (Some station) None None)
     end)
    failed.

Section WithEngine.

Context {engine : Sql.Engine}.

(** [execute_insert] and [execute_update]: when the statement fails, the
    handler calls [connection.rollback()] and raises the error again.  By
    then the [with] block has handed the connection back to the pool, so
    the handler raises what that call raises, if it raises. *)
Definition after_rollback (e : exn) : exn := default Sql.rollback e.

Definition execute_insert {A : Type} (statement : M A) : M A :=
  try_except statement (fun e => raise (after_rollback e)).

Definition execute_update {A : Type} (statement : M A) : M A :=
  try_except statement (fun e => raise (after_rollback e)).

(** *** The statements of [oxygen_service.py], by their effect *)

Definition foreign_key_error : exn :=
  DatabaseError
    (Sql.wording (Sql.ForeignKeyFails "oxygen_readings" "station_id" "oxygen_stations"
                    "station_id")).

Definition exhausted (table : string) : exn :=
  DatabaseError (Sql.wording (Sql.AutoIncrementExhausted table)).

(** The row the INSERT of [create_station] makes of a request under an
    identifier at a time: each value as its column keeps it, or the error of
    the first column that refuses its value. *)
Definition station_row (c : CreateOxygenStation) (id : Z) (now : datetime)
  : Sql.stored OxygenStation :=
  (name <- Sql.varchar_column "station_name" 100 (cs_station_name c) ;;
   place <- Sql.varchar_column "location" 255 (cs_location c) ;;
   capacity <- Sql.decimal_column "capacity_liters" 10 (cs_capacity_liters c) ;;
   level <- Sql.decimal_column "current_level" 10 (cs_current_level c) ;;
   pressure <- Sql.nullable (Sql.decimal_column "pressure_psi" 8) (cs_pressure_psi c) ;;
   flow <- Sql.nullable (Sql.decimal_column "flow_rate" 8) (cs_flow_rate c) ;;
   member <- Sql.enum_column "status" status_values (cs_status c) ;;
   firm <- Sql.nullable (Sql.varchar_column "supplier" 100) (cs_supplier c) ;;
   inr (mkOxygenStation id name place capacity level pressure flow member
          (cs_last_refill c) (cs_next_maintenance c) firm (cs_alerts_enabled c) now now))%column.

(** [INSERT INTO oxygen_stations (...) VALUES (...)], returning [lastrowid]. *)
Definition insert_station (c : CreateOxygenStation) : M Z :=
  fun db =>
    let id := station_seq db in
    match station_row c id (clock db) with
    | inl e => (inl e, db)
    | inr row =>
        if Sql.max_int <? id then (inl (exhausted "oxygen_stations"), db)
        else (inr id,
              mkDB (stations db ++ [row]) (readings db) (id + 1) (reading_seq db) (clock db))
    end.

(** The values of an update as the columns keep them. *)
Definition stored_update (u : UpdateOxygenStation) : Sql.stored UpdateOxygenStation :=
  (name <- Sql.nullable (Sql.varchar_column "station_name" 100) (us_station_name u) ;;
   place <- Sql.nullable (Sql.varchar_column "location" 255) (us_location u) ;;
   capacity <- Sql.nullable (Sql.decimal_column "capacity_liters" 10) (us_capacity_liters u) ;;
   level <- Sql.nullable (Sql.decimal_column "current_level" 10) (us_current_level u) ;;
   pressure <- Sql.nullable (Sql.decimal_column "pressure_psi" 8) (us_pressure_psi u) ;;
   flow <- Sql.nullable (Sql.decimal_column "flow_rate" 8) (us_flow_rate u) ;;
   member <- Sql.nullable (Sql.enum_column "status" status_values) (us_status u) ;;
   firm <- Sql.nullable (Sql.varchar_column "supplier" 100) (us_supplier u) ;;
   inr (mkUpdateOxygenStation name place capacity level pressure flow member
          (us_last_refill u) (us_next_maintenance u) firm (us_alerts_enabled u)))%column.

(** [UPDATE oxygen_stations SET ..., updated_at = NOW() WHERE station_id = %s],
    returning the number of rows affected.  The values are stored row by
    row, so no value is refused when no row has the identifier. *)
Definition update_station_rows (u : UpdateOxygenStation) (id : Z) : M Z :=
  fun db =>
    match filter (fun r => station_id r =? id) (stations db) with
    | [] => (inr 0, db)
    | _ =>
        match stored_update u with
        | inl e => (inl e, db)
        | inr v =>
            (inr (rows_changed (assign v (clock db)) id (stations db)),
             set_stations (rewrite_rows (assign v (clock db)) id (stations db)) db)
        end
    end.

(** The row the INSERT of [create_reading] makes of a request. *)
Definition reading_row (c : CreateOxygenReading) (id : Z) (now : datetime)
  : Sql.stored OxygenReading :=
  (station <- Sql.int_column "station_id" (cr_station_id c) ;;
   level <- Sql.decimal_column "level_liters" 10 (cr_level_liters c) ;;
   pressure <- Sql.nullable (Sql.decimal_column "pressure_psi" 8) (cr_pressure_psi c) ;;
   flow <- Sql.nullable (Sql.decimal_column "flow_rate" 8) (cr_flow_rate c) ;;
   degrees <- Sql.nullable (Sql.decimal_column "temperature" 5) (cr_temperature c) ;;
   inr (mkOxygenReading id station level pressure flow degrees now))%column.

(** [INSERT INTO oxygen_readings (...) VALUES (...)], returning [lastrowid].
    The identifier is taken from the counter before the FOREIGN KEY is
    checked, so a reading for a station that does not exist uses one up. *)
Definition insert_reading (c : CreateOxygenReading) : M Z :=
  fun db =>
    let id := reading_seq db in
    match reading_row c id (clock db) with
    | inl e => (inl e, db)
    | inr row =>
        if Sql.max_int <? id then (inl (exhausted "oxygen_readings"), db)
        else if existsb (fun r => station_id r =? cr_station_id c) (stations db)
        then (inr id,
              mkDB (stations db) (readings db ++ [row]) (station_seq db) (id + 1) (clock db))
        else (inl foreign_key_error,
              mkDB (stations db) (readings db) (station_seq db) (id + 1) (clock db))
    end.

(** [UPDATE oxygen_stations SET current_level = %s WHERE station_id = %s] *)
Definition update_level (level : Q) (id : Z) : M Z :=
  fun db =>
    match filter (fun r => station_id r =? id) (stations db) with
    | [] => (inr 0, db)
    | _ =>
        match Sql.decimal_column "current_level" 10 level with
        | inl e => (inl e, db)
        | inr stored =>
            (inr (Z.of_nat (List.length (filter (level_changes stored id) (stations db)))),
             set_stations (levels_set stored id (clock db) (stations db)) db)
        end
    end.

Definition holds (c : condition) (r : OxygenStation) : bool :=
  match c with
  | StatusEquals s => Sql.str_eq (status r) s
  | LocationLike pattern => Sql.like pattern (location r)
  | LevelRatioBelow q => Sql.is_true (Sql.lt (level_ratio r) (Some q))
  end.

Definition matches (conds : list condition) (r : OxygenStation) : bool :=
  forallb (fun c => holds c r) conds.

(** [ORDER BY sort_by sort_order LIMIT limit OFFSET offset] over the selected
    rows.  For a column and a direction the statement is read, its numbers
    first, and the rows are sorted as they are delivered; any other text is
    the engine's to answer. *)
Definition order_limit {A : Type} {scan : Sql.Scan A} (cols : list (string * (A -> Sql.value)))
  (sort_by sort_order : string) (limit offset : Z) (rows : list A) : exn + list A :=
  match column cols sort_by, Sql.direction sort_order with
  | Some key, Some ascending =>
      if Sql.bad_limit limit offset then inl Sql.syntax_error
      else inr (Sql.limit_offset limit offset
                  (Sql.order_by key ascending
                     (Sql.deliver sort_by sort_order limit offset rows)))
  | _, _ => Sql.other_order (map fst cols) sort_by sort_order limit offset rows
  end.

Context {station_scan : Sql.Scan OxygenStation} {reading_scan : Sql.Scan OxygenReading}.

(** The count query of the station list: the number of rows selected. *)
Definition count_query (conds : list condition) : query Z :=
  mkQuery
    ("SELECT COUNT(*) as total FROM oxygen_stations " ++ where_clause conds)%string
    (fun db => inr (Z.of_nat (List.length (filter (matches conds) (stations db))))).

(** The data query of the station list (layout blanks of the text reduced). *)
Definition data_query (conds : list condition) (pagination : PaginationParams)
  (offset : Z) : query (list OxygenStation) :=
  mkQuery
    ("SELECT * FROM oxygen_stations " ++ where_clause conds ++ " "
       ++ order_by_clause pagination ++ " LIMIT %s OFFSET %s")%string
    (fun db =>
       order_limit station_columns (sort_by pagination) (sort_order pagination)
         (limit pagination) offset (filter (matches conds) (stations db))).

(** The count query of the reading list: the readings of the station. *)
Definition readings_count_query (id : Z) : query Z :=
  mkQuery
    "SELECT COUNT(*) as total FROM oxygen_readings WHERE station_id = %s"
    (fun db => inr (Z.of_nat (List.length (filter (fun r => rd_station_id r =? id) (readings db))))).

(** The data query of the reading list. *)
Definition readings_data_query (id : Z) (pagination : PaginationParams) (offset : Z)
  : query (list OxygenReading) :=
  mkQuery
    ("SELECT * FROM oxygen_readings WHERE station_id = %s "
       ++ order_by_clause pagination ++ " LIMIT %s OFFSET %s")%string
    (fun db =>
       order_limit reading_columns (sort_by pagination) (sort_order pagination)
         (limit pagination) offset (filter (fun r => rd_station_id r =? id) (readings db))).

(** [COUNT(CASE WHEN status = member THEN 1 END)] *)
Definition count_status (member : string) (rows : list OxygenStation) : Z :=
  Sql.count (map (fun r => Sql.case_when_1 (Some (Sql.str_eq (status r) member))) rows).

(** The aggregate query of [get_statistics]. *)
Definition stats_query : M stats_row :=
  fun db =>
    let rows := stations db in
    (inr (mkStatsRow
            (Z.of_nat (List.length rows))
            (count_status "operational" rows)
            (count_status "maintenance" rows)
            (count_status "offline" rows)
            (Sql.sum (map (fun r => Some (capacity_liters r)) rows))
            (Sql.sum (map (fun r => Some (current_level r)) rows))
            (Sql.avg (map (fun r => Sql.mul (level_ratio r) (Sql.lit 100)) rows))
            (Sql.count (map (fun r => Sql.case_when_1 (Sql.lt (level_ratio r) (Some (2 # 10)))) rows))),
     db).

(** *** [services/oxygen_service.py] *)

Definition create_station (station_data : CreateOxygenStation)
  : M (DatabaseResult OxygenStation) :=
  try_except
    (new_id <- execute_insert (insert_station station_data) ;;
     created_station <- find_station_by_id new_id ;;
     ret (mkDatabaseResult true (data created_station) None (Some new_id)))
    failed.

Definition find_all_stations (filters : option OxygenStationFilter)
  (pagination : option PaginationParams) : M (DatabaseResult (PaginatedResult OxygenStation)) :=
  try_except
    (let filters := default filters default_filter in
     let pagination := default pagination default_pagination in
     let conds := where_conditions filters in
     total <- execute_query (count_query conds) ;;
     let offset := (page pagination - 1) * limit pagination in
     stations_data <- execute_query (data_query conds pagination offset) ;;
     total_pages <- floordiv (total + limit pagination - 1) (limit pagination) ;;
     ret (mkDatabaseResult true
            (Some (mkPaginatedResult stations_data total (page pagination)
                     (limit pagination) total_pages))
            None None))
    failed.

Definition update_station (id : Z) (update_data : UpdateOxygenStation)
  : M (DatabaseResult OxygenStation) :=
  try_except
    (match update_fields update_data with
     | [] => ret (mkDatabaseResult false None (Some "No fields to update") None)
     | _ =>
         affected_rows <- execute_update (update_station_rows update_data id) ;;
         if affected_rows =? 0
         then ret (mkDatabaseResult false None
                     (Some "Oxygen station not found or no changes made") None)
         else
           updated_station <- find_station_by_id id ;;
           ret (mkDatabaseResult true (data updated_station) None None)
     end)
    failed.

(** The data of a successful deletion is the dictionary [{"deleted": True}]. *)
Definition delete_station (id : Z) : M (DatabaseResult bool) :=
  try_except
    (affected_rows <- execute_update (delete_station_rows id) ;;
     if affected_rows =? 0
     then ret (mkDatabaseResult false None (Some "Oxygen station not found") None)
     else ret (mkDatabaseResult true (Some true) None None))
    failed.

(** The data of a successful ingestion is [{"reading_id": insert_id}]. *)
Definition create_reading (reading_data : CreateOxygenReading) : M (DatabaseResult Z) :=
  try_except
    (new_id <- execute_insert (insert_reading reading_data) ;;
     execute_update (update_level (cr_level_liters reading_data) (cr_station_id reading_data)) ;;;
     ret (mkDatabaseResult true (Some new_id) None (Some new_id)))
    failed.

Definition get_readings_for_station (id : Z) (pagination : option PaginationParams)
  : M (DatabaseResult (PaginatedResult OxygenReading)) :=
  try_except
    (let pagination := default pagination (mkPaginationParams 1 50 "timestamp" "DESC") in
     total <- execute_query (readings_count_query id) ;;
     let offset := (page pagination - 1) * limit pagination in
     readings_data <- execute_query (readings_data_query id pagination offset) ;;
     total_pages <- floordiv (total + limit pagination - 1) (limit pagination) ;;
     ret (mkDatabaseResult true
            (Some (mkPaginatedResult readings_data total (page pagination)
                     (limit pagination) total_pages))
            None None))
    failed.

Definition get_statistics : M (DatabaseResult OxygenStatusSummary) :=
  try_except
    (stats_data <- stats_query ;;
     ret (mkDatabaseResult true
            (Some (mkOxygenStatusSummary
                     (col_total_stations stats_data)
                     (col_operational_stations stats_data)
                     (col_maintenance_stations stats_data)
                     (col_offline_stations stats_data)
                     (float_or_0 (col_total_capacity stats_data))
                     (float_or_0 (col_total_current_level stats_data))
                     (float_or_0 (col_average_fill_percentage stats_data))
                     (col_low_level_alerts stats_data)))
            None None))
    failed.

End WithEngine.

(** *** [app.py]: the routes of the oxygen stations

    A route answers with a JSON body and a status code.  The query arguments
    are taken as parsed: text that [int] or [float] rejects raises before the
    service is reached and is answered 500. *)

Inductive Body (A : Type) :=
| JsonSuccess (payload : A)
| JsonFailure (message : string).
Arguments JsonSuccess {A}.
Arguments JsonFailure {A}.

Definition Response (A : Type) : Type := (Body A * Z)%type.

(** The arguments of a list request, each absent or given by the caller. *)
Record ListArgs := mkListArgs {
  arg_page : option Z;
  arg_limit : option Z;
  arg_sort_by : option string;
  arg_sort_order : option string
}.

Record StationArgs := mkStationArgs {
  arg_status : option string;
  arg_location : option string;
  arg_low_level_threshold : option Q
}.

(** [PaginationParams(page=int(args.get('page', 1)), ...)] with the defaults
    of the route. *)
Definition pagination_of (args : ListArgs) (default_sort_by default_sort_order : string)
  : PaginationParams :=
  mkPaginationParams (default (arg_page args) 1) (default (arg_limit args) 50)
    (default (arg_sort_by args) default_sort_by)
    (default (arg_sort_order args) default_sort_order).

(** The answer of a route that reads an attribute of the data of a result:
    on [None] the access raises, which the route answers 500. *)
Definition respond {A B : Type} (result : DatabaseResult A) (attribute : string)
  (ok : A -> Response B) (failure_code : Z) : Response B :=
  if success result then
    match data result with
    | Some d => ok d
    | None =>
        (JsonFailure
           (str (AttributeError ("'NoneType' object has no attribute '" ++ attribute ++ "'")%string)),
         500)
    end
  else (JsonFailure (default (error result) ""), failure_code).

(** GET [/api/oxygen/stations/<id>] *)
Definition get_oxygen_station_by_id (id : Z) (db : DB) : Response OxygenStation * DB :=
  match find_station_by_id id db with
  | (inr result, db') => (respond result "__dict__" (fun d => (JsonSuccess d, 200)) 404, db')
  | (inl e, db') => (JsonFailure (str e), 500, db')
  end.

Section Routes.

Context {engine : Sql.Engine}.
Context {station_scan : Sql.Scan OxygenStation} {reading_scan : Sql.Scan OxygenReading}.

(** GET [/api/oxygen/stations] *)
Definition get_oxygen_stations (filter_args : StationArgs) (args : ListArgs) (db : DB)
  : Response (PaginatedResult OxygenStation) * DB :=
  let filters := mkOxygenStationFilter (arg_status filter_args) (arg_location filter_args)
                   (arg_low_level_threshold filter_args) in
  let pagination := pagination_of args "station_name" "ASC" in
  match find_all_stations (Some filters) (Some pagination) db with
  | (inr result, db') => (respond result "data" (fun d => (JsonSuccess d, 200)) 400, db')
  | (inl e, db') => (JsonFailure (str e), 500, db')
  end.

(** POST [/api/oxygen/stations] *)
Definition create_oxygen_station (station_data : CreateOxygenStation) (db : DB)
  : Response (OxygenStation * option Z) * DB :=
  match create_station station_data db with
  | (inr result, db') =>
      (respond result "__dict__" (fun d => (JsonSuccess (d, insert_id result), 201)) 400, db')
  | (inl e, db') => (JsonFailure (str e), 500, db')
  end.

(** POST [/api/oxygen/stations/<id>/readings]: the route puts the station of
    the path into the body. *)
Definition create_oxygen_reading (id : Z) (body : CreateOxygenReading) (db : DB)
  : Response (option Z) * DB :=
  let reading_data := mkCreateOxygenReading id (cr_level_liters body) (cr_pressure_psi body)
                        (cr_flow_rate body) (cr_temperature body) in
  match create_reading reading_data db with
  | (inr result, db') =>
      if success result then (JsonSuccess (data result), 201, db')
      else (JsonFailure (default (error result) ""), 400, db')
  | (inl e, db') => (JsonFailure (str e), 500, db')
  end.

(** GET [/api/oxygen/stations/<id>/readings] *)
Definition get_oxygen_readings (id : Z) (args : ListArgs) (db : DB)
  : Response (PaginatedResult OxygenReading) * DB :=
  let pagination := pagination_of args "timestamp" "DESC" in
  match get_readings_for_station id (Some pagination) db with
  | (inr result, db') => (respond result "data" (fun d => (JsonSuccess d, 200)) 400, db')
  | (inl e, db') => (JsonFailure (str e), 500, db')
  end.

End Routes.

End OxygenService.

(** ** The patients of the Flask application: [services/patient_service.py]

    The table [patients] of [scripts/init_database.py], with the timestamps
    its statements set.  The dataclasses of results and pagination are the
    shared ones of [models/database.py].  The date of birth is the day of
    the datetime the route parsed, which is what the DATE column keeps. *)

Module PatientService.

Definition datetime := Z.

Record Patient := mkPatient {
  patient_id : Z;
  patient_number : string;
  first_name : string;
  last_name : string;
  date_of_birth : datetime;
  gender : string;
  phone : option string;
  email : option string;
  address : option string;
  emergency_contact_name : option string;
  emergency_contact_phone : option string;
  blood_type : option string;
  allergies : option string;
  medical_history : option string;
  status : string;
  created_at : datetime;
  updated_at : datetime
}.

Record CreatePatient := mkCreatePatient {
  cp_patient_number : string;
  cp_first_name : string;
  cp_last_name : string;
  cp_date_of_birth : datetime;
  cp_gender : string;
  cp_phone : option string;
  cp_email : option string;
  cp_address : option string;
  cp_emergency_contact_name : option string;
  cp_emergency_contact_phone : option string;
  cp_blood_type : option string;
  cp_allergies : option string;
  cp_medical_history : option string;
  cp_status : string
}.

Record UpdatePatient := mkUpdatePatient {
  up_first_name : option string;
  up_last_name : option string;
  up_date_of_birth : option datetime;
  up_gender : option string;
  up_phone : option string;
  up_email : option string;
  up_address : option string;
  up_emergency_contact_name : option string;
  up_emergency_contact_phone : option string;
  up_blood_type : option string;
  up_allergies : option string;
  up_medical_history : option string;
  up_status : option string
}.

Record PatientFilter := mkPatientFilter {
  pf_status : option string;
  pf_gender : option string;
  pf_blood_type : option string;
  pf_search : option string
}.

Definition default_filter : PatientFilter := mkPatientFilter None None None None.

(** The table, its AUTO_INCREMENT counter and the clock of the engine, in
    seconds of the session's time zone (UTC, as the pool sets it). *)
Record DB := mkDB {
  patients : list Patient;
  patient_seq : Z;
  clock : datetime
}.

Definition M (A : Type) : Type := DB -> (exn + A) * DB.

Definition ret {A : Type} (a : A) : M A := fun db => (inr a, db).

Definition raise {A : Type} (e : exn) : M A := fun db => (inl e, db).

Definition bind {A B : Type} (m : M A) (k : A -> M B) : M B :=
  fun db =>
    match m db with
    | (inl e, db') => (inl e, db')
    | (inr a, db') => k a db'
    end.

Definition try_except {A : Type} (m : M A) (handler : exn -> M A) : M A :=
  fun db =>
    match m db with
    | (inl e, db') => handler e db'
    | (inr a, db') => (inr a, db')
    end.

Declare Scope patient_scope.
Delimit Scope patient_scope with patient.
Notation "x <- m ;; k" := (bind m (fun x => k))
  (at level 100, m at next level, right associativity) : patient_scope.

Local Open Scope patient_scope.

Definition failed {A : Type} (e : exn) : M (OxygenService.DatabaseResult A) :=
  ret (OxygenService.mkDatabaseResult false None (Some (str e)) None).

Definition floordiv (a b : Z) : M Z :=
  if b =? 0 then raise ZeroDivisionError else ret (a / b).

(** The members of the two enumerations of the table. *)
Definition gender_values : list string := ["Male"; "Female"; "Other"].

Definition status_values : list string := ["active"; "inactive"; "admitted"; "deleted"].

(** [SELECT * FROM patients WHERE patient_id = %s] *)
Definition select_by_id (id : Z) : M (list Patient) :=
  fun db => (inr (filter (fun r => patient_id r =? id) (patients db)), db).

(** A condition of the WHERE clause of the list, with its parameters. *)
Inductive condition :=
| StatusEquals (s : string)
| GenderEquals (s : string)
| BloodTypeEquals (s : string)
| Search (pattern : string).

Definition condition_sql (c : condition) : string :=
  match c with
  | StatusEquals _ => "status = %s"
  | GenderEquals _ => "gender = %s"
  | BloodTypeEquals _ => "blood_type = %s"
  | Search _ => "(first_name LIKE %s OR last_name LIKE %s OR patient_number LIKE %s)"
  end.

Definition where_conditions (filters : PatientFilter) : list condition :=
  match truthy_str (pf_status filters) with
  | Some s => [StatusEquals s]
  | None => []
  end
  ++ match truthy_str (pf_gender filters) with
     | Some s => [GenderEquals s]
     | None => []
     end
  ++ match truthy_str (pf_blood_type filters) with
     | Some s => [BloodTypeEquals s]
     | None => []
     end
  ++ match truthy_str (pf_search filters) with
     | Some s => [Search ("%" ++ s ++ "%")%string]
     | None => []
     end.

Definition where_clause (conds : list condition) : string :=
  match conds with
  | [] => ""
  | _ => ("WHERE " ++ join " AND " (map condition_sql conds))%string
  end.

(** The columns of [patients] and the value each sorts by. *)
Definition patient_columns : list (string * (Patient -> Sql.value)) :=
  [ ("patient_id", fun r => Sql.VInt (patient_id r));
    ("patient_number", fun r => Sql.VStr (patient_number r));
    ("first_name", fun r => Sql.VStr (first_name r));
    ("last_name", fun r => Sql.VStr (last_name r));
    ("date_of_birth", fun r => Sql.VInt (date_of_birth r));
    ("gender", fun r => Sql.VInt (Sql.enum_index gender_values (gender r)));
    ("phone", fun r => OxygenService.opt_value Sql.VStr (phone r));
    ("email", fun r => OxygenService.opt_value Sql.VStr (email r));
    ("address", fun r => OxygenService.opt_value Sql.VStr (address r));
    ("emergency_contact_name", fun r => OxygenService.opt_value Sql.VStr (emergency_contact_name r));
    ("emergency_contact_phone",
     fun r => OxygenService.opt_value Sql.VStr (emergency_contact_phone r));
    ("blood_type", fun r => OxygenService.opt_value Sql.VStr (blood_type r));
    ("allergies", fun r => OxygenService.opt_value Sql.VStr (allergies r));
    ("medical_history", fun r => OxygenService.opt_value Sql.VStr (medical_history r));
    ("status", fun r => Sql.VInt (Sql.enum_index status_values (status r)));
    ("created_at", fun r => Sql.VInt (created_at r));
    ("updated_at", fun r => Sql.VInt (updated_at r)) ].

(** The text of the data query of the list (layout blanks reduced). *)
Definition data_query_text (conds : list condition)
  (pagination : OxygenService.PaginationParams) : string :=
  ("SELECT * FROM patients " ++ where_clause conds ++ " "
     ++ OxygenService.order_by_clause pagination ++ " LIMIT %s OFFSET %s")%string.

(** The SET list of the dynamic update. *)
Definition update_fields (u : UpdatePatient) : list string :=
  let field {A : Type} (name : string) (v : option A) : list string :=
    match v with
    | Some _ => [(name ++ " = %s")%string]
    | None => []
    end in
  field "first_name" (up_first_name u) ++ field "last_name" (up_last_name u)
  ++ field "date_of_birth" (up_date_of_birth u) ++ field "gender" (up_gender u)
  ++ field "phone" (up_phone u) ++ field "email" (up_email u)
  ++ field "address" (up_address u)
  ++ field "emergency_contact_name" (up_emergency_contact_name u)
  ++ field "emergency_contact_phone" (up_emergency_contact_phone u)
  ++ field "blood_type" (up_blood_type u) ++ field "allergies" (up_allergies u)
  ++ field "medical_history" (up_medical_history u) ++ field "status" (up_status u).

(** A row after the assignments of values the columns have accepted, at time
    [now]. *)
Definition assign (v : UpdatePatient) (now : datetime) (r : Patient) : Patient :=
  let keep {A : Type} (v : option A) (old : option A) : option A :=
    match v with
    | Some a => Some a
    | None => old
    end in
  mkPatient (patient_id r) (patient_number r)
    (OxygenService.default (up_first_name v) (first_name r))
    (OxygenService.default (up_last_name v) (last_name r))
    (OxygenService.default (up_date_of_birth v) (date_of_birth r))
    (OxygenService.default (up_gender v) (gender r))
    (keep (up_phone v) (phone r))
    (keep (up_email v) (email r))
    (keep (up_address v) (address r))
    (keep (up_emergency_contact_name v) (emergency_contact_name r))
    (keep (up_emergency_contact_phone v) (emergency_contact_phone r))
    (keep (up_blood_type v) (blood_type r))
    (keep (up_allergies v) (allergies r))
    (keep (up_medical_history v) (medical_history r))
    (OxygenService.default (up_status v) (status r))
    (created_at r) now.

(** Two rows with the same stored values, column by column. *)
Definition same_text (a b : option string) : bool :=
  match a, b with
  | Some x, Some y => String.eqb x y
  | None, None => true
  | _, _ => false
  end.

Definition same_row (a b : Patient) : bool :=
  (patient_id a =? patient_id b)
  && String.eqb (patient_number a) (patient_number b)
  && String.eqb (first_name a) (first_name b)
  && String.eqb (last_name a) (last_name b)
  && (date_of_birth a =? date_of_birth b)
  && String.eqb (gender a) (gender b)
  && same_text (phone a) (phone b)
  && same_text (email a) (email b)
  && same_text (address a) (address b)
  && same_text (emergency_contact_name a) (emergency_contact_name b)
  && same_text (emergency_contact_phone a) (emergency_contact_phone b)
  && same_text (blood_type a) (blood_type b)
  && same_text (allergies a) (allergies b)
  && same_text (medical_history a) (medical_history b)
  && String.eqb (status a) (status b)
  && (created_at a =? created_at b)
  && (updated_at a =? updated_at b).

(** The number of rows an UPDATE reports ([cursor.rowcount]): the rows with
    the identifier whose stored values the assignments [f] change. *)
Definition rows_changed (f : Patient -> Patient) (id : Z) (rows : list Patient) : Z :=
  Z.of_nat (List.length (filter (fun r => negb (same_row (f r) r))
                           (filter (fun r => patient_id r =? id) rows))).

Definition mark_deleted (now : datetime) (r : Patient) : Patient :=
  mkPatient (patient_id r) (patient_number r) (first_name r) (last_name r) (date_of_birth r)
    (gender r) (phone r) (email r) (address r) (emergency_contact_name r)
    (emergency_contact_phone r) (blood_type r) (allergies r) (medical_history r)
    "deleted" (created_at r) now.

(** [UPDATE patients SET status = 'deleted', updated_at = NOW()
    WHERE patient_id = %s], returning the number of rows affected. *)
Definition soft_delete_rows (id : Z) : M Z :=
  fun db =>
    (inr (rows_changed (mark_deleted (clock db)) id (patients db)),
     mkDB (map (fun r => if patient_id r =? id then mark_deleted (clock db) r else r)
               (patients db))
          (patient_seq db) (clock db)).

(** The row of counts the statistics query returns. *)
Record stats := mkStats {
  total_patients : Z;
  active_patients : Z;
  inactive_patients : Z;
  admitted_patients : Z;
  male_patients : Z;
  female_patients : Z;
  new_today : Z
}.

(** [DATE(t)] of a timestamp in seconds. *)
Definition date_of (t : datetime) : Z := t / 86400.

Definition count_when (p : Patient -> bool) (rows : list Patient) : Z :=
  Sql.count (map (fun r => Sql.case_when_1 (Some (p r))) rows).

(** *** The methods of [PatientService] *)

Definition find_by_id (id : Z) : M (OxygenService.DatabaseResult Patient) :=
  try_except
    (found <- select_by_id id ;;
     match found with
     | [] => ret (OxygenService.mkDatabaseResult false None (Some "Patient not found") None)
     | patient :: _ => ret (OxygenService.mkDatabaseResult true (Some patient) None None)
     end)
    failed.

Section WithEngine.

Context {engine : Sql.Engine} {patient_scan : Sql.Scan Patient}.

(** [execute_insert] and [execute_update] of [config/database.py]. *)
Definition execute_insert {A : Type} (statement : M A) : M A :=
  try_except statement (fun e => raise (OxygenService.after_rollback e)).

Definition execute_update {A : Type} (statement : M A) : M A :=
  try_except statement (fun e => raise (OxygenService.after_rollback e)).

Definition duplicate_error (number : string) : exn :=
  DatabaseError (Sql.wording (Sql.DuplicateEntry "patients" "patient_number" number)).

(** The row the INSERT of [create] makes of a request under an identifier at
    a time, or the error of the first column that refuses its value. *)
Definition patient_row (c : CreatePatient) (id : Z) (now : datetime) : Sql.stored Patient :=
  (number <- Sql.varchar_column "patient_number" 50 (cp_patient_number c) ;;
   first <- Sql.varchar_column "first_name" 100 (cp_first_name c) ;;
   last <- Sql.varchar_column "last_name" 100 (cp_last_name c) ;;
   sex <- Sql.enum_column "gender" gender_values (cp_gender c) ;;
   telephone <- Sql.nullable (Sql.varchar_column "phone" 20) (cp_phone c) ;;
   mail <- Sql.nullable (Sql.varchar_column "email" 255) (cp_email c) ;;
   home <- Sql.nullable (Sql.text_column "address") (cp_address c) ;;
   contact <- Sql.nullable (Sql.varchar_column "emergency_contact_name" 200)
                (cp_emergency_contact_name c) ;;
   contact_phone <- Sql.nullable (Sql.varchar_column "emergency_contact_phone" 20)
                      (cp_emergency_contact_phone c) ;;
   blood <- Sql.nullable (Sql.varchar_column "blood_type" 5) (cp_blood_type c) ;;
   allergy <- Sql.nullable (Sql.text_column "allergies") (cp_allergies c) ;;
   history <- Sql.nullable (Sql.text_column "medical_history") (cp_medical_history c) ;;
   member <- Sql.enum_column "status" status_values (cp_status c) ;;
   inr (mkPatient id number first last (cp_date_of_birth c) sex telephone mail home contact
          contact_phone blood allergy history member now now))%column.

(** [INSERT INTO patients (...) VALUES (...)], returning [lastrowid].  The
    identifier is taken from the counter before the UNIQUE key is checked,
    so a duplicate number uses one up. *)
Definition insert_patient (c : CreatePatient) : M Z :=
  fun db =>
    let id := patient_seq db in
    match patient_row c id (clock db) with
    | inl e => (inl e, db)
    | inr row =>
        if Sql.max_int <? id then (inl (OxygenService.exhausted "patients"), db)
        else if existsb (fun r => Sql.str_eq (patient_number r) (patient_number row))
                        (patients db)
        then (inl (duplicate_error (patient_number row)),
              mkDB (patients db) (id + 1) (clock db))
        else (inr id, mkDB (patients db ++ [row]) (id + 1) (clock db))
    end.

(** [SELECT * FROM patients WHERE patient_number = %s] *)
Definition select_by_number (number : string) : M (list Patient) :=
  fun db => (inr (filter (fun r => Sql.str_eq (patient_number r) number) (patients db)), db).

Definition holds (c : condition) (r : Patient) : bool :=
  match c with
  | StatusEquals s => Sql.str_eq (status r) s
  | GenderEquals s => Sql.str_eq (gender r) s
  | BloodTypeEquals s =>
      match blood_type r with
      | Some b => Sql.str_eq b s
      | None => false
      end
  | Search pattern =>
      Sql.like pattern (first_name r) || Sql.like pattern (last_name r)
      || Sql.like pattern (patient_number r)
  end.

Definition matches (conds : list condition) (r : Patient) : bool :=
  forallb (fun c => holds c r) conds.

(** The count query of the list. *)
Definition count_query (conds : list condition) : M Z :=
  fun db => (inr (Z.of_nat (List.length (filter (matches conds) (patients db)))), db).

(** The data query of the list. *)
Definition data_query (conds : list condition) (pagination : OxygenService.PaginationParams)
  (offset : Z) : M (list Patient) :=
  fun db =>
    match OxygenService.order_limit patient_columns (OxygenService.sort_by pagination)
            (OxygenService.sort_order pagination) (OxygenService.limit pagination) offset
            (filter (matches conds) (patients db)) with
    | inl e => (inl e, db)
    | inr rows => (inr rows, db)
    end.

(** The values of an update as the columns keep them. *)
Definition stored_update (u : UpdatePatient) : Sql.stored UpdatePatient :=
  (first <- Sql.nullable (Sql.varchar_column "first_name" 100) (up_first_name u) ;;
   last <- Sql.nullable (Sql.varchar_column "last_name" 100) (up_last_name u) ;;
   sex <- Sql.nullable (Sql.enum_column "gender" gender_values) (up_gender u) ;;
   telephone <- Sql.nullable (Sql.varchar_column "phone" 20) (up_phone u) ;;
   mail <- Sql.nullable (Sql.varchar_column "email" 255) (up_email u) ;;
   home <- Sql.nullable (Sql.text_column "address") (up_address u) ;;
   contact <- Sql.nullable (Sql.varchar_column "emergency_contact_name" 200)
                (up_emergency_contact_name u) ;;
   contact_phone <- Sql.nullable (Sql.varchar_column "emergency_contact_phone" 20)
                      (up_emergency_contact_phone u) ;;
   blood <- Sql.nullable (Sql.varchar_column "blood_type" 5) (up_blood_type u) ;;
   allergy <- Sql.nullable (Sql.text_column "allergies") (up_allergies u) ;;
   history <- Sql.nullable (Sql.text_column "medical_history") (up_medical_history u) ;;
   member <- Sql.nullable (Sql.enum_column "status" status_values) (up_status u) ;;
   inr (mkUpdatePatient first last (up_date_of_birth u) sex telephone mail home contact
          contact_phone blood allergy history member))%column.

(** [UPDATE patients SET ..., updated_at = NOW() WHERE patient_id = %s],
    returning the number of rows affected. *)
Definition update_rows (u : UpdatePatient) (id : Z) : M Z :=
  fun db =>
    match filter (fun r => patient_id r =? id) (patients db) with
    | [] => (inr 0, db)
    | _ =>
        match stored_update u with
        | inl e => (inl e, db)
        | inr v =>
            (inr (rows_changed (assign v (clock db)) id (patients db)),
             mkDB (map (fun r => if patient_id r =? id then assign v (clock db) r else r)
                       (patients db))
                  (patient_seq db) (clock db))
        end
    end.

(** The aggregate query of [get_statistics], over the patients that are not
    deleted. *)
Definition stats_query : M stats :=
  fun db =>
    let rows := filter (fun r => negb (Sql.str_eq (status r) "deleted")) (patients db) in
    (inr (mkStats
            (Z.of_nat (List.length rows))
            (count_when (fun r => Sql.str_eq (status r) "active") rows)
            (count_when (fun r => Sql.str_eq (status r) "inactive") rows)
            (count_when (fun r => Sql.str_eq (status r) "admitted") rows)
            (count_when (fun r => Sql.str_eq (gender r) "Male") rows)
            (count_when (fun r => Sql.str_eq (gender r) "Female") rows)
            (count_when (fun r => date_of (created_at r) =? date_of (clock db)) rows)),
     db).

Definition find_by_patient_number (number : string) : M (OxygenService.DatabaseResult Patient) :=
  try_except
    (found <- select_by_number number ;;
     match found with
     | [] => ret (OxygenService.mkDatabaseResult false None (Some "Patient not found") None)
     | patient :: _ => ret (OxygenService.mkDatabaseResult true (Some patient) None None)
     end)
    failed.

Definition create (patient_data : CreatePatient) : M (OxygenService.DatabaseResult Patient) :=
  try_except
    (new_id <- execute_insert (insert_patient patient_data) ;;
     created_patient <- find_by_id new_id ;;
     ret (OxygenService.mkDatabaseResult true (OxygenService.data created_patient) None
            (Some new_id)))
    failed.

Definition find_all (filters : option PatientFilter)
  (pagination : option OxygenService.PaginationParams)
  : M (OxygenService.DatabaseResult (OxygenService.PaginatedResult Patient)) :=
  try_except
    (let filters := OxygenService.default filters default_filter in
     let pagination := OxygenService.default pagination OxygenService.default_pagination in
     let conds := where_conditions filters in
     total <- count_query conds ;;
     let offset := (OxygenService.page pagination - 1) * OxygenService.limit pagination in
     patients_data <- data_query conds pagination offset ;;
     total_pages <- floordiv (total + OxygenService.limit pagination - 1)
                      (OxygenService.limit pagination) ;;
     ret (OxygenService.mkDatabaseResult true
            (Some (OxygenService.mkPaginatedResult patients_data total
                     (OxygenService.page pagination) (OxygenService.limit pagination)
                     total_pages))
            None None))
    failed.

Definition update (id : Z) (update_data : UpdatePatient)
  : M (OxygenService.DatabaseResult Patient) :=
  try_except
    (match update_fields update_data with
     | [] => ret (OxygenService.mkDatabaseResult false None (Some "No fields to update") None)
     | _ =>
         affected_rows <- execute_update (update_rows update_data id) ;;
         if affected_rows =? 0
         then ret (OxygenService.mkDatabaseResult false None
                     (Some "Patient not found or no changes made") None)
         else
           updated_patient <- find_by_id id ;;
           ret (OxygenService.mkDatabaseResult true (OxygenService.data updated_patient)
                  None None)
     end)
    failed.

(** The soft delete; the data of a success is [{"deleted": True}]. *)
Definition delete (id : Z) : M (OxygenService.DatabaseResult bool) :=
  try_except
    (affected_rows <- execute_update (soft_delete_rows id) ;;
     if affected_rows =? 0
     then ret (OxygenService.mkDatabaseResult false None (Some "Patient not found") None)
     else ret (OxygenService.mkDatabaseResult true (Some true) None None))
    failed.

Definition get_statistics : M (OxygenService.DatabaseResult stats) :=
  try_except
    (row <- stats_query ;;
     ret (OxygenService.mkDatabaseResult true (Some row) None None))
    failed.

End WithEngine.

(** *** [app.py]: the routes of the patients *)

Record PatientArgs := mkPatientArgs {
  arg_status : option string;
  arg_gender : option string;
  arg_blood_type : option string;
  arg_search : option string
}.

(** GET [/api/patients/<id>] *)
Definition get_patient_by_id (id : Z) (db : DB) : OxygenService.Response Patient * DB :=
  match find_by_id id db with
  | (inr result, db') =>
      (OxygenService.respond result "__dict__"
         (fun d => (OxygenService.JsonSuccess d, 200)) 404, db')
  | (inl e, db') => (OxygenService.JsonFailure (str e), 500, db')
  end.

Section Routes.

Context {engine : Sql.Engine} {patient_scan : Sql.Scan Patient}.

(** GET [/api/patients] *)
Definition get_patients (filter_args : PatientArgs) (args : OxygenService.ListArgs) (db : DB)
  : OxygenService.Response (OxygenService.PaginatedResult Patient) * DB :=
  let filters := mkPatientFilter (arg_status filter_args) (arg_gender filter_args)
                   (arg_blood_type filter_args) (arg_search filter_args) in
  let pagination := OxygenService.pagination_of args "patient_id" "ASC" in
  match find_all (Some filters) (Some pagination) db with
  | (inr result, db') =>
      (OxygenService.respond result "data" (fun d => (OxygenService.JsonSuccess d, 200)) 400,
       db')
  | (inl e, db') => (OxygenService.JsonFailure (str e), 500, db')
  end.

(** POST [/api/patients] *)
Definition create_patient (patient_data : CreatePatient) (db : DB)
  : OxygenService.Response (Patient * option Z) * DB :=
  match create patient_data db with
  | (inr result, db') =>
      (OxygenService.respond result "__dict__"
         (fun d => (OxygenService.JsonSuccess (d, OxygenService.insert_id result), 201)) 400,
       db')
  | (inl e, db') => (OxygenService.JsonFailure (str e), 500, db')
  end.

(** PUT [/api/patients/<id>] *)
Definition update_patient (id : Z) (update_data : UpdatePatient) (db : DB)
  : OxygenService.Response Patient * DB :=
  match update id update_data db with
  | (inr result, db') =>
      (OxygenService.respond result "__dict__"
         (fun d => (OxygenService.JsonSuccess d, 200)) 400, db')
  | (inl e, db') => (OxygenService.JsonFailure (str e), 500, db')
  end.

(** DELETE [/api/patients/<id>] *)
Definition delete_patient (id : Z) (db : DB) : OxygenService.Response (option bool) * DB :=
  match delete id db with
  | (inr result, db') =>
      if OxygenService.success result
      then (OxygenService.JsonSuccess (OxygenService.data result), 200, db')
      else (OxygenService.JsonFailure (OxygenService.default (OxygenService.error result) ""),
            404, db')
  | (inl e, db') => (OxygenService.JsonFailure (str e), 500, db')
  end.

End Routes.

End PatientService.

(** * The vocabulary of the specification and the data of its scenarios *)

(** The station of the scenarios: capacity 500, full, thresholds 30 and 15. *)
Definition scenario_station : Main.Station :=
  Main.mkStation 1 "OXY001" "Oxygen Station 1" "ICU - Bed 1" 500 500 "normal"
    (Some 30%Q) (Some 15%Q).

(** The status rule in the words of the specification: the ratio of the
    level to the capacity, as a percentage, against the two thresholds. *)
Definition spec_status (current_level capacity threshold_low threshold_critical : Q) : string :=
  let ratio := (current_level / capacity * 100)%Q in
  if Qle_bool ratio threshold_critical then "critical"
  else if Qle_bool ratio threshold_low then "low"
  else "normal".

(** A station of the Flask application: capacity 500, full, operational. *)
Definition full_station : OxygenService.OxygenStation :=
  OxygenService.mkOxygenStation 1 "Main Station A" "ICU Floor 1" 500 500 None None
    "operational" None None None true 0 0.

Definition one_station_db : OxygenService.DB :=
  OxygenService.mkDB [full_station] [] 2 1 0.

Definition empty_db : OxygenService.DB := OxygenService.mkDB [] [] 1 1 0.

(** A reading of 60 litres for station 1, and one of 600 litres. *)
Definition reading_60 : OxygenService.CreateOxygenReading :=
  OxygenService.mkCreateOxygenReading 1 60 None None None.

Definition reading_600 : OxygenService.CreateOxygenReading :=
  OxygenService.mkCreateOxygenReading 1 600 None None None.

(** A creation request with capacity -10. *)
Definition negative_capacity_request : OxygenService.CreateOxygenStation :=
  OxygenService.mkCreateOxygenStation "Ward Station" "Ward 3" (-10) 0 None None
    "operational" None None None true.

(** A creation request within the bound, and an update that sets the level. *)
Definition emergency_station_request : OxygenService.CreateOxygenStation :=
  OxygenService.mkCreateOxygenStation "Emergency Station B" "Emergency Room" 300 200
    (Some 140%Q) (Some 3%Q) "operational" None None (Some "MedGas Ltd") true.

Definition refill_update : OxygenService.UpdateOxygenStation :=
  OxygenService.mkUpdateOxygenStation None None None (Some 450%Q) None None None None None
    None None.

(** List arguments whose sort texts name no column and no direction. *)
Definition arbitrary_sort_args : OxygenService.ListArgs :=
  OxygenService.mkListArgs None None (Some "no_such_column") (Some "SIDEWAYS").

Definition no_filter_args : OxygenService.StationArgs :=
  OxygenService.mkStationArgs None None None.

(** The rows a list call returned, none when it failed. *)
Definition page_rows {A : Type}
  (out : (exn + OxygenService.DatabaseResult (OxygenService.PaginatedResult A))
         * OxygenService.DB) : list A :=
  match fst out with
  | inr res =>
      match OxygenService.data res with
      | Some p => OxygenService.pr_data p
      | None => []
      end
  | inl _ => []
  end.

(** The page numbers 1, 2, ..., n. *)
Definition pages_upto (n : Z) : list Z := map Z.of_nat (seq 1 (Z.to_nat n)).

(** The smallest integer not below total / limit. *)
Definition ceil_div (total limit : Z) : Z := Qceiling (inject_Z total / inject_Z limit).

(** Three stations, two of them with the same name, and a page of two. *)
Definition three_stations_db : OxygenService.DB :=
  OxygenService.mkDB
    [ OxygenService.mkOxygenStation 1 "Station B" "ICU Floor 1" 500 450 None None
        "operational" None None None true 0 0;
      OxygenService.mkOxygenStation 2 "Station A" "Emergency Room" 300 200 None None
        "operational" None None None true 0 0;
      OxygenService.mkOxygenStation 3 "Station B" "Surgery Wing" 400 380 None None
        "maintenance" None None None true 0 0 ]
    [] 4 1 0.

(** The fill percentage of a station: current_level / capacity * 100. *)
Definition fill_percentage (r : OxygenService.OxygenStation) : Q :=
  (OxygenService.current_level r / OxygenService.capacity_liters r * 100)%Q.

Definition sum_over (f : OxygenService.OxygenStation -> Q)
  (rows : list OxygenService.OxygenStation) : Q :=
  fold_right (fun r acc => (f r + acc)%Q) 0%Q rows.

(** The arithmetic mean of the fill percentages of the stations. *)
Definition mean_fill (rows : list OxygenService.OxygenStation) : Q :=
  (sum_over fill_percentage rows / inject_Z (Z.of_nat (List.length rows)))%Q.

(** The other reading: the sum of the levels over the sum of the capacities. *)
Definition pooled_fill (rows : list OxygenService.OxygenStation) : Q :=
  (sum_over OxygenService.current_level rows
   / sum_over OxygenService.capacity_liters rows * 100)%Q.

(** The summary a statistics call returned, if it succeeded. *)
Definition summary_of
  (out : (exn + OxygenService.DatabaseResult OxygenService.OxygenStatusSummary)
         * OxygenService.DB) : option OxygenService.OxygenStatusSummary :=
  match fst out with
  | inr res => if OxygenService.success res then OxygenService.data res else None
  | inl _ => None
  end.

(** A station whose level is below a fifth of its capacity; a capacity of
    zero gives no ratio. *)
Definition below_fifth (r : OxygenService.OxygenStation) : bool :=
  negb (Qeq_bool (OxygenService.capacity_liters r) 0)
  && negb (Qle_bool (20 # 100)
             (OxygenService.current_level r / OxygenService.capacity_liters r)).

(** Two stations of capacities 100 and 200, both half full. *)
Definition half_full_db : OxygenService.DB :=
  OxygenService.mkDB
    [ OxygenService.mkOxygenStation 1 "Station A" "Ward 1" 100 50 None None
        "operational" None None None true 0 0;
      OxygenService.mkOxygenStation 2 "Station B" "Ward 2" 200 100 None None
        "operational" None None None true 0 0 ]
    [] 3 1 0.

(** Two stores whose stations have the same levels and capacities and differ
    in everything else that is configured. *)
Definition low_stations_db : OxygenService.DB :=
  OxygenService.mkDB
    [ OxygenService.mkOxygenStation 1 "Station A" "Ward 1" 100 10 None None
        "operational" None None None true 0 0;
      OxygenService.mkOxygenStation 2 "Station B" "Ward 2" 200 100 None None
        "operational" None None None true 0 0 ]
    [] 3 1 0.

Definition low_stations_db_other : OxygenService.DB :=
  OxygenService.mkDB
    [ OxygenService.mkOxygenStation 7 "Tank 7" "Cellar" 100 10 (Some 50%Q) None
        "offline" None None (Some "OxyGen Corp") false 0 0;
      OxygenService.mkOxygenStation 9 "Tank 9" "Roof" 200 100 None (Some 3%Q)
        "maintenance" None None None true 0 0 ]
    [] 10 1 5.

(** List arguments that ask for pages of no row. *)
Definition zero_limit_args : OxygenService.ListArgs :=
  OxygenService.mkListArgs None (Some 0) None None.

Definition default_list_args : OxygenService.ListArgs :=
  OxygenService.mkListArgs None None None None.

(** No reading without its station: the FOREIGN KEY of [oxygen_readings]. *)
Definition readings_reference_stations (db : OxygenService.DB) : Prop :=
  forall rd, In rd (OxygenService.readings db) ->
             exists st, In st (OxygenService.stations db)
                        /\ OxygenService.station_id st = OxygenService.rd_station_id rd.

(** The bound on the level of a station, for the two applications. *)
Definition level_in_bounds (r : OxygenService.OxygenStation) : Prop :=
  (0 <= OxygenService.current_level r <= OxygenService.capacity_liters r)%Q.

Definition main_level_in_bounds (r : Main.Station) : Prop :=
  0 <= Main.current_level_liters r <= Main.capacity_liters r.

(** ** Stores the engine can reach

    What the keys and constraints of [scripts/init_database.py] guarantee of
    the two tables: the identifiers are unique and were issued by the
    AUTO_INCREMENT counters, every reading has its station, and every status
    is a member of the enumeration. *)
Record store_ok (db : OxygenService.DB) : Prop := mkStoreOk {
  station_ids_unique : NoDup (map OxygenService.station_id (OxygenService.stations db));
  station_ids_issued :
    forall r, In r (OxygenService.stations db) ->
              OxygenService.station_id r < OxygenService.station_seq db;
  reading_ids_unique : NoDup (map OxygenService.reading_id (OxygenService.readings db));
  reading_ids_issued :
    forall rd, In rd (OxygenService.readings db) ->
               OxygenService.reading_id rd < OxygenService.reading_seq db;
  readings_have_station : readings_reference_stations db;
  statuses_are_members :
    forall r, In r (OxygenService.stations db) ->
              In (OxygenService.status r) OxygenService.status_values
}.

(** The store a call leaves, and the result it returns. *)
Definition store_after {A : Type} (out : (exn + A) * OxygenService.DB) : OxygenService.DB :=
  snd out.

Definition result_of {A : Type} (out : (exn + OxygenService.DatabaseResult A) * OxygenService.DB)
  : option (OxygenService.DatabaseResult A) :=
  match fst out with
  | inr res => Some res
  | inl _ => None
  end.

(** How alarming a status of the level update is. *)
Definition severity (s : string) : Z :=
  if String.eqb s "critical" then 2
  else if String.eqb s "low" then 1
  else 0.

(** A store with two stations and two readings of the first. *)
Definition two_station_db : OxygenService.DB :=
  OxygenService.mkDB
    [ full_station;
      OxygenService.mkOxygenStation 2 "Emergency Station B" "Emergency Room" 300 200
        (Some 140%Q) (Some 3%Q) "operational" None None (Some "MedGas Ltd") true 0 0 ]
    [ OxygenService.mkOxygenReading 1 1 480 None None None 10;
      OxygenService.mkOxygenReading 2 1 450 None None (Some 21%Q) 20 ]
    3 3 30.

(** An update that renames a station and puts it into maintenance. *)
Definition maintenance_update : OxygenService.UpdateOxygenStation :=
  OxygenService.mkUpdateOxygenStation (Some "Main Station A (serviced)") None None None None
    None (Some "MAINTENANCE") None None None None.

Definition empty_update : OxygenService.UpdateOxygenStation :=
  OxygenService.mkUpdateOxygenStation None None None None None None None None None None None.

Definition bad_status_update : OxygenService.UpdateOxygenStation :=
  OxygenService.mkUpdateOxygenStation None None None None None None (Some "critical") None None
    None None.

(** ** Patients

    What the keys and constraints guarantee of [patients]: identifiers unique
    and issued by the counter, patient numbers unique under the collation,
    gender and status members of their enumerations. *)
Record patients_ok {engine : Sql.Engine} (db : PatientService.DB) : Prop := mkPatientsOk {
  patient_ids_unique : NoDup (map PatientService.patient_id (PatientService.patients db));
  patient_ids_issued :
    forall r, In r (PatientService.patients db) ->
              PatientService.patient_id r < PatientService.patient_seq db;
  patient_numbers_unique :
    ForallOrdPairs
      (fun a b => Sql.str_eq (PatientService.patient_number a)
                    (PatientService.patient_number b) = false)
      (PatientService.patients db);
  genders_are_members :
    forall r, In r (PatientService.patients db) ->
              In (PatientService.gender r) PatientService.gender_values;
  patient_statuses_are_members :
    forall r, In r (PatientService.patients db) ->
              In (PatientService.status r) PatientService.status_values
}.

(** A patient row a soft delete at the time of the store leaves as it is:
    deleted already, with the present time as its [updated_at]. *)
Definition deleted_just_now (db : PatientService.DB) (p : PatientService.Patient) : bool :=
  String.eqb "deleted" (PatientService.status p)
  && (PatientService.clock db =? PatientService.updated_at p).

(** The patients that are not deleted. *)
Definition not_deleted {engine : Sql.Engine} (r : PatientService.Patient) : bool :=
  negb (Sql.str_eq (PatientService.status r) "deleted").

(** The statistics a call returned, if it succeeded. *)
Definition patient_stats_of
  (out : (exn + OxygenService.DatabaseResult PatientService.stats) * PatientService.DB)
  : option PatientService.stats :=
  match fst out with
  | inr res => if OxygenService.success res then OxygenService.data res else None
  | inl _ => None
  end.

(** Two patients of the sample data, and requests for a third. *)
Definition john_doe : PatientService.Patient :=
  PatientService.mkPatient 1 "P001" "John" "Doe" 5613 "Male" (Some "555-0101")
    (Some "john.doe@email.com") (Some "123 Main St") (Some "Jane Doe") (Some "555-0102")
    (Some "O+") (Some "None") (Some "Healthy") "active" 100 100.

Definition jane_smith : PatientService.Patient :=
  PatientService.mkPatient 2 "P002" "Jane" "Smith" 7538 "Female" (Some "555-0201")
    (Some "jane.smith@email.com") (Some "456 Oak Ave") (Some "John Smith") (Some "555-0202")
    (Some "A+") (Some "Penicillin") (Some "Diabetes Type 1") "admitted" 200 200.

Definition two_patients_db : PatientService.DB :=
  PatientService.mkDB [john_doe; jane_smith] 3 90000.

Definition robert_request : PatientService.CreatePatient :=
  PatientService.mkCreatePatient "P003" "Robert" "Johnson" 3258 "male" (Some "555-0301")
    None None None None (Some "B-") None (Some "Hypertension") "active".

Definition duplicate_request : PatientService.CreatePatient :=
  PatientService.mkCreatePatient "p001" "Johnny" "Doe" 5613 "Male" None None None None None
    None None None "active".

(** A request whose blood type is longer than the five characters of its
    column. *)
Definition long_blood_type_request : PatientService.CreatePatient :=
  PatientService.mkCreatePatient "P001" "Johnny" "Doe" 5613 "Male" None None None None None
    (Some "O positive") None None "active".

(** An update of the status alone, in capitals. *)
Definition inactive_update : PatientService.UpdatePatient :=
  PatientService.mkUpdatePatient None None None None None None None None None None None None
    (Some "INACTIVE").


(** A creation request with another capacity, and a row with another. *)
Definition with_capacity (q : Q) (c : OxygenService.CreateOxygenStation)
  : OxygenService.CreateOxygenStation :=
  OxygenService.mkCreateOxygenStation (OxygenService.cs_station_name c)
    (OxygenService.cs_location c) q (OxygenService.cs_current_level c)
    (OxygenService.cs_pressure_psi c) (OxygenService.cs_flow_rate c)
    (OxygenService.cs_status c) (OxygenService.cs_last_refill c)
    (OxygenService.cs_next_maintenance c) (OxygenService.cs_supplier c)
    (OxygenService.cs_alerts_enabled c).

Definition row_with_capacity (q : Q) (r : OxygenService.OxygenStation)
  : OxygenService.OxygenStation :=
  OxygenService.mkOxygenStation (OxygenService.station_id r) (OxygenService.station_name r)
    (OxygenService.location r) q (OxygenService.current_level r)
    (OxygenService.pressure_psi r) (OxygenService.flow_rate r) (OxygenService.status r)
    (OxygenService.last_refill r) (OxygenService.next_maintenance r)
    (OxygenService.supplier r) (OxygenService.alerts_enabled r)
    (OxygenService.created_at r) (OxygenService.updated_at r).

(** No two different rows sort alike under a key. *)
Definition no_ties {engine : Sql.Engine} {A : Type} (key : A -> Sql.value) (rows : list A)
  : Prop :=
  forall a b, In a rows -> In b rows ->
              Sql.value_leb (key a) (key b) = true -> Sql.value_leb (key b) (key a) = true ->
              a = b.

(** * Properties *)

(** ** The embedding on the sample data *)

Example like_is_a_substring_match :
  Sql.like "%room%" "Emergency Room" = true /\ Sql.like "%room%" "Surgery Wing" = false.
Proof. split; reflexivity. Qed.

Example collation_pads_and_folds :
  Sql.str_eq "offline " "OFFLINE" = true /\ Sql.str_eq "offline" "off line" = false.
Proof. split; reflexivity. Qed.

Example decimal_rounds_and_refuses :
  Sql.decimal 10 (60005 # 1000) = Some (6001 # 100)%Q
  /\ Sql.decimal 10 (-(60005 # 1000)) = Some (-(6001 # 100))%Q
  /\ Sql.decimal 10 60 = Some 60%Q
  /\ Sql.decimal 5 1000 = None
  /\ Sql.decimal 10 1000000000 = None
  /\ Sql.decimal 10 (9999999999 # 100) = Some (9999999999 # 100)%Q.
Proof. repeat split; reflexivity. Qed.

Example varchar_cuts_blanks_only :
  Sql.varchar 5 "O+" = Some "O+"
  /\ Sql.varchar 5 "AB+   " = Some "AB+  "
  /\ Sql.varchar 5 "AB+/O-" = None.
Proof. repeat split; reflexivity. Qed.

Example enum_members :
  Sql.enum OxygenService.status_values "OFFLINE " = Some "offline"
  /\ Sql.enum OxygenService.status_values "2" = Some "maintenance"
  /\ Sql.enum OxygenService.status_values "critical" = None
  /\ Sql.enum OxygenService.status_values "" = None.
Proof. repeat split; reflexivity. Qed.

Example filter_and_sort_by_name :
  map OxygenService.station_id
    (page_rows (OxygenService.find_all_stations
                  (Some (OxygenService.mkOxygenStationFilter (Some "operational") None None))
                  (Some (OxygenService.mkPaginationParams 1 10 "station_name" "ASC"))
                  three_stations_db))
  = [2; 1].
Proof. reflexivity. Qed.

Example below_threshold_filter :
  map OxygenService.station_id
    (page_rows (OxygenService.find_all_stations
                  (Some (OxygenService.mkOxygenStationFilter None None (Some 70%Q)))
                  (Some (OxygenService.mkPaginationParams 1 10 "station_id" "DESC"))
                  three_stations_db))
  = [2].
Proof. reflexivity. Qed.

Example statistics_of_three_stations :
  option_map (fun s => (OxygenService.total_stations s, OxygenService.operational_stations s,
                        OxygenService.maintenance_stations s, OxygenService.low_level_alerts s))
    (summary_of (OxygenService.get_statistics three_stations_db))
  = Some (3, 2, 1, 0).
Proof. reflexivity. Qed.

Example reading_for_a_missing_station_is_refused :
  OxygenService.create_oxygen_reading 99 reading_60 one_station_db
  = (OxygenService.JsonFailure
       "1452 (23000): Cannot add or update a child row: a foreign key constraint fails (`healthcare_db`.`oxygen_readings`, CONSTRAINT `oxygen_readings_ibfk_1` FOREIGN KEY (`station_id`) REFERENCES `oxygen_stations` (`station_id`) ON DELETE CASCADE)",
     400, OxygenService.mkDB [full_station] [] 2 2 0).
Proof. reflexivity. Qed.

Example refusal_behind_a_closing_pool :
  fst (@OxygenService.create_oxygen_reading Sql.closing_pool 99 reading_60 one_station_db)
  = (OxygenService.JsonFailure "'NoneType' object has no attribute 'rollback'", 400).
Proof. reflexivity. Qed.

Example deleting_a_station_deletes_its_readings :
  snd (OxygenService.delete_station 1
         (snd (OxygenService.create_reading reading_60 one_station_db)))
  = OxygenService.mkDB [] [] 2 2 0.
Proof. reflexivity. Qed.

Example update_of_a_missing_station :
  fst (Main.update_oxygen_level 7 100 [scenario_station])
  = inl (Main.mkHTTPException 404 "Oxygen station not found").
Proof. reflexivity. Qed.

(** ** Facts about the SQL layer *)

Lemma inject_Z_nonzero (z : Z) : z <> 0 -> Qeq_bool (inject_Z z) 0 = false.
Proof.
  intro Hz. destruct (Qeq_bool (inject_Z z) 0) eqn:E; [|reflexivity].
  apply Qeq_bool_iff in E. unfold Qeq in E. simpl in E. lia.
Qed.

Lemma Qle_bool_false (x y : Q) : Qle_bool x y = false <-> ~ (x <= y)%Q.
Proof.
  split.
  - intros E H. apply Qle_bool_iff in H. congruence.
  - intro H. destruct (Qle_bool x y) eqn:E; [|reflexivity].
    exfalso. apply H. now apply Qle_bool_iff.
Qed.

Lemma append_assoc (a b c : string) : ((a ++ b) ++ c = a ++ (b ++ c))%string.
Proof.
  induction a as [|x a IH]; simpl; [reflexivity|]. now rewrite IH.
Qed.

(** *** The reference engine keeps the laws *)

Section ReferenceFacts.

Import Sql.

Lemma codes_eqb_refl (l : list nat) : codes_eqb l l = true.
Proof.
  induction l as [|x l IH]; simpl; [reflexivity|]. now rewrite Nat.eqb_refl.
Qed.

Lemma codes_leb_total (a b : list nat) : codes_leb a b = true \/ codes_leb b a = true.
Proof.
  revert b. induction a as [|x a IH]; intros [|y b]; simpl; auto.
  destruct (Nat.ltb x y) eqn:Hxy; [left; reflexivity|].
  destruct (Nat.ltb y x) eqn:Hyx; [right; reflexivity|].
  apply IH.
Qed.

Lemma codes_leb_trans (a b c : list nat) :
  codes_leb a b = true -> codes_leb b c = true -> codes_leb a c = true.
Proof.
  revert b c. induction a as [|x a IH]; intros [|y b] [|z c]; simpl; auto; try discriminate.
  destruct (Nat.ltb x y) eqn:Hxy, (Nat.ltb y x) eqn:Hyx,
           (Nat.ltb y z) eqn:Hyz, (Nat.ltb z y) eqn:Hzy,
           (Nat.ltb x z) eqn:Hxz, (Nat.ltb z x) eqn:Hzx;
    try discriminate; try reflexivity;
    repeat match goal with
           | H : Nat.ltb _ _ = true |- _ => apply Nat.ltb_lt in H
           | H : Nat.ltb _ _ = false |- _ => apply Nat.ltb_ge in H
           end;
    try (exfalso; lia).
  apply IH.
Qed.

Lemma word_no_blank_end (s : string) : all_chars letter s = true -> rtrim s = s.
Proof.
  induction s as [|c s IH]; simpl; [reflexivity|].
  intro H. apply andb_prop in H. destruct H as [Hc Hs].
  rewrite (IH Hs). destruct s as [|d s']; [|reflexivity].
  destruct (Ascii.eqb c " ") eqn:E; [|reflexivity].
  apply Ascii.eqb_eq in E. subst c. discriminate.
Qed.

Lemma codes_eqb_name_eq (a b : string) :
  codes_eqb (map (fun c => nat_of_ascii (fold_case c)) (list_ascii_of_string a))
            (map (fun c => nat_of_ascii (fold_case c)) (list_ascii_of_string b))
  = name_eq a b.
Proof.
  revert b. induction a as [|x a IH]; intros [|y b]; simpl; try reflexivity.
  rewrite IH. f_equal.
  destruct (Ascii.eqb (fold_case x) (fold_case y)) eqn:E.
  - apply Ascii.eqb_eq in E. rewrite E. apply Nat.eqb_refl.
  - apply Nat.eqb_neq. intro H. apply (f_equal ascii_of_nat) in H.
    rewrite !ascii_nat_embedding in H. rewrite H, Ascii.eqb_refl in E. discriminate.
Qed.

Lemma codes_eqb_eq (a b : list nat) : codes_eqb a b = true <-> a = b.
Proof.
  revert b. induction a as [|x a IH]; intros [|y b]; simpl; split; intro H;
    try reflexivity; try discriminate.
  - apply andb_prop in H. destruct H as [Hxy Hab].
    apply Nat.eqb_eq in Hxy. apply IH in Hab. now subst.
  - injection H as -> ->. rewrite Nat.eqb_refl. now apply IH.
Qed.

Lemma reference_lawful : Lawful reference.
Proof.
  constructor.
  - intro a. apply codes_eqb_refl.
  - intros a b. cbn [str_eq reference]. rewrite !codes_eqb_eq. congruence.
  - intros a b c. cbn [str_eq reference]. rewrite !codes_eqb_eq. congruence.
  - intros a b Ha Hb. cbn [str_eq reference]. unfold lower.
    destruct a as [|x a]; [discriminate|]. destruct b as [|y b]; [discriminate|].
    rewrite (word_no_blank_end _ Ha), (word_no_blank_end _ Hb).
    apply codes_eqb_name_eq.
  - intros a b. apply codes_leb_total.
  - intros a b c. apply codes_leb_trans.
  - reflexivity.
Qed.

Lemma table_order_lawful (engine : Engine) (A : Type) :
  (forall s, reserved s = false -> existsb (name_eq s) reserved_words = false) ->
  LawfulScan A (table_order A).
Proof.
  intro Hres. constructor.
  - intros. apply Permutation_refl.
  - intros columns sb so limit offset rows window. cbn [other_order table_order].
    destruct (direction so); [|discriminate].
    destruct (bad_limit limit offset); [discriminate|].
    destruct (_ && _)%bool; discriminate.
  - intros columns sb so limit offset rows Hid Hnot _ Hdir Hlim.
    cbn [other_order table_order].
    destruct (direction so); [|congruence].
    rewrite Hlim, Hid, (Hres sb Hnot). reflexivity.
Qed.

Lemma reference_scan_lawful (A : Type) : @LawfulScan reference A (table_order A).
Proof.
  apply table_order_lawful. intros s Hs. exact Hs.
Qed.

End ReferenceFacts.

#[global] Existing Instance reference_lawful.
#[global] Existing Instance reference_scan_lawful.

(** ** The level update of [main.py] *)

Section MainFacts.

Import Main.

Lemma find_map_level (id level : Z) (db : Table) :
  find (fun r => station_id r =? id)
       (map (fun r => if station_id r =? id then set_level level r else r) db)
  = option_map (set_level level) (find (fun r => station_id r =? id) db).
Proof.
  induction db as [|r db IH]; simpl; [reflexivity|].
  destruct (station_id r =? id) eqn:E; simpl.
  - rewrite E. reflexivity.
  - rewrite E. exact IH.
Qed.

Lemma find_key_unique (id : Z) (db : Table) (st : Station) :
  NoDup (map station_id db) ->
  find (fun r => station_id r =? id) db = Some st ->
  forall r, In r db -> station_id r = id -> r = st.
Proof.
  induction db as [|x db IH]; simpl; intros Hnd Hfind r Hin Hid; [contradiction|].
  inversion Hnd as [|? ? Hnotin Hnd']; subst.
  destruct (station_id x =? station_id r) eqn:E.
  - injection Hfind as <-. apply Z.eqb_eq in E.
    destruct Hin as [->|Hin]; [reflexivity|].
    exfalso. apply Hnotin. rewrite E. now apply in_map.
  - destruct Hin as [->|Hin]; [rewrite Z.eqb_refl in E; discriminate|].
    now apply IH.
Qed.

Lemma no_zero_capacity (id : Z) (db : Table) (st : Station) :
  NoDup (map station_id db) ->
  find (fun r => station_id r =? id) db = Some st ->
  capacity_liters st <> 0 ->
  existsb (fun r => (station_id r =? id) && (capacity_liters r =? 0)) db = false.
Proof.
  intros Hnd Hfind Hcap.
  destruct (existsb _ db) eqn:E; [|reflexivity].
  apply existsb_exists in E. destruct E as (r & Hin & Hr).
  apply andb_prop in Hr. destruct Hr as [Hid Hzero].
  apply Z.eqb_eq in Hid. apply Z.eqb_eq in Hzero.
  rewrite (find_key_unique id db st Hnd Hfind r Hin Hid) in Hzero. contradiction.
Qed.

End MainFacts.

(** C4: a direct level update above the capacity of an existing station is
    answered 400 with the message "Level cannot exceed capacity", and the
    table, hence the level and the status of the station, is the one before
    the call. *)
Theorem C4_update_above_capacity_rejected :
  forall (db : Main.Table) (id level : Z) (st : Main.Station),
    find (fun r => Main.station_id r =? id) db = Some st ->
    level > Main.capacity_liters st ->
    Main.update_oxygen_level id level db
    = (inl (Main.mkHTTPException 400 "Level cannot exceed capacity"), db).
Proof.
  intros db id level st Hfind Hgt.
  unfold Main.update_oxygen_level, Main.check_query. rewrite Hfind. simpl.
  replace (level >? Main.capacity_liters st) with true; [reflexivity|].
  symmetry. apply Z.gtb_lt. lia.
Qed.

Lemma C4_update_above_capacity_rejected_witness :
  Main.update_oxygen_level 1 600 [scenario_station]
  = (inl (Main.mkHTTPException 400 "Level cannot exceed capacity"), [scenario_station]).
Proof.
  apply (C4_update_above_capacity_rejected [scenario_station] 1 600 scenario_station).
  - reflexivity.
  - simpl. lia.
Defined.



(** *** Column types *)

Section ColumnFacts.

Import Sql.

Lemma round_half_away_le (a b : Q) : (a <= b)%Q -> round_half_away a <= round_half_away b.
Proof.
  destruct a as [n1 d1], b as [n2 d2]. unfold Qle, round_half_away. cbn [Qnum Qden].
  intro H.
  assert (Hfloor : forall n d m e : Z, 0 < d -> 0 < e -> 0 <= n -> n * e <= m * d ->
                     (2 * n + d) / (2 * d) <= (2 * m + e) / (2 * e)).
  { intros n d m e Hd He Hn Hle.
    apply Z.div_le_lower_bound; [lia|].
    assert (Hq := Z.mul_div_le (2 * n + d) (2 * d) ltac:(lia)).
    assert (Hr : 2 * d * ((2 * n + d) / (2 * d)) * (2 * e) <= (2 * m + e) * (2 * d)) by nia.
    nia. }
  assert (Hpos : forall n d, 0 < d -> 0 <= n -> 0 <= (2 * n + d) / (2 * d)).
  { intros n d Hd Hn. apply Z.div_pos; lia. }
  destruct (Z.sgn_spec n1) as [[H1 E1]|[[H1 E1]|[H1 E1]]],
           (Z.sgn_spec n2) as [[H2 E2]|[[H2 E2]|[H2 E2]]]; rewrite E1, E2.
  - rewrite !Z.mul_1_l. apply Hfloor; lia.
  - exfalso. subst n2. nia.
  - exfalso. nia.
  - rewrite Z.mul_0_l, Z.mul_1_l. apply Hpos; lia.
  - lia.
  - exfalso. subst n1. nia.
  - assert (0 <= (2 * Z.abs n1 + Z.pos d1) / (2 * Z.pos d1)) by (apply Hpos; lia).
    assert (0 <= (2 * Z.abs n2 + Z.pos d2) / (2 * Z.pos d2)) by (apply Hpos; lia).
    lia.
  - assert (0 <= (2 * Z.abs n1 + Z.pos d1) / (2 * Z.pos d1)) by (apply Hpos; lia).
    lia.
  - assert (Hge : (2 * Z.abs n2 + Z.pos d2) / (2 * Z.pos d2)
                  <= (2 * Z.abs n1 + Z.pos d1) / (2 * Z.pos d1)).
    { apply Hfloor; lia. }
    lia.
Qed.

Lemma round_half_away_0 : round_half_away 0 = 0.
Proof. reflexivity. Qed.

Lemma decimal_value (precision : Z) (q v : Q) :
  decimal precision q = Some v -> v = Qred (round_half_away (q * 100) # 100).
Proof.
  unfold decimal. destruct (_ <? _); [|discriminate]. now intros [= <-].
Qed.

(** Rounding to two decimals keeps the order. *)
Lemma decimal_le (p1 p2 : Z) (a b a' b' : Q) :
  decimal p1 a = Some a' -> decimal p2 b = Some b' -> (a <= b)%Q -> (a' <= b')%Q.
Proof.
  intros Ha Hb Hle. rewrite (decimal_value _ _ _ Ha), (decimal_value _ _ _ Hb).
  rewrite !Qred_correct. unfold Qle. cbn [Qnum Qden].
  assert (round_half_away (a * 100) <= round_half_away (b * 100)).
  { apply round_half_away_le. apply Qmult_le_compat_r; [exact Hle|]. unfold Qle. simpl. lia. }
  lia.
Qed.

Lemma decimal_nonneg (p : Z) (a a' : Q) : decimal p a = Some a' -> (0 <= a)%Q -> (0 <= a')%Q.
Proof.
  intros Ha Hle. rewrite (decimal_value _ _ _ Ha). rewrite Qred_correct.
  assert (H : round_half_away 0 <= round_half_away (a * 100)).
  { apply round_half_away_le. apply Qmult_le_0_compat; [exact Hle|]. unfold Qle. simpl. lia. }
  rewrite round_half_away_0 in H. unfold Qle. cbn [Qnum Qden]. lia.
Qed.

Lemma decimal_column_inr (column : string) (p : Z) (q v : Q) :
  decimal_column column p q = inr v <-> decimal p q = Some v.
Proof.
  unfold decimal_column. destruct (decimal p q); split; congruence.
Qed.

Lemma enum_column_inr {engine : Engine} (column : string) (members : list string) (s v : string) :
  enum_column column members s = inr v <-> enum members s = Some v.
Proof.
  unfold enum_column. destruct (enum members s); split; congruence.
Qed.

Lemma nth_error_member {A : Type} (l : list A) (n : nat) (x : A) :
  nth_error l n = Some x -> In x l.
Proof. apply nth_error_In. Qed.

(** What an ENUM column keeps is one of its members. *)
Lemma enum_member {engine : Engine} (members : list string) (s v : string) :
  enum members s = Some v -> In v members.
Proof.
  unfold enum. destruct (find _ members) as [m|] eqn:E.
  - intros [= <-]. now apply find_some in E.
  - destruct (_ && _); [|discriminate]. apply nth_error_In.
Qed.

End ColumnFacts.

(** Case analysis on the conversions of a row, one column after the other. *)
Ltac column_cases H :=
  repeat match type of H with
         | context [Sql.varchar_column ?c ?n ?s] =>
             let E := fresh "Hcol" in
             destruct (Sql.varchar_column c n s) eqn:E; cbn [Sql.and_then Sql.nullable] in H;
             [discriminate H|]
         | context [Sql.text_column ?c ?s] =>
             let E := fresh "Hcol" in
             destruct (Sql.text_column c s) eqn:E; cbn [Sql.and_then Sql.nullable] in H;
             [discriminate H|]
         | context [Sql.decimal_column ?c ?n ?s] =>
             let E := fresh "Hcol" in
             destruct (Sql.decimal_column c n s) eqn:E; cbn [Sql.and_then Sql.nullable] in H;
             [discriminate H|]
         | context [Sql.int_column ?c ?s] =>
             let E := fresh "Hcol" in
             destruct (Sql.int_column c s) eqn:E; cbn [Sql.and_then Sql.nullable] in H;
             [discriminate H|]
         | context [Sql.enum_column ?c ?n ?s] =>
             let E := fresh "Hcol" in
             destruct (Sql.enum_column c n s) eqn:E; cbn [Sql.and_then Sql.nullable] in H;
             [discriminate H|]
         | context [Sql.nullable ?f ?v] =>
             let E := fresh "Hcol" in
             destruct (Sql.nullable f v) eqn:E; cbn [Sql.and_then] in H;
             [discriminate H|]
         end.

(** ** Reading ingestion and station creation in [oxygen_service.py] *)

Section ServiceFacts.

Import OxygenService.

Context {engine : Sql.Engine}.

Lemma find_station_by_id_run (id : Z) (db : DB) :
  find_station_by_id id db
  = (inr match filter (fun r => station_id r =? id) (stations db) with
         | [] => mkDatabaseResult false None (Some "Oxygen station not found") None
         | station :: _ => mkDatabaseResult true (Some station) None None
         end, db).
Proof.
  unfold find_station_by_id, try_except, bind, select_station, ret.
  destruct (filter _ (stations db)); reflexivity.
Qed.

(** The columns of the row a creation request becomes. *)
Lemma station_row_columns (c : CreateOxygenStation) (id : Z) (now : datetime)
  (row : OxygenStation) :
  station_row c id now = inr row ->
  station_id row = id
  /\ Sql.varchar 100 (cs_station_name c) = Some (station_name row)
  /\ Sql.varchar 255 (cs_location c) = Some (location row)
  /\ Sql.decimal 10 (cs_capacity_liters c) = Some (capacity_liters row)
  /\ Sql.decimal 10 (cs_current_level c) = Some (current_level row)
  /\ Sql.enum status_values (cs_status c) = Some (status row)
  /\ last_refill row = cs_last_refill c
  /\ next_maintenance row = cs_next_maintenance c
  /\ alerts_enabled row = cs_alerts_enabled c
  /\ created_at row = now
  /\ updated_at row = now.
Proof.
  unfold station_row. intro H. column_cases H. injection H as <-. cbn.
  unfold Sql.varchar_column in *.
  destruct (Sql.varchar 100 _); [|discriminate].
  destruct (Sql.varchar 255 _); [|discriminate].
  apply decimal_column_inr in Hcol1, Hcol2. apply enum_column_inr in Hcol5.
  repeat split; congruence.
Qed.

(** The same request is converted alike under every identifier and time. *)
Lemma station_row_any (c : CreateOxygenStation) (id id' : Z) (now now' : datetime)
  (row : OxygenStation) :
  station_row c id now = inr row ->
  exists row', station_row c id' now' = inr row'.
Proof.
  unfold station_row. intro H. column_cases H. eexists. reflexivity.
Qed.

Lemma create_station_accepted (c : CreateOxygenStation) (db : DB) (row : OxygenStation) :
  station_row c (station_seq db) (clock db) = inr row ->
  station_seq db <= Sql.max_int ->
  exists found,
    create_station c db
    = (inr (mkDatabaseResult true (Some found) None (Some (station_seq db))),
       mkDB (stations db ++ [row]) (readings db)
            (station_seq db + 1) (reading_seq db) (clock db))
    /\ In found (stations db ++ [row])
    /\ station_id found = station_seq db.
Proof.
  intros Hrow Hseq.
  unfold create_station, execute_insert, try_except, bind, insert_station. rewrite Hrow.
  replace (Sql.max_int <? station_seq db) with false by (symmetry; apply Z.ltb_ge; lia).
  rewrite find_station_by_id_run. cbn [stations].
  assert (Hin : In row (filter (fun r => station_id r =? station_seq db)
                          (stations db ++ [row]))).
  { apply filter_In. split; [apply in_or_app; right; left; reflexivity|].
    rewrite (proj1 (station_row_columns _ _ _ _ Hrow)). apply Z.eqb_refl. }
  destruct (filter _ (stations db ++ _)) as [|found rest] eqn:E; [contradiction|].
  exists found. split; [reflexivity|].
  assert (Hf : In found (found :: rest)) by (left; reflexivity).
  rewrite <- E in Hf. apply filter_In in Hf. destruct Hf as [Hf1 Hf2].
  split; [exact Hf1|now apply Z.eqb_eq].
Qed.

Lemma create_station_refused (c : CreateOxygenStation) (db : DB) (e : exn) :
  station_row c (station_seq db) (clock db) = inl e ->
  create_station c db
  = (inr (mkDatabaseResult false None (Some (str (after_rollback e))) None), db).
Proof.
  intro Hrow.
  unfold create_station, execute_insert, try_except, bind, insert_station, failed, ret, raise.
  rewrite Hrow. reflexivity.
Qed.

Lemma create_station_exhausted (c : CreateOxygenStation) (db : DB) (row : OxygenStation) :
  station_row c (station_seq db) (clock db) = inr row ->
  Sql.max_int < station_seq db ->
  create_station c db
  = (inr (mkDatabaseResult false None
            (Some (str (after_rollback (exhausted "oxygen_stations")))) None), db).
Proof.
  intros Hrow Hseq.
  unfold create_station, execute_insert, try_except, bind, insert_station, failed, ret, raise.
  rewrite Hrow.
  replace (Sql.max_int <? station_seq db) with true by (symmetry; apply Z.ltb_lt; lia).
  reflexivity.
Qed.

(** [create_station] always returns a result, and a failure leaves the store
    as it was. *)
Lemma create_station_total (c : CreateOxygenStation) (db : DB) :
  exists res db',
    create_station c db = (inr res, db')
    /\ (success res = false -> db' = db).
Proof.
  destruct (station_row c (station_seq db) (clock db)) as [e|row] eqn:Hrow.
  - do 2 eexists. split; [apply create_station_refused; exact Hrow|reflexivity].
  - destruct (Z_le_gt_dec (station_seq db) Sql.max_int) as [Hseq|Hseq].
    + destruct (create_station_accepted c db row Hrow Hseq) as (found & Hrun & _).
      do 2 eexists. split; [exact Hrun|]. simpl. discriminate.
    + do 2 eexists. split; [apply (create_station_exhausted c db row Hrow); lia|reflexivity].
Qed.

(** The columns of the row a reading becomes. *)
Lemma reading_row_columns (c : CreateOxygenReading) (id : Z) (now : datetime)
  (row : OxygenReading) :
  reading_row c id now = inr row ->
  reading_id row = id
  /\ rd_station_id row = cr_station_id c
  /\ Sql.decimal 10 (cr_level_liters c) = Some (level_liters row)
  /\ Sql.nullable (Sql.decimal_column "pressure_psi" 8) (cr_pressure_psi c)
     = inr (rd_pressure_psi row)
  /\ Sql.nullable (Sql.decimal_column "flow_rate" 8) (cr_flow_rate c) = inr (rd_flow_rate row)
  /\ Sql.nullable (Sql.decimal_column "temperature" 5) (cr_temperature c)
     = inr (temperature row)
  /\ timestamp row = now.
Proof.
  unfold reading_row. intro H. column_cases H. injection H as <-. cbn.
  apply decimal_column_inr in Hcol0.
  unfold Sql.int_column, Sql.int in Hcol. destruct (_ && _); [|discriminate].
  repeat split; congruence.
Qed.

Lemma create_reading_existing (c : CreateOxygenReading) (db : DB) (row : OxygenReading) :
  existsb (fun r => station_id r =? cr_station_id c) (stations db) = true ->
  reading_row c (reading_seq db) (clock db) = inr row ->
  reading_seq db <= Sql.max_int ->
  create_reading c db
  = (inr (mkDatabaseResult true (Some (reading_seq db)) None (Some (reading_seq db))),
     mkDB (levels_set (level_liters row) (cr_station_id c) (clock db) (stations db))
          (readings db ++ [row])
          (station_seq db) (reading_seq db + 1) (clock db)).
Proof.
  intros Hex Hrow Hseq.
  destruct (reading_row_columns _ _ _ _ Hrow) as (_ & _ & Hlevel & _).
  unfold create_reading, execute_insert, execute_update, try_except, bind, insert_reading,
    update_level, ret, set_stations.
  rewrite Hrow, Hex.
  replace (Sql.max_int <? reading_seq db) with false by (symmetry; apply Z.ltb_ge; lia).
  cbn [stations readings station_seq reading_seq clock].
  destruct (filter (fun r => station_id r =? cr_station_id c) (stations db)) eqn:Hf.
  - exfalso. apply existsb_exists in Hex. destruct Hex as (st & Hin & Hid).
    assert (Hst : In st (filter (fun r => station_id r =? cr_station_id c) (stations db)))
      by (apply filter_In; split; assumption).
    rewrite Hf in Hst. contradiction.
  - rewrite (proj2 (decimal_column_inr "current_level" 10 _ _) Hlevel). reflexivity.
Qed.

Lemma create_reading_missing (c : CreateOxygenReading) (db : DB) (row : OxygenReading) :
  existsb (fun r => station_id r =? cr_station_id c) (stations db) = false ->
  reading_row c (reading_seq db) (clock db) = inr row ->
  reading_seq db <= Sql.max_int ->
  create_reading c db
  = (inr (mkDatabaseResult false None (Some (str (after_rollback foreign_key_error))) None),
     mkDB (stations db) (readings db) (station_seq db) (reading_seq db + 1) (clock db)).
Proof.
  intros Hex Hrow Hseq.
  unfold create_reading, execute_insert, try_except, bind, insert_reading, failed, ret, raise.
  rewrite Hrow, Hex.
  replace (Sql.max_int <? reading_seq db) with false by (symmetry; apply Z.ltb_ge; lia).
  reflexivity.
Qed.

Lemma create_reading_refused (c : CreateOxygenReading) (db : DB) (e : exn) :
  reading_row c (reading_seq db) (clock db) = inl e ->
  create_reading c db
  = (inr (mkDatabaseResult false None (Some (str (after_rollback e))) None), db).
Proof.
  intro Hrow.
  unfold create_reading, execute_insert, try_except, bind, insert_reading, failed, ret, raise.
  rewrite Hrow. reflexivity.
Qed.

Lemma create_reading_exhausted (c : CreateOxygenReading) (db : DB) (row : OxygenReading) :
  reading_row c (reading_seq db) (clock db) = inr row ->
  Sql.max_int < reading_seq db ->
  create_reading c db
  = (inr (mkDatabaseResult false None
            (Some (str (after_rollback (exhausted "oxygen_readings")))) None), db).
Proof.
  intros Hrow Hseq.
  unfold create_reading, execute_insert, try_except, bind, insert_reading, failed, ret, raise.
  rewrite Hrow.
  replace (Sql.max_int <? reading_seq db) with true by (symmetry; apply Z.ltb_lt; lia).
  reflexivity.
Qed.

(** The stations after [create_reading]: as they were, or the levels of the
    station set to the level the reading row keeps. *)
Lemma create_reading_outcome (c : CreateOxygenReading) (db : DB) :
  exists res db',
    create_reading c db = (inr res, db')
    /\ (stations db' = stations db
        \/ exists row, reading_row c (reading_seq db) (clock db) = inr row
                       /\ success res = true
                       /\ stations db'
                          = levels_set (level_liters row) (cr_station_id c) (clock db)
                              (stations db)).
Proof.
  destruct (reading_row c (reading_seq db) (clock db)) as [e|row] eqn:Hrow.
  - do 2 eexists. split; [apply create_reading_refused; exact Hrow|left; reflexivity].
  - destruct (Z_le_gt_dec (reading_seq db) Sql.max_int) as [Hseq|Hseq].
    + destruct (existsb (fun r => station_id r =? cr_station_id c) (stations db)) eqn:Hex.
      * do 2 eexists. split; [apply (create_reading_existing c db row Hex Hrow Hseq)|].
        right. exists row. repeat split; reflexivity.
      * do 2 eexists. split; [apply (create_reading_missing c db row Hex Hrow Hseq)|].
        left. reflexivity.
    + do 2 eexists.
      split; [apply (create_reading_exhausted c db row Hrow); lia|left; reflexivity].
Qed.

End ServiceFacts.

Section UpdateFacts.

Import OxygenService.

Context {engine : Sql.Engine}.

Lemma same_station_columns (a b : OxygenStation) :
  same_station a b = true ->
  station_id a = station_id b
  /\ (capacity_liters a == capacity_liters b)%Q
  /\ (current_level a == current_level b)%Q
  /\ status a = status b.
Proof.
  unfold same_station. intro H.
  repeat match type of H with
         | (_ && _)%bool = true => let H' := fresh "H" in apply andb_prop in H; destruct H as [H H']
         end.
  repeat split.
  - now apply Z.eqb_eq.
  - now apply Qeq_bool_iff.
  - now apply Qeq_bool_iff.
  - now apply String.eqb_eq.
Qed.

Lemma rewrite_rows_unchanged (f : OxygenStation -> OxygenStation) (id : Z)
  (rows : list OxygenStation) :
  rows_changed f id rows = 0 -> rewrite_rows f id rows = rows.
Proof.
  unfold rows_changed, rewrite_rows.
  induction rows as [|r rows IH]; simpl; [reflexivity|].
  destruct ((station_id r =? id) && negb (same_station (f r) r))%bool; simpl.
  - lia.
  - intro H. now rewrite IH.
Qed.

Lemma set_stations_same (db : DB) : set_stations (stations db) db = db.
Proof. destruct db. reflexivity. Qed.

(** The ways [update_station] ends: refused with the store as it was, or
    the rows of the station rewritten with the values the columns keep. *)
Lemma update_station_cases (id : Z) (u : UpdateOxygenStation) (db : DB) :
  exists res,
    (update_station id u db = (inr res, db) /\ success res = false)
    \/ (exists v,
          stored_update u = inr v
          /\ update_station id u db
             = (inr res, set_stations (rewrite_rows (assign v (clock db)) id (stations db)) db)
          /\ success res = true
          /\ update_fields u <> []
          /\ rows_changed (assign v (clock db)) id (stations db) <> 0).
Proof.
  unfold update_station, execute_update, try_except, bind.
  destruct (update_fields u) as [|f fs] eqn:Hf.
  - eexists. left. split; reflexivity.
  - unfold update_station_rows.
    destruct (filter (fun r => station_id r =? id) (stations db)) eqn:Hrows.
    + eexists. left. split; reflexivity.
    + destruct (stored_update u) as [e|v] eqn:Hv.
      * eexists. left. split; reflexivity.
      * destruct (rows_changed (assign v (clock db)) id (stations db) =? 0) eqn:Hz.
        -- apply Z.eqb_eq in Hz. rewrite (rewrite_rows_unchanged _ _ _ Hz), set_stations_same.
           eexists. left. split; reflexivity.
        -- rewrite find_station_by_id_run. eexists. right. exists v.
           split; [reflexivity|]. split; [reflexivity|]. split; [reflexivity|].
           split; [discriminate|]. now apply Z.eqb_neq.
Qed.

(** An update whose values the columns keep leaves the rows of the station
    with these values, whether it reports a change or not. *)
Lemma update_station_stored (id : Z) (u v : UpdateOxygenStation) (db : DB) :
  update_fields u <> [] ->
  stored_update u = inr v ->
  exists res,
    update_station id u db
    = (inr res, set_stations (rewrite_rows (assign v (clock db)) id (stations db)) db).
Proof.
  intros Hf Hv.
  unfold update_station, execute_update, try_except, bind.
  destruct (update_fields u) as [|f fs]; [congruence|].
  unfold update_station_rows. rewrite Hv.
  destruct (filter (fun r => station_id r =? id) (stations db)) eqn:Hrows.
  - assert (Hsame : rewrite_rows (assign v (clock db)) id (stations db) = stations db).
    { apply rewrite_rows_unchanged. unfold rows_changed.
      replace (filter _ (stations db)) with (@nil OxygenStation); [reflexivity|].
      symmetry. clear -Hrows. induction (stations db) as [|r rows IH]; simpl; [reflexivity|].
      simpl in Hrows. destruct (station_id r =? id); [discriminate|]. simpl. now apply IH. }
    rewrite Hsame, set_stations_same. eexists. reflexivity.
  - destruct (rows_changed (assign v (clock db)) id (stations db) =? 0).
    + eexists. reflexivity.
    + rewrite find_station_by_id_run. eexists. reflexivity.
Qed.

(** The columns of the values an update stores. *)
Lemma stored_update_columns (u v : UpdateOxygenStation) :
  stored_update u = inr v ->
  Sql.nullable (Sql.decimal_column "capacity_liters" 10) (us_capacity_liters u)
  = inr (us_capacity_liters v)
  /\ Sql.nullable (Sql.decimal_column "current_level" 10) (us_current_level u)
     = inr (us_current_level v)
  /\ Sql.nullable (Sql.enum_column "status" status_values) (us_status u) = inr (us_status v)
  /\ Sql.nullable (Sql.varchar_column "station_name" 100) (us_station_name u)
     = inr (us_station_name v)
  /\ Sql.nullable (Sql.varchar_column "location" 255) (us_location u) = inr (us_location v)
  /\ us_alerts_enabled v = us_alerts_enabled u.
Proof.
  unfold stored_update. intro H. column_cases H. injection H as <-. cbn.
  repeat split; reflexivity.
Qed.

End UpdateFacts.

(** C3 fails as stated: after a reading of 60 litres for a full station of
    capacity 500 the level is 60 and the status is still "operational", which
    the threshold rule gives for no thresholds. *)
Lemma C3_status_not_recomputed :
  exists res db',
    OxygenService.create_reading reading_60 one_station_db = (inr res, db')
    /\ OxygenService.success res = true
    /\ map OxygenService.current_level (OxygenService.stations db') = [60%Q]
    /\ map OxygenService.status (OxygenService.stations db') = ["operational"]
    /\ forall tl tc : Q,
         ~ In (spec_status 60 500 tl tc)
              (map OxygenService.status (OxygenService.stations db')).
Proof.
  do 2 eexists. split; [reflexivity|]. cbn.
  repeat split.
  intros tl tc. unfold spec_status.
  destruct (Qle_bool _ tc); [|destruct (Qle_bool _ tl)]; intros [H|[]]; discriminate.
Qed.

(** C3, amended: for every existing station and every reading whose values
    the columns of [oxygen_readings] keep (the station an INT, the level a
    DECIMAL(10,2), pressure and flow DECIMAL(8,2), the temperature a
    DECIMAL(5,2)), while the counter of the table has identifiers left,
    create_reading succeeds, appends one reading row after the rows already
    there, with the given station, the given level and telemetry rounded to
    two decimals and the time of the store, and overwrites the current level
    of the station with the level of that row; the status, the capacity and
    the identity of every station are left as they were.  A reading with a
    value a column refuses is answered with the error of that column (or
    what the rollback raises), and the store is the one before the call. *)
Theorem C3_reading_sets_level_keeps_status :
  forall (engine : Sql.Engine) (db : OxygenService.DB) (c : OxygenService.CreateOxygenReading),
    (forall row : OxygenService.OxygenReading,
        (exists st, In st (OxygenService.stations db)
                    /\ OxygenService.station_id st = OxygenService.cr_station_id c) ->
        OxygenService.reading_row c (OxygenService.reading_seq db) (OxygenService.clock db)
        = inr row ->
        OxygenService.reading_seq db <= Sql.max_int ->
        exists db',
          OxygenService.create_reading c db
          = (inr (OxygenService.mkDatabaseResult true (Some (OxygenService.reading_seq db)) None
                    (Some (OxygenService.reading_seq db))), db')
          /\ OxygenService.readings db' = OxygenService.readings db ++ [row]
          /\ OxygenService.reading_id row = OxygenService.reading_seq db
          /\ OxygenService.rd_station_id row = OxygenService.cr_station_id c
          /\ Sql.decimal 10 (OxygenService.cr_level_liters c)
             = Some (OxygenService.level_liters row)
          /\ Sql.nullable (Sql.decimal_column "pressure_psi" 8) (OxygenService.cr_pressure_psi c)
             = inr (OxygenService.rd_pressure_psi row)
          /\ Sql.nullable (Sql.decimal_column "flow_rate" 8) (OxygenService.cr_flow_rate c)
             = inr (OxygenService.rd_flow_rate row)
          /\ Sql.nullable (Sql.decimal_column "temperature" 5) (OxygenService.cr_temperature c)
             = inr (OxygenService.temperature row)
          /\ OxygenService.timestamp row = OxygenService.clock db
          /\ Forall2
               (fun r r' =>
                  OxygenService.station_id r' = OxygenService.station_id r
                  /\ OxygenService.status r' = OxygenService.status r
                  /\ OxygenService.capacity_liters r' = OxygenService.capacity_liters r
                  /\ (OxygenService.current_level r'
                      == if OxygenService.station_id r =? OxygenService.cr_station_id c
                         then OxygenService.level_liters row
                         else OxygenService.current_level r)%Q)
               (OxygenService.stations db) (OxygenService.stations db'))
    /\ (forall e : exn,
           OxygenService.reading_row c (OxygenService.reading_seq db) (OxygenService.clock db)
           = inl e ->
           OxygenService.create_reading c db
           = (inr (OxygenService.mkDatabaseResult false None
                     (Some (str (OxygenService.after_rollback e))) None), db)).
Proof.
  intros engine db c. split.
  - intros row (st & Hin & Hid) Hrow Hseq.
    destruct (reading_row_columns _ _ _ _ Hrow) as (H1 & H2 & H3 & H4 & H5 & H6 & H7).
    eexists. split.
    + apply create_reading_existing; [|exact Hrow|exact Hseq]. apply existsb_exists.
      exists st. split; [exact Hin|now apply Z.eqb_eq].
    + cbn [OxygenService.readings OxygenService.stations].
      repeat (split; [assumption || reflexivity|]).
      clear. unfold OxygenService.levels_set, OxygenService.level_changes.
      induction (OxygenService.stations db) as [|r rows IH]; simpl; constructor; [|exact IH].
      destruct (OxygenService.station_id r =? OxygenService.cr_station_id c); simpl.
      * destruct (Qeq_bool (OxygenService.level_liters row) (OxygenService.current_level r))
          eqn:E; simpl; repeat split; try reflexivity.
        apply Qeq_bool_iff in E. now symmetry.
      * repeat split; reflexivity.
  - intros e Hrow. now apply create_reading_refused.
Qed.

Lemma C3_reading_sets_level_keeps_status_witness :
  exists db',
    OxygenService.create_reading reading_60 one_station_db
    = (inr (OxygenService.mkDatabaseResult true (Some 1) None (Some 1)), db')
    /\ OxygenService.readings db' = [OxygenService.mkOxygenReading 1 1 60 None None None 0]
    /\ map OxygenService.status (OxygenService.stations db') = ["operational"].
Proof.
  destruct (proj1 (C3_reading_sets_level_keeps_status Sql.reference one_station_db reading_60)
              (OxygenService.mkOxygenReading 1 1 60 None None None 0))
    as (db' & Hrun & Hreadings & _ & _ & _ & _ & _ & _ & _ & Hrows).
  - exists full_station. split; [left; reflexivity|reflexivity].
  - reflexivity.
  - vm_compute. discriminate.
  - exists db'. split; [exact Hrun|]. split; [exact Hreadings|].
    simpl in Hrows. inversion Hrows as [|r r' rows rows' Hr Hrest Ha Hb]; subst.
    inversion Hrest; subst. simpl.
    destruct Hr as (_ & Hstatus & _). rewrite Hstatus. reflexivity.
Defined.

(** C5 fails as stated: a creation request with capacity -10 is accepted, the
    row is persisted with that capacity, and the route answers 201. *)
Lemma C5_negative_capacity_accepted :
  exists row,
    OxygenService.create_station negative_capacity_request empty_db
    = (inr (OxygenService.mkDatabaseResult true (Some row) None (Some 1)),
       OxygenService.mkDB [row] [] 2 1 0)
    /\ OxygenService.capacity_liters row = (-10)%Q
    /\ fst (OxygenService.create_oxygen_station negative_capacity_request empty_db)
       = (OxygenService.JsonSuccess (row, Some 1), 201).
Proof.
  eexists. repeat split; reflexivity.
Qed.

(** C5, amended: create_station does not validate the capacity.  (1) A
    request whose values the columns of [oxygen_stations] keep is accepted
    while the counter has identifiers left: one row is persisted under the
    next identifier, carrying the capacity rounded to two decimals, and the
    route answers 201.  (2) Of the capacity the columns ask only that it has
    no more than eight digits before the point: a request that is accepted
    is accepted with every such capacity in place of its own, zero and
    negative included.  (3) create_station always returns a result, and
    whenever the result is an error the store is unchanged, so no row is
    persisted.  (4) A request with a value a column refuses is answered with
    the error of that column (or what the rollback raises). *)
Theorem C5_creation_accepts_any_capacity :
  forall engine : Sql.Engine,
    (forall (db : OxygenService.DB) (c : OxygenService.CreateOxygenStation)
            (row : OxygenService.OxygenStation),
        OxygenService.station_row c (OxygenService.station_seq db) (OxygenService.clock db)
        = inr row ->
        OxygenService.station_seq db <= Sql.max_int ->
        exists found db',
          OxygenService.create_station c db
          = (inr (OxygenService.mkDatabaseResult true (Some found) None
                    (Some (OxygenService.station_seq db))), db')
          /\ OxygenService.stations db' = OxygenService.stations db ++ [row]
          /\ Sql.decimal 10 (OxygenService.cs_capacity_liters c)
             = Some (OxygenService.capacity_liters row)
          /\ fst (OxygenService.create_oxygen_station c db)
             = (OxygenService.JsonSuccess (found, Some (OxygenService.station_seq db)), 201))
    /\ (forall (c : OxygenService.CreateOxygenStation) (id now : Z)
               (row : OxygenService.OxygenStation) (capacity stored : Q),
           OxygenService.station_row c id now = inr row ->
           Sql.decimal 10 capacity = Some stored ->
           OxygenService.station_row (with_capacity capacity c) id now
           = inr (row_with_capacity stored row))
    /\ (forall (db : OxygenService.DB) (c : OxygenService.CreateOxygenStation),
           exists res db',
             OxygenService.create_station c db = (inr res, db')
             /\ (OxygenService.success res = false -> db' = db))
    /\ (forall (db : OxygenService.DB) (c : OxygenService.CreateOxygenStation) (e : exn),
           OxygenService.station_row c (OxygenService.station_seq db) (OxygenService.clock db)
           = inl e ->
           OxygenService.create_station c db
           = (inr (OxygenService.mkDatabaseResult false None
                     (Some (str (OxygenService.after_rollback e))) None), db)).
Proof.
  intro engine. split; [|split; [|split]].
  - intros db c row Hrow Hseq.
    destruct (create_station_accepted c db row Hrow Hseq) as (found & Hrun & _).
    do 2 eexists. split; [exact Hrun|]. split; [reflexivity|].
    split; [apply (station_row_columns _ _ _ _ Hrow)|].
    unfold OxygenService.create_oxygen_station. rewrite Hrun. reflexivity.
  - intros c id now row capacity stored Hrow Hcap.
    unfold OxygenService.station_row in *. cbn [with_capacity OxygenService.cs_station_name
      OxygenService.cs_location OxygenService.cs_capacity_liters OxygenService.cs_current_level
      OxygenService.cs_pressure_psi OxygenService.cs_flow_rate OxygenService.cs_status
      OxygenService.cs_last_refill OxygenService.cs_next_maintenance OxygenService.cs_supplier
      OxygenService.cs_alerts_enabled].
    rewrite (proj2 (decimal_column_inr "capacity_liters" 10 _ _) Hcap).
    column_cases Hrow. injection Hrow as <-. reflexivity.
  - intros db c. apply create_station_total.
  - intros db c e. apply create_station_refused.
Qed.

Lemma C5_creation_accepts_any_capacity_witness :
  exists found db',
    OxygenService.create_station negative_capacity_request empty_db
    = (inr (OxygenService.mkDatabaseResult true (Some found) None (Some 1)), db')
    /\ map OxygenService.capacity_liters (OxygenService.stations db') = [(-10)%Q].
Proof.
  destruct (proj1 (C5_creation_accepts_any_capacity Sql.reference) empty_db
              negative_capacity_request
              (OxygenService.mkOxygenStation 1 "Ward Station" "Ward 3" (-10) 0 None None
                 "operational" None None None true 0 0))
    as (found & db' & Hrun & Hrows & _).
  - reflexivity.
  - vm_compute. discriminate.
  - exists found, db'. split; [exact Hrun|]. rewrite Hrows. reflexivity.
Defined.

(** ** The bound on the level *)

Section BoundFacts.

Import OxygenService.

Context {engine : Sql.Engine}.

(** The level and the capacity of the rows after an update of the rows of an
    identifier that leaves out the rows it would not change. *)
Lemma rewritten_levels (f : OxygenStation -> OxygenStation) (id : Z)
  (rows : list OxygenStation) :
  Forall2 (fun r r' =>
             if station_id r =? id
             then (current_level r' == current_level (f r))%Q
                  /\ (capacity_liters r' == capacity_liters (f r))%Q
             else r' = r)
          rows (rewrite_rows f id rows).
Proof.
  unfold rewrite_rows. induction rows as [|r rows IH]; simpl; constructor; [|exact IH].
  destruct (station_id r =? id); simpl; [|reflexivity].
  destruct (same_station (f r) r) eqn:E; simpl.
  - destruct (same_station_columns _ _ E) as (_ & Hc & Hl & _).
    split; symmetry; assumption.
  - split; reflexivity.
Qed.

Lemma level_in_bounds_eq (r r' : OxygenStation) :
  (current_level r' == current_level r)%Q -> (capacity_liters r' == capacity_liters r)%Q ->
  level_in_bounds r -> level_in_bounds r'.
Proof.
  unfold level_in_bounds. intros Hl Hc. now rewrite Hl, Hc.
Qed.

Lemma in_bounds_rows_rewritten (f : OxygenStation -> OxygenStation) (id : Z)
  (rows : list OxygenStation) :
  Forall level_in_bounds rows ->
  (forall r, In r rows -> station_id r = id -> level_in_bounds (f r)) ->
  Forall level_in_bounds (rewrite_rows f id rows).
Proof.
  intros Hall Hf. apply Forall_forall. intros x Hx.
  apply in_map_iff in Hx. destruct Hx as (r & <- & Hr).
  destruct (station_id r =? id) eqn:E; simpl.
  - destruct (negb _); [apply Hf; [exact Hr|now apply Z.eqb_eq]|].
    rewrite Forall_forall in Hall. now apply Hall.
  - rewrite Forall_forall in Hall. now apply Hall.
Qed.

Lemma in_bounds_levels_set (level : Q) (id : Z) (now : datetime) (rows : list OxygenStation) :
  Forall level_in_bounds rows ->
  (forall r, In r rows -> station_id r = id -> (0 <= level <= capacity_liters r)%Q) ->
  Forall level_in_bounds (levels_set level id now rows).
Proof.
  intros Hall Hf. apply Forall_forall. intros x Hx.
  apply in_map_iff in Hx. destruct Hx as (r & <- & Hr).
  unfold level_changes. destruct (station_id r =? id) eqn:E; simpl.
  - destruct (negb _).
    + unfold level_in_bounds. simpl. apply Hf; [exact Hr|now apply Z.eqb_eq].
    + rewrite Forall_forall in Hall. now apply Hall.
  - rewrite Forall_forall in Hall. now apply Hall.
Qed.

Lemma levels_set_levels (level : Q) (id : Z) (now : datetime) (rows : list OxygenStation) :
  Forall2 (fun r r' =>
             capacity_liters r' = capacity_liters r
             /\ (current_level r' == if station_id r =? id then level else current_level r)%Q)
          rows (levels_set level id now rows).
Proof.
  unfold levels_set, level_changes.
  induction rows as [|r rows IH]; simpl; constructor; [|exact IH].
  destruct (station_id r =? id); simpl.
  - destruct (Qeq_bool level (current_level r)) eqn:E; simpl; split; try reflexivity.
    apply Qeq_bool_iff in E. now symmetry.
  - split; reflexivity.
Qed.

End BoundFacts.

Section MainBoundFacts.

Import Main.

Lemma update_oxygen_level_accepted (id level : Z) (db db' : Table) ok :
  update_oxygen_level id level db = (inr ok, db') ->
  exists st,
    find (fun r => station_id r =? id) db = Some st
    /\ level <= capacity_liters st
    /\ db' = map (fun r => if station_id r =? id then set_level level r else r) db.
Proof.
  unfold update_oxygen_level, check_query. intro Hrun.
  destruct (find (fun r => station_id r =? id) db) as [st|] eqn:Hfind;
    simpl in Hrun; [|discriminate].
  destruct (level >? capacity_liters st) eqn:Hgt; [discriminate|].
  unfold update_query in Hrun.
  destruct (existsb _ db); [discriminate|].
  injection Hrun as _ <-.
  exists st. split; [reflexivity|]. split; [|reflexivity].
  rewrite Z.gtb_ltb in Hgt. apply Z.ltb_ge in Hgt. exact Hgt.
Qed.

End MainBoundFacts.

(** C1 fails as stated: a reading of 600 litres for a station of capacity 500
    succeeds and leaves the level at 600; a direct update to -5 litres
    succeeds and leaves the level below zero. *)
Lemma C1_level_leaves_bounds :
  (exists res db' r,
     OxygenService.create_reading reading_600 one_station_db = (inr res, db')
     /\ OxygenService.success res = true
     /\ In r (OxygenService.stations db')
     /\ OxygenService.current_level r = 600%Q
     /\ OxygenService.capacity_liters r = 500%Q
     /\ ~ level_in_bounds r)
  /\ (exists ok db' r,
        Main.update_oxygen_level 1 (-5) [scenario_station] = (inr ok, db')
        /\ In r db'
        /\ Main.current_level_liters r = -5
        /\ ~ main_level_in_bounds r).
Proof.
  split.
  - do 3 eexists. split; [reflexivity|]. split; [reflexivity|].
    split; [left; reflexivity|]. split; [reflexivity|]. split; [reflexivity|].
    unfold level_in_bounds. simpl. intros [_ H]. unfold Qle in H. simpl in H. lia.
  - do 3 eexists. split; [reflexivity|]. split; [left; reflexivity|].
    split; [reflexivity|].
    unfold main_level_in_bounds. simpl. lia.
Qed.

(** C1, amended: the bound 0 <= current_level <= capacity is kept by an
    operation of the oxygen service when the level it is given lies within
    the bound, and only the direct level update checks anything itself.
    (1) A successful direct level update stores the given level on the
    station and that level is at most the capacity; when the given level is
    not negative, every station within the bound before is within it after.
    (2) Station creation of a request the columns keep succeeds, while the
    counter has identifiers left, and stores the level and the capacity
    given, each rounded to two decimals, whatever the one is to the other;
    every station is within the bound afterwards when the stations were and
    the level given lies between zero and the capacity given.
    (3) Reading ingestion for an existing station of a reading the columns
    keep succeeds and sets the level of the station to the level given,
    rounded to two decimals, whatever the capacity of the station, which it
    leaves as it is; every station is within the bound afterwards when the
    stations were and the level stored lies between zero and the capacity of
    the station.
    (4) A metadata update with at least one field whose values the columns
    keep leaves the stations of the identifier with the level and the
    capacity it gives, rounded to two decimals, where it gives one, and
    every other station as it was; every station is within the bound
    afterwards when the stations were and the level given (or kept) lies
    between zero and the capacity given (or kept). *)
Theorem C1_bound_kept_for_levels_within_it :
  forall engine : Sql.Engine,
  (forall (db db' : Main.Table) (id level : Z) ok,
     NoDup (map Main.station_id db) ->
     Main.update_oxygen_level id level db = (inr ok, db') ->
     (forall r, In r db' -> Main.station_id r = id ->
                Main.current_level_liters r = level /\ level <= Main.capacity_liters r)
     /\ (Forall main_level_in_bounds db -> 0 <= level -> Forall main_level_in_bounds db'))
  /\ (forall (db : OxygenService.DB) (c : OxygenService.CreateOxygenStation)
             (row : OxygenService.OxygenStation),
        OxygenService.station_row c (OxygenService.station_seq db) (OxygenService.clock db)
        = inr row ->
        OxygenService.station_seq db <= Sql.max_int ->
        exists found db',
          OxygenService.create_station c db
          = (inr (OxygenService.mkDatabaseResult true (Some found) None
                    (Some (OxygenService.station_seq db))), db')
          /\ OxygenService.stations db' = OxygenService.stations db ++ [row]
          /\ Sql.decimal 10 (OxygenService.cs_current_level c)
             = Some (OxygenService.current_level row)
          /\ Sql.decimal 10 (OxygenService.cs_capacity_liters c)
             = Some (OxygenService.capacity_liters row)
          /\ (Forall level_in_bounds (OxygenService.stations db) ->
              (0 <= OxygenService.cs_current_level c <= OxygenService.cs_capacity_liters c)%Q ->
              Forall level_in_bounds (OxygenService.stations db')))
  /\ (forall (db : OxygenService.DB) (c : OxygenService.CreateOxygenReading)
             (row : OxygenService.OxygenReading),
        (exists st, In st (OxygenService.stations db)
                    /\ OxygenService.station_id st = OxygenService.cr_station_id c) ->
        OxygenService.reading_row c (OxygenService.reading_seq db) (OxygenService.clock db)
        = inr row ->
        OxygenService.reading_seq db <= Sql.max_int ->
        exists res db',
          OxygenService.create_reading c db = (inr res, db')
          /\ OxygenService.success res = true
          /\ Sql.decimal 10 (OxygenService.cr_level_liters c)
             = Some (OxygenService.level_liters row)
          /\ Forall2
               (fun r r' =>
                  OxygenService.capacity_liters r' = OxygenService.capacity_liters r
                  /\ (OxygenService.current_level r'
                      == if OxygenService.station_id r =? OxygenService.cr_station_id c
                         then OxygenService.level_liters row
                         else OxygenService.current_level r)%Q)
               (OxygenService.stations db) (OxygenService.stations db')
          /\ (Forall level_in_bounds (OxygenService.stations db) ->
              (forall r, In r (OxygenService.stations db) ->
                         OxygenService.station_id r = OxygenService.cr_station_id c ->
                         (0 <= OxygenService.level_liters row
                          <= OxygenService.capacity_liters r)%Q) ->
              Forall level_in_bounds (OxygenService.stations db')))
  /\ (forall (db : OxygenService.DB) (id : Z) (u v : OxygenService.UpdateOxygenStation),
        OxygenService.update_fields u <> [] ->
        OxygenService.stored_update u = inr v ->
        exists res db',
          OxygenService.update_station id u db = (inr res, db')
          /\ Sql.nullable (Sql.decimal_column "current_level" 10)
               (OxygenService.us_current_level u)
             = inr (OxygenService.us_current_level v)
          /\ Sql.nullable (Sql.decimal_column "capacity_liters" 10)
               (OxygenService.us_capacity_liters u)
             = inr (OxygenService.us_capacity_liters v)
          /\ Forall2
               (fun r r' =>
                  if OxygenService.station_id r =? id
                  then (OxygenService.current_level r'
                        == OxygenService.default (OxygenService.us_current_level v)
                             (OxygenService.current_level r))%Q
                       /\ (OxygenService.capacity_liters r'
                           == OxygenService.default (OxygenService.us_capacity_liters v)
                                (OxygenService.capacity_liters r))%Q
                  else r' = r)
               (OxygenService.stations db) (OxygenService.stations db')
          /\ (Forall level_in_bounds (OxygenService.stations db) ->
              (forall r, In r (OxygenService.stations db) -> OxygenService.station_id r = id ->
                         (0 <= OxygenService.default (OxygenService.us_current_level v)
                                 (OxygenService.current_level r)
                          <= OxygenService.default (OxygenService.us_capacity_liters v)
                               (OxygenService.capacity_liters r))%Q) ->
              Forall level_in_bounds (OxygenService.stations db'))).
Proof.
  intro engine. split; [|split; [|split]].
  - intros db db' id level ok Hnd Hrun.
    destruct (update_oxygen_level_accepted id level db db' ok Hrun)
      as (st & Hfind & Hle & ->).
    assert (Hrows : forall x,
               In x (map (fun r => if Main.station_id r =? id
                                   then Main.set_level level r else r) db) ->
               (Main.station_id x = id ->
                Main.current_level_liters x = level /\ level <= Main.capacity_liters x)
               /\ (Forall main_level_in_bounds db -> 0 <= level -> main_level_in_bounds x)).
    { intros x Hx. apply in_map_iff in Hx. destruct Hx as (r & <- & Hr).
      destruct (Main.station_id r =? id) eqn:E.
      - apply Z.eqb_eq in E.
        rewrite (find_key_unique id db st Hnd Hfind r Hr E).
        unfold main_level_in_bounds. simpl. split; intros; lia.
      - split.
        + intro Hid. apply Z.eqb_neq in E. contradiction.
        + intros Hall _. rewrite Forall_forall in Hall. now apply Hall. }
    split.
    + intros r Hr Hid. now apply (Hrows r Hr).
    + intros Hall H0. apply Forall_forall. intros x Hx. now apply (Hrows x Hx).
  - intros db c row Hrow Hseq.
    destruct (create_station_accepted c db row Hrow Hseq) as (found & Hrun & _).
    destruct (station_row_columns _ _ _ _ Hrow) as (_ & _ & _ & Hcap & Hlevel & _).
    do 2 eexists. split; [exact Hrun|]. split; [reflexivity|].
    split; [exact Hlevel|]. split; [exact Hcap|].
    intros Hall [H0 Hle]. cbn [OxygenService.stations].
    apply Forall_app. split; [exact Hall|]. constructor; [|constructor].
    split.
    + apply (decimal_nonneg _ _ _ Hlevel H0).
    + apply (decimal_le _ _ _ _ _ _ Hlevel Hcap Hle).
  - intros db c row (st & Hin & Hid) Hrow Hseq.
    destruct (reading_row_columns _ _ _ _ Hrow) as (_ & _ & Hlevel & _).
    do 2 eexists. split.
    + apply create_reading_existing; [|exact Hrow|exact Hseq]. apply existsb_exists.
      exists st. split; [exact Hin|now apply Z.eqb_eq].
    + split; [reflexivity|]. split; [exact Hlevel|]. cbn [OxygenService.stations].
      split; [apply levels_set_levels|].
      intros Hall Hb. now apply in_bounds_levels_set.
  - intros db id u v Hf Hv.
    destruct (update_station_stored id u v db Hf Hv) as (res & Hrun).
    destruct (stored_update_columns u v Hv) as (Hcap & Hlevel & _).
    do 2 eexists. split; [exact Hrun|]. split; [exact Hlevel|]. split; [exact Hcap|].
    cbn [OxygenService.set_stations OxygenService.stations].
    split; [apply (rewritten_levels (OxygenService.assign v (OxygenService.clock db)))|].
    intros Hall Hb. apply in_bounds_rows_rewritten; [exact Hall|].
    intros r Hr Hid. unfold level_in_bounds. simpl. now apply Hb.
Qed.

Lemma C1_bound_kept_for_levels_within_it_witness :
  Forall main_level_in_bounds (snd (Main.update_oxygen_level 1 140 [scenario_station]))
  /\ (exists found db',
         OxygenService.create_station emergency_station_request one_station_db
         = (inr (OxygenService.mkDatabaseResult true (Some found) None (Some 2)), db')
         /\ Forall level_in_bounds (OxygenService.stations db'))
  /\ (exists res db',
         OxygenService.create_reading reading_60 one_station_db = (inr res, db')
         /\ OxygenService.success res = true
         /\ Forall level_in_bounds (OxygenService.stations db'))
  /\ (exists res db',
         OxygenService.update_station 1 refill_update one_station_db = (inr res, db')
         /\ Forall level_in_bounds (OxygenService.stations db')).
Proof.
  assert (Hfull : Forall level_in_bounds [full_station]).
  { constructor; [|constructor]. unfold level_in_bounds, Qle. simpl. lia. }
  destruct (C1_bound_kept_for_levels_within_it Sql.reference)
    as (Hmain & Hcreate & Hreading & Hupdate).
  split; [|split; [|split]].
  - apply (Hmain [scenario_station] _ 1 140
             (Main.mkLevelUpdated "Oxygen level updated successfully" 140)).
    + repeat constructor. simpl. tauto.
    + reflexivity.
    + constructor; [|constructor]. unfold main_level_in_bounds. simpl. lia.
    + lia.
  - destruct (Hcreate one_station_db emergency_station_request
                (OxygenService.mkOxygenStation 2 "Emergency Station B" "Emergency Room" 300 200
                   (Some 140%Q) (Some 3%Q) "operational" None None (Some "MedGas Ltd") true
                   0 0))
      as (found & db' & Hrun & _ & _ & _ & Hb).
    + reflexivity.
    + vm_compute. discriminate.
    + exists found, db'. split; [exact Hrun|]. apply Hb; [exact Hfull|].
      unfold Qle. simpl. lia.
  - destruct (Hreading one_station_db reading_60
                (OxygenService.mkOxygenReading 1 1 60 None None None 0))
      as (res & db' & Hrun & Hok & _ & _ & Hb).
    + exists full_station. split; [left; reflexivity|reflexivity].
    + reflexivity.
    + vm_compute. discriminate.
    + exists res, db'. split; [exact Hrun|]. split; [exact Hok|]. apply Hb; [exact Hfull|].
      intros r [<-|[]] _. unfold Qle. simpl. lia.
  - destruct (Hupdate one_station_db 1 refill_update refill_update)
      as (res & db' & Hrun & _ & _ & _ & Hb).
    + discriminate.
    + reflexivity.
    + exists res, db'. split; [exact Hrun|]. apply Hb; [exact Hfull|].
      intros r [<-|[]] _. unfold Qle. simpl. lia.
Defined.

(** ** The sort texts of the list queries *)

(** C6 fails as stated: sort texts given by the caller that name no column of
    the tables and no direction are interpolated as they are into the ORDER BY
    clause of the station and the reading data queries; the code holds no
    allow-list, and what the caller receives is the engine's own error. *)
Lemma C6_caller_text_in_order_by :
  let stations_page := OxygenService.pagination_of arbitrary_sort_args "station_name" "ASC" in
  let readings_page := OxygenService.pagination_of arbitrary_sort_args "timestamp" "DESC" in
  OxygenService.text (OxygenService.data_query [] stations_page 0)
  = "SELECT * FROM oxygen_stations  ORDER BY no_such_column SIDEWAYS LIMIT %s OFFSET %s"
  /\ OxygenService.text (OxygenService.readings_data_query 1 readings_page 0)
     = "SELECT * FROM oxygen_readings WHERE station_id = %s ORDER BY no_such_column SIDEWAYS LIMIT %s OFFSET %s"
  /\ ~ In (OxygenService.sort_by stations_page) (map fst OxygenService.station_columns)
  /\ ~ In (OxygenService.sort_by readings_page) (map fst OxygenService.reading_columns)
  /\ ~ In (OxygenService.sort_order stations_page) ["ASC"; "DESC"; "asc"; "desc"]
  /\ fst (OxygenService.get_oxygen_stations no_filter_args arbitrary_sort_args one_station_db)
     = (OxygenService.JsonFailure (str Sql.syntax_error), 400).
Proof.
  cbv zeta. repeat split; try reflexivity;
    simpl; intro H; repeat (destruct H as [H|H]; [discriminate H|]); exact H.
Qed.

(** C6, amended: the sort column and the sort direction in the ORDER BY clause
    of the station and reading data queries are the texts the caller gives as
    sort_by and sort_order, unchanged, and the defaults of the route
    (station_name ASC, timestamp DESC) where the caller gives none; no
    allow-list is applied. *)
Theorem C6_order_by_is_caller_text :
  forall (engine : Sql.Engine) (station_scan : Sql.Scan OxygenService.OxygenStation)
         (reading_scan : Sql.Scan OxygenService.OxygenReading)
         (args : OxygenService.ListArgs) (conds : list OxygenService.condition)
         (id offset : Z),
    let stations_page := OxygenService.pagination_of args "station_name" "ASC" in
    let readings_page := OxygenService.pagination_of args "timestamp" "DESC" in
    OxygenService.sort_by stations_page
    = match OxygenService.arg_sort_by args with Some s => s | None => "station_name" end
    /\ OxygenService.sort_order stations_page
       = match OxygenService.arg_sort_order args with Some s => s | None => "ASC" end
    /\ OxygenService.sort_by readings_page
       = match OxygenService.arg_sort_by args with Some s => s | None => "timestamp" end
    /\ OxygenService.sort_order readings_page
       = match OxygenService.arg_sort_order args with Some s => s | None => "DESC" end
    /\ OxygenService.text (OxygenService.data_query conds stations_page offset)
       = ("SELECT * FROM oxygen_stations " ++ OxygenService.where_clause conds
            ++ " ORDER BY " ++ OxygenService.sort_by stations_page
            ++ " " ++ OxygenService.sort_order stations_page
            ++ " LIMIT %s OFFSET %s")%string
    /\ OxygenService.text (OxygenService.readings_data_query id readings_page offset)
       = ("SELECT * FROM oxygen_readings WHERE station_id = %s ORDER BY "
            ++ OxygenService.sort_by readings_page
            ++ " " ++ OxygenService.sort_order readings_page
            ++ " LIMIT %s OFFSET %s")%string.
Proof.
  intros engine station_scan reading_scan args conds id offset. cbv zeta.
  repeat split; try reflexivity.
  - unfold OxygenService.data_query, OxygenService.order_by_clause. cbn [OxygenService.text].
    repeat rewrite append_assoc. reflexivity.
  - unfold OxygenService.readings_data_query, OxygenService.order_by_clause.
    cbn [OxygenService.text].
    repeat rewrite append_assoc. reflexivity.
Qed.

(** ** Pages of a list *)

Section Windows.

Context {A : Type} {engine : Sql.Engine}.

Lemma firstn_plus (a b : nat) (l : list A) :
  firstn (a + b) l = firstn a l ++ firstn b (skipn a l).
Proof.
  revert l. induction a as [|a IH]; intro l; simpl; [reflexivity|].
  destruct l as [|x l]; simpl.
  - now destruct b.
  - now rewrite IH.
Qed.

(** The first [k] windows of width [n], one after the other, are the first
    [k * n] rows. *)
Lemma windows_concat (n k : nat) (l : list A) :
  List.concat (map (fun i => firstn n (skipn (i * n) l)) (seq 0 k)) = firstn (k * n) l.
Proof.
  induction k as [|k IH]; [reflexivity|].
  rewrite seq_S, map_app, concat_app, IH. simpl.
  rewrite app_nil_r, <- firstn_plus. f_equal. lia.
Qed.

Lemma insert_by_perm (leb : A -> A -> bool) (x : A) (l : list A) :
  Permutation (Sql.insert_by leb x l) (x :: l).
Proof.
  induction l as [|y l IH]; simpl; [apply Permutation_refl|].
  destruct (leb x y); [apply Permutation_refl|].
  eapply Permutation_trans; [apply perm_skip, IH|apply perm_swap].
Qed.

Lemma sort_by_perm (leb : A -> A -> bool) (l : list A) :
  Permutation (Sql.sort_by leb l) l.
Proof.
  induction l as [|x l IH]; simpl; [constructor|].
  eapply Permutation_trans; [apply insert_by_perm|now apply perm_skip].
Qed.

Lemma order_by_perm (key : A -> Sql.value) (ascending : bool) (l : list A) :
  Permutation (Sql.order_by key ascending l) l.
Proof.
  unfold Sql.order_by. destruct ascending; apply sort_by_perm.
Qed.

End Windows.

Lemma pages_div_bounds (total limit : Z) :
  0 < limit ->
  let n := (total + limit - 1) / limit in
  (n - 1) * limit < total <= n * limit.
Proof.
  intro Hl. cbv zeta.
  pose proof (Z.div_mod (total + limit - 1) limit ltac:(lia)) as Hdm.
  pose proof (Z.mod_pos_bound (total + limit - 1) limit Hl) as Hb.
  nia.
Qed.

Lemma pages_is_ceiling (total limit : Z) :
  0 < limit -> (total + limit - 1) / limit = ceil_div total limit.
Proof.
  intro Hl. unfold ceil_div, Qceiling.
  destruct limit as [|p|p]; try lia.
  unfold Qdiv, Qinv, Qmult, Qopp, Qfloor, inject_Z. cbn [Qnum Qden].
  pose proof (pages_div_bounds total (Z.pos p) Hl) as Hb. cbv zeta in Hb.
  set (n := (total + Z.pos p - 1) / Z.pos p) in *.
  replace (Z.pos (1 * p)) with (Z.pos p) by reflexivity.
  rewrite Z.mul_1_r.
  assert (H : - n = (- total) / Z.pos p).
  { apply (Zdiv_unique (- total) (Z.pos p) (- n) (n * Z.pos p - total)); lia. }
  lia.
Qed.


(** ** Sorting

    Where no two different rows have equal keys, the sorted rows do not
    depend on the order in which they are delivered. *)

Section SortFacts.

Context {A : Type} (leb : A -> A -> bool).

Hypothesis leb_total : forall a b, leb a b = true \/ leb b a = true.
Hypothesis leb_trans : forall a b c, leb a b = true -> leb b c = true -> leb a c = true.

Lemma insert_by_comm (x y : A) (l : list A) :
  (leb x y = true -> leb y x = true -> x = y) ->
  Sql.insert_by leb x (Sql.insert_by leb y l) = Sql.insert_by leb y (Sql.insert_by leb x l).
Proof.
  intro Hxy.
  assert (Hpair : forall rest,
             (if leb x y then x :: y :: rest else y :: x :: rest)
             = (if leb y x then y :: x :: rest else x :: y :: rest)).
  { intro rest. destruct (leb x y) eqn:E1, (leb y x) eqn:E2; try reflexivity.
    - now rewrite (Hxy eq_refl eq_refl).
    - destruct (leb_total x y); congruence. }
  induction l as [|z l IH]; simpl.
  - apply Hpair.
  - destruct (leb y z) eqn:Hyz, (leb x z) eqn:Hxz; simpl; rewrite ?Hyz, ?Hxz.
    + apply Hpair.
    + destruct (leb x y) eqn:E; [|reflexivity].
      rewrite (leb_trans x y z E Hyz) in Hxz. discriminate.
    + destruct (leb y x) eqn:E; [|reflexivity].
      rewrite (leb_trans y x z E Hxz) in Hyz. discriminate.
    + now rewrite IH.
Qed.

Lemma sort_by_delivered (l l' : list A) :
  Permutation l l' ->
  (forall a b, In a l -> In b l -> leb a b = true -> leb b a = true -> a = b) ->
  Sql.sort_by leb l = Sql.sort_by leb l'.
Proof.
  unfold Sql.sort_by. induction 1 as [|x l l' Hp IH|x y l|l l' l'' Hp1 IH1 Hp2 IH2];
    intro Hties; simpl.
  - reflexivity.
  - rewrite IH; [reflexivity|]. intros a b Ha Hb. apply Hties; now right.
  - apply insert_by_comm. apply Hties; simpl; auto.
  - rewrite IH1 by exact Hties. apply IH2.
    intros a b Ha Hb. apply Hties; eapply Permutation_in; try eassumption;
      now apply Permutation_sym.
Qed.

End SortFacts.

Section OrderFacts.

Context {engine : Sql.Engine} {lawful : Sql.Lawful engine}.

Lemma Zle_Qle_bool (x y : Z) : (x <=? y) = Qle_bool (inject_Z x) (inject_Z y).
Proof.
  destruct (x <=? y) eqn:E; symmetry.
  - apply Qle_bool_iff. rewrite <- Zle_Qle. now apply Z.leb_le.
  - apply Qle_bool_false. rewrite <- Zle_Qle. apply Z.leb_gt in E. lia.
Qed.

Lemma Qle_bool_total (x y : Q) : Qle_bool x y = true \/ Qle_bool y x = true.
Proof.
  destruct (Qlt_le_dec x y) as [H|H]; [left|right]; apply Qle_bool_iff;
    [now apply Qlt_le_weak|exact H].
Qed.

Lemma Qle_bool_trans (x y z : Q) :
  Qle_bool x y = true -> Qle_bool y z = true -> Qle_bool x z = true.
Proof.
  rewrite !Qle_bool_iff. apply Qle_trans.
Qed.

Lemma value_leb_total (a b : Sql.value) :
  Sql.value_leb a b = true \/ Sql.value_leb b a = true.
Proof.
  destruct a, b; simpl; auto; rewrite ?Zle_Qle_bool;
    try apply Qle_bool_total. apply Sql.str_leb_total.
Qed.

Lemma value_leb_trans (a b c : Sql.value) :
  Sql.value_leb a b = true -> Sql.value_leb b c = true -> Sql.value_leb a c = true.
Proof.
  destruct a, b, c; simpl; try reflexivity; try discriminate; rewrite ?Zle_Qle_bool;
    try apply Qle_bool_trans. apply Sql.str_leb_trans.
Qed.

(** Without ties the order of delivery does not show in the sorted rows. *)
Lemma order_by_delivered {A : Type} (key : A -> Sql.value) (ascending : bool)
  (rows delivered : list A) :
  no_ties key rows ->
  Permutation delivered rows ->
  Sql.order_by key ascending delivered = Sql.order_by key ascending rows.
Proof.
  intros Hties Hperm. unfold Sql.order_by.
  assert (Hd : forall a b, In a delivered -> In b delivered ->
                 Sql.value_leb (key a) (key b) = true ->
                 Sql.value_leb (key b) (key a) = true -> a = b).
  { intros a b Ha Hb. apply Hties; eapply Permutation_in; eassumption. }
  destruct ascending; apply sort_by_delivered; try exact Hperm.
  - intros a b. apply value_leb_total.
  - intros a b c. apply value_leb_trans.
  - exact Hd.
  - intros a b. apply value_leb_total.
  - intros a b c H1 H2. exact (value_leb_trans _ _ _ H2 H1).
  - intros a b Ha Hb H1 H2. now apply Hd.
Qed.

End OrderFacts.

(** ** The station list *)

Section ListFacts.

Import OxygenService.

Context {engine : Sql.Engine}.

Lemma good_limit (lim offset : Z) :
  0 <= lim <= Sql.max_limit -> 0 <= offset <= Sql.max_limit ->
  Sql.bad_limit lim offset = false.
Proof.
  intros Hl Ho. unfold Sql.bad_limit.
  replace (lim <? 0) with false by (symmetry; apply Z.ltb_ge; lia).
  replace (offset <? 0) with false by (symmetry; apply Z.ltb_ge; lia).
  replace (Sql.max_limit <? lim) with false by (symmetry; apply Z.ltb_ge; lia).
  replace (Sql.max_limit <? offset) with false by (symmetry; apply Z.ltb_ge; lia).
  reflexivity.
Qed.

Lemma order_limit_window {R : Type} {scan : Sql.Scan R}
  (cols : list (string * (R -> Sql.value)))
  (sb so : string) (lim offset : Z) (rows : list R) key ascending :
  column cols sb = Some key ->
  Sql.direction so = Some ascending ->
  0 <= lim <= Sql.max_limit -> 0 <= offset <= Sql.max_limit ->
  order_limit cols sb so lim offset rows
  = inr (firstn (Z.to_nat lim)
           (skipn (Z.to_nat offset)
              (Sql.order_by key ascending (Sql.deliver sb so lim offset rows)))).
Proof.
  intros Hcol Hdir Hl Ho. unfold order_limit, Sql.limit_offset.
  rewrite Hcol, Hdir, good_limit by assumption.
  reflexivity.
Qed.

Context {station_scan : Sql.Scan OxygenStation}.

Lemma find_all_stations_run (f : OxygenStationFilter) (p : PaginationParams) (db : DB)
  key ascending :
  column station_columns (sort_by p) = Some key ->
  Sql.direction (sort_order p) = Some ascending ->
  0 < limit p <= Sql.max_limit -> 1 <= page p -> (page p - 1) * limit p <= Sql.max_limit ->
  let selected := filter (matches (where_conditions f)) (stations db) in
  let total := Z.of_nat (List.length selected) in
  find_all_stations (Some f) (Some p) db
  = (inr (mkDatabaseResult true
            (Some (mkPaginatedResult
                     (firstn (Z.to_nat (limit p))
                        (skipn (Z.to_nat ((page p - 1) * limit p))
                           (Sql.order_by key ascending
                              (Sql.deliver (sort_by p) (sort_order p) (limit p)
                                 ((page p - 1) * limit p) selected))))
                     total (page p) (limit p) ((total + limit p - 1) / limit p)))
            None None), db).
Proof.
  intros Hcol Hdir Hl Hp Ho. cbv zeta.
  unfold find_all_stations, try_except, bind, execute_query, floordiv, default.
  cbn [answer count_query data_query].
  rewrite (order_limit_window station_columns _ _ _ _ _ key ascending Hcol Hdir)
    by nia.
  replace (limit p =? 0) with false by (symmetry; apply Z.eqb_neq; lia).
  reflexivity.
Qed.

End ListFacts.


(** Rows with equal sort keys may come in another order for another page: a
    row can then show on two pages and another on none. *)
Example pages_can_repeat_a_row_on_ties :
  @Sql.LawfulScan Sql.reference OxygenService.OxygenStation
     (Sql.later_pages_reversed OxygenService.OxygenStation)
  /\ map (fun pg =>
            map OxygenService.station_id
              (page_rows
                 (@OxygenService.find_all_stations Sql.reference
                    (Sql.later_pages_reversed OxygenService.OxygenStation)
                    (Some OxygenService.default_filter)
                    (Some (OxygenService.mkPaginationParams pg 2 "station_name" "ASC"))
                    three_stations_db)))
         [1; 2]
     = [[2; 1]; [1]].
Proof.
  split; [|reflexivity]. constructor.
  - intros sb so limit offset rows. cbn [Sql.deliver Sql.later_pages_reversed].
    destruct (0 <? offset); [apply Permutation_sym, Permutation_rev|apply Permutation_refl].
  - intros columns sb so limit offset rows window.
    apply (Sql.other_selected (LawfulScan := reference_scan_lawful _)).
  - intros. now apply (Sql.unknown_name (LawfulScan := reference_scan_lawful _)).
Qed.



(** ** Statistics *)

Section StatisticsFacts.

Import OxygenService.

Context {engine : Sql.Engine}.

Lemma get_statistics_run (db : DB) :
  exists summary,
    get_statistics db = (inr (mkDatabaseResult true (Some summary) None None), db)
    /\ average_fill_percentage summary
       = float_or_0 (Sql.avg (map (fun r => Sql.mul (level_ratio r) (Sql.lit 100)) (stations db)))
    /\ low_level_alerts summary
       = Sql.count (map (fun r => Sql.case_when_1 (Sql.lt (level_ratio r) (Some (2 # 10))))
                        (stations db)).
Proof.
  eexists. split; [reflexivity|]. split; reflexivity.
Qed.

Lemma float_or_0_eq (q : Q) : (float_or_0 (Some q) == q)%Q.
Proof.
  unfold float_or_0, truthy_num, default.
  destruct (Qeq_bool q 0) eqn:E; [|reflexivity].
  apply Qeq_bool_iff in E. now symmetry.
Qed.

Lemma positive_capacity_nonzero (r : OxygenStation) :
  (0 < capacity_liters r)%Q -> Qeq_bool (capacity_liters r) 0 = false.
Proof.
  intro H. destruct (Qeq_bool (capacity_liters r) 0) eqn:E; [|reflexivity].
  apply Qeq_bool_iff in E. rewrite E in H. exfalso. now apply (Qlt_irrefl 0).
Qed.

(** With positive capacities no percentage is NULL. *)
Lemma percentages_non_null (rows : list OxygenStation) :
  Forall (fun r => (0 < capacity_liters r)%Q) rows ->
  Sql.non_null (map (fun r => Sql.mul (level_ratio r) (Sql.lit 100)) rows)
  = map (fun r => (current_level r / capacity_liters r * inject_Z 100)%Q) rows.
Proof.
  induction 1 as [|r rows Hr _ IH]; [reflexivity|].
  cbn [map]. unfold level_ratio at 1, Sql.div at 1.
  rewrite (positive_capacity_nonzero r Hr).
  cbn [Sql.mul Sql.lit Sql.non_null]. now rewrite IH.
Qed.

Lemma total_percentages (rows : list OxygenStation) :
  (Sql.total (map (fun r => (current_level r / capacity_liters r * inject_Z 100)%Q) rows)
   == sum_over fill_percentage rows)%Q.
Proof.
  induction rows as [|r rows IH]; simpl; [reflexivity|].
  unfold Sql.total in IH. rewrite IH. reflexivity.
Qed.

Lemma count_case_when (p : OxygenStation -> Sql.cond) (rows : list OxygenStation) :
  Sql.count (map (fun r => Sql.case_when_1 (p r)) rows)
  = Z.of_nat (List.length (filter (fun r => Sql.is_true (p r)) rows)).
Proof.
  unfold Sql.count. f_equal.
  induction rows as [|r rows IH]; simpl; [reflexivity|].
  unfold Sql.case_when_1 at 1. destruct (Sql.is_true (p r)); simpl; now rewrite IH.
Qed.

Lemma low_level_condition (r : OxygenStation) :
  Sql.is_true (Sql.lt (level_ratio r) (Some (2 # 10))) = below_fifth r.
Proof.
  unfold below_fifth, level_ratio, Sql.div, Sql.lt, Sql.is_true.
  destruct (Qeq_bool (capacity_liters r) 0); simpl; [reflexivity|].
  assert (H : Qle_bool (2 # 10) (current_level r / capacity_liters r)
              = Qle_bool (20 # 100) (current_level r / capacity_liters r)).
  { destruct (Qle_bool (20 # 100) _) eqn:E.
    - apply Qle_bool_iff. apply Qle_bool_iff in E.
      eapply Qle_trans; [|exact E]. unfold Qle. simpl. lia.
    - apply Qle_bool_false. apply Qle_bool_false in E. intro H. apply E.
      eapply Qle_trans; [|exact H]. unfold Qle. simpl. lia. }
  rewrite H. now destruct (Qle_bool (20 # 100) _).
Qed.

Lemma below_fifth_same_count (l1 l2 : list OxygenStation) :
  map (fun r => (current_level r, capacity_liters r)) l1
  = map (fun r => (current_level r, capacity_liters r)) l2 ->
  List.length (filter below_fifth l1) = List.length (filter below_fifth l2).
Proof.
  revert l2. induction l1 as [|a l1 IH]; intros [|b l2] Hsame;
    try discriminate; [reflexivity|].
  simpl in Hsame. injection Hsame as Hlevel Hcap Hrest.
  assert (Hab : below_fifth a = below_fifth b)
    by (unfold below_fifth; now rewrite Hlevel, Hcap).
  simpl. rewrite Hab.
  destruct (below_fifth b); simpl; now rewrite (IH l2 Hrest).
Qed.

End StatisticsFacts.

Section SameRatioFacts.

Import OxygenService.

Lemma sum_over_cons (f : OxygenStation -> Q) (r : OxygenStation) (rows : list OxygenStation) :
  sum_over f (r :: rows) = (f r + sum_over f rows)%Q.
Proof. reflexivity. Qed.

Lemma inject_succ (n : nat) :
  (inject_Z (Z.of_nat (S n)) == inject_Z (Z.of_nat n) + 1)%Q.
Proof.
  rewrite Nat2Z.inj_succ. unfold Z.succ. rewrite inject_Z_plus. reflexivity.
Qed.

Lemma sum_fill_same_ratio (ratio : Q) (rows : list OxygenStation) :
  Forall (fun r => (current_level r / capacity_liters r == ratio)%Q) rows ->
  (sum_over fill_percentage rows == ratio * 100 * inject_Z (Z.of_nat (List.length rows)))%Q.
Proof.
  induction 1 as [|r rows Hr _ IH].
  - simpl. ring.
  - rewrite sum_over_cons, IH. unfold fill_percentage. rewrite Hr.
    cbn [List.length]. rewrite inject_succ. ring.
Qed.

Lemma sum_levels_same_ratio (ratio : Q) (rows : list OxygenStation) :
  Forall (fun r => (0 < capacity_liters r)%Q) rows ->
  Forall (fun r => (current_level r / capacity_liters r == ratio)%Q) rows ->
  (sum_over current_level rows == ratio * sum_over capacity_liters rows)%Q.
Proof.
  intros Hpos. induction Hpos as [|r rows Hr _ IH]; intro Hsame.
  - simpl. ring.
  - inversion Hsame as [|? ? Hratio Hrest]; subst.
    rewrite !sum_over_cons, (IH Hrest).
    assert (Hlevel : (current_level r == ratio * capacity_liters r)%Q).
    { rewrite <- Hratio. field. intro H0. rewrite H0 in Hr. now apply (Qlt_irrefl 0). }
    rewrite Hlevel. ring.
Qed.

Lemma sum_capacities_positive (rows : list OxygenStation) :
  rows <> [] ->
  Forall (fun r => (0 < capacity_liters r)%Q) rows ->
  (0 < sum_over capacity_liters rows)%Q.
Proof.
  intros Hne Hpos. induction Hpos as [|r rows Hr Hrest IH]; [contradiction|].
  rewrite sum_over_cons. destruct rows as [|r' rows'].
  - simpl. now rewrite Qplus_0_r.
  - rewrite <- (Qplus_0_r 0). apply Qplus_lt_le_compat; [exact Hr|].
    apply Qlt_le_weak. apply IH. discriminate.
Qed.

(** Stations that are all filled to the same ratio: the mean of the fill
    percentages is the sum of the levels over the sum of the capacities. *)
Lemma same_ratio_same_value (ratio : Q) (rows : list OxygenStation) :
  rows <> [] ->
  Forall (fun r => (0 < capacity_liters r)%Q) rows ->
  Forall (fun r => (current_level r / capacity_liters r == ratio)%Q) rows ->
  (mean_fill rows == pooled_fill rows)%Q.
Proof.
  intros Hne Hpos Hsame. unfold mean_fill, pooled_fill.
  rewrite (sum_fill_same_ratio ratio rows Hsame), (sum_levels_same_ratio ratio rows Hpos Hsame).
  pose proof (sum_capacities_positive rows Hne Hpos) as Hcap.
  assert (Hn : ~ (inject_Z (Z.of_nat (List.length rows)) == 0)%Q).
  { destruct rows as [|r rows']; [contradiction|].
    cbn [List.length]. unfold Qeq. simpl. lia. }
  field. split; [|exact Hn].
  intro H0. rewrite H0 in Hcap. now apply (Qlt_irrefl 0).
Qed.

End SameRatioFacts.

(** C8 fails as stated: the capacities of two half-full stations differ, 100
    and 200, and the mean of the two fill percentages equals the sum of the
    levels over the sum of the capacities, 50 either way. *)
Lemma C8_varying_capacities_same_value :
  exists summary,
    summary_of (OxygenService.get_statistics half_full_db) = Some summary
    /\ map OxygenService.capacity_liters (OxygenService.stations half_full_db)
       = [100%Q; 200%Q]
    /\ (OxygenService.average_fill_percentage summary
        == mean_fill (OxygenService.stations half_full_db))%Q
    /\ (OxygenService.average_fill_percentage summary
        == pooled_fill (OxygenService.stations half_full_db))%Q
    /\ (OxygenService.average_fill_percentage summary == 50)%Q.
Proof.
  eexists. split; [reflexivity|]. split; [reflexivity|].
  repeat split; vm_compute; reflexivity.
Qed.

(** C8, amended: for stations with positive capacities, at least one of them,
    average_fill_percentage is the arithmetic mean over the stations of
    current_level / capacity * 100, and with no station it is 0.  It is not
    the sum of the levels over the sum of the capacities: the two can differ
    when the capacities vary, as they do for capacities 500, 300 and 400
    filled to 450, 200 and 380; they are equal whenever all stations are
    filled to the same ratio, whatever their capacities. *)
Theorem C8_average_is_mean_of_fill_percentages :
  forall engine : Sql.Engine,
  (forall db : OxygenService.DB,
     OxygenService.stations db <> [] ->
     Forall (fun r => (0 < OxygenService.capacity_liters r)%Q) (OxygenService.stations db) ->
     exists summary,
       OxygenService.get_statistics db
       = (inr (OxygenService.mkDatabaseResult true (Some summary) None None), db)
       /\ (OxygenService.average_fill_percentage summary
           == mean_fill (OxygenService.stations db))%Q)
  /\ (forall db : OxygenService.DB,
        OxygenService.stations db = [] ->
        exists summary,
          OxygenService.get_statistics db
          = (inr (OxygenService.mkDatabaseResult true (Some summary) None None), db)
          /\ OxygenService.average_fill_percentage summary = 0%Q)
  /\ (exists summary,
        summary_of (OxygenService.get_statistics three_stations_db) = Some summary
        /\ (OxygenService.average_fill_percentage summary
            == mean_fill (OxygenService.stations three_stations_db))%Q
        /\ ~ (OxygenService.average_fill_percentage summary
              == pooled_fill (OxygenService.stations three_stations_db))%Q)
  /\ (forall (db : OxygenService.DB) (ratio : Q),
        OxygenService.stations db <> [] ->
        Forall (fun r => (0 < OxygenService.capacity_liters r)%Q) (OxygenService.stations db) ->
        Forall (fun r => (OxygenService.current_level r / OxygenService.capacity_liters r
                          == ratio)%Q) (OxygenService.stations db) ->
        exists summary,
          OxygenService.get_statistics db
          = (inr (OxygenService.mkDatabaseResult true (Some summary) None None), db)
          /\ (OxygenService.average_fill_percentage summary
              == mean_fill (OxygenService.stations db))%Q
          /\ (OxygenService.average_fill_percentage summary
              == pooled_fill (OxygenService.stations db))%Q).
Proof.
  intro engine.
  assert (Hmean : forall db : OxygenService.DB,
     OxygenService.stations db <> [] ->
     Forall (fun r => (0 < OxygenService.capacity_liters r)%Q) (OxygenService.stations db) ->
     exists summary,
       OxygenService.get_statistics db
       = (inr (OxygenService.mkDatabaseResult true (Some summary) None None), db)
       /\ (OxygenService.average_fill_percentage summary
           == mean_fill (OxygenService.stations db))%Q).
  { intros db Hne Hpos.
    destruct (get_statistics_run db) as (summary & Hrun & Havg & _).
    exists summary. split; [exact Hrun|].
    rewrite Havg. unfold Sql.avg. rewrite (percentages_non_null _ Hpos).
    destruct (OxygenService.stations db) as [|r rows] eqn:E; [contradiction|].
    rewrite <- E.
    assert (Hm : map (fun r0 => (OxygenService.current_level r0
                                 / OxygenService.capacity_liters r0 * inject_Z 100)%Q)
                     (OxygenService.stations db) <> []) by (rewrite E; discriminate).
    destruct (map _ (OxygenService.stations db)) as [|q qs] eqn:Em; [contradiction|].
    rewrite float_or_0_eq. rewrite <- Em.
    rewrite total_percentages, length_map. reflexivity. }
  split; [exact Hmean|split; [|split]].
  - intros db Hempty.
    destruct (get_statistics_run db) as (summary & Hrun & Havg & _).
    exists summary. split; [exact Hrun|].
    rewrite Havg, Hempty. reflexivity.
  - destruct (get_statistics_run three_stations_db) as (summary & Hrun & Havg & _).
    exists summary. unfold summary_of. rewrite Hrun. split; [reflexivity|].
    rewrite Havg. split; [vm_compute; reflexivity|].
    vm_compute. discriminate.
  - intros db ratio Hne Hpos Hsame.
    destruct (Hmean db Hne Hpos) as (summary & Hrun & Havg).
    exists summary. split; [exact Hrun|]. split; [exact Havg|].
    rewrite Havg. now apply (same_ratio_same_value ratio).
Qed.

Lemma C8_average_is_mean_of_fill_percentages_witness :
  (exists summary,
     OxygenService.get_statistics three_stations_db
     = (inr (OxygenService.mkDatabaseResult true (Some summary) None None), three_stations_db)
     /\ (OxygenService.average_fill_percentage summary
         == mean_fill (OxygenService.stations three_stations_db))%Q)
  /\ (exists summary,
        OxygenService.get_statistics half_full_db
        = (inr (OxygenService.mkDatabaseResult true (Some summary) None None), half_full_db)
        /\ (OxygenService.average_fill_percentage summary
            == mean_fill (OxygenService.stations half_full_db))%Q
        /\ (OxygenService.average_fill_percentage summary
            == pooled_fill (OxygenService.stations half_full_db))%Q).
Proof.
  destruct (C8_average_is_mean_of_fill_percentages Sql.reference) as (Hmean & _ & _ & Hsame).
  split.
  - apply (Hmean three_stations_db).
    + discriminate.
    + repeat constructor.
  - apply (Hsame half_full_db (1 # 2)).
    + discriminate.
    + repeat constructor.
    + repeat constructor; vm_compute; reflexivity.
Defined.

(** C9: low_level_alert_count is the number of stations whose ratio of
    current_level to capacity is below the fixed cutoff of 20 percent; it is
    determined by the levels and the capacities alone, so no threshold or
    other attribute configured on a station changes it. *)
Theorem C9_low_level_alerts_fixed_cutoff :
  forall engine : Sql.Engine,
  (forall db : OxygenService.DB,
     exists summary,
       OxygenService.get_statistics db
       = (inr (OxygenService.mkDatabaseResult true (Some summary) None None), db)
       /\ OxygenService.low_level_alerts summary
          = Z.of_nat (List.length (filter below_fifth (OxygenService.stations db))))
  /\ (forall r : OxygenService.OxygenStation,
        below_fifth r = true
        <-> (~ (OxygenService.capacity_liters r == 0)%Q
             /\ (OxygenService.current_level r / OxygenService.capacity_liters r
                 < 20 # 100)%Q))
  /\ (forall db1 db2 : OxygenService.DB,
        map (fun r => (OxygenService.current_level r, OxygenService.capacity_liters r))
            (OxygenService.stations db1)
        = map (fun r => (OxygenService.current_level r, OxygenService.capacity_liters r))
              (OxygenService.stations db2) ->
        option_map OxygenService.low_level_alerts
          (summary_of (OxygenService.get_statistics db1))
        = option_map OxygenService.low_level_alerts
            (summary_of (OxygenService.get_statistics db2))).
Proof.
  intro engine.
  assert (Hcount : forall db : OxygenService.DB,
            exists summary,
              OxygenService.get_statistics db
              = (inr (OxygenService.mkDatabaseResult true (Some summary) None None), db)
              /\ OxygenService.low_level_alerts summary
                 = Z.of_nat (List.length (filter below_fifth (OxygenService.stations db)))).
  { intro db. destruct (get_statistics_run db) as (summary & Hrun & _ & Hlow).
    exists summary. split; [exact Hrun|].
    rewrite Hlow, count_case_when. f_equal. f_equal.
    apply filter_ext. intro r. apply low_level_condition. }
  split; [exact Hcount|split].
  - intro r. unfold below_fifth. rewrite andb_true_iff, !negb_true_iff. split.
    + intros [Hc Hl]. split.
      * intro H. apply Qeq_bool_iff in H. congruence.
      * apply Qnot_le_lt. now apply Qle_bool_false.
    + intros [Hc Hl]. split.
      * destruct (Qeq_bool _ 0) eqn:E; [|reflexivity].
        exfalso. apply Hc. now apply Qeq_bool_iff.
      * apply Qle_bool_false. now apply Qlt_not_le.
  - intros db1 db2 Hsame.
    destruct (Hcount db1) as (s1 & Hrun1 & Hlow1).
    destruct (Hcount db2) as (s2 & Hrun2 & Hlow2).
    unfold summary_of. rewrite Hrun1, Hrun2. simpl. f_equal.
    rewrite Hlow1, Hlow2. f_equal.
    now apply below_fifth_same_count.
Qed.

Lemma C9_low_level_alerts_fixed_cutoff_witness :
  option_map OxygenService.low_level_alerts
    (summary_of (OxygenService.get_statistics low_stations_db)) = Some 1
  /\ option_map OxygenService.low_level_alerts
       (summary_of (OxygenService.get_statistics low_stations_db_other)) = Some 1.
Proof.
  split; [reflexivity|].
  rewrite <- (proj2 (proj2 (C9_low_level_alerts_fixed_cutoff Sql.reference))
                low_stations_db low_stations_db_other); reflexivity.
Defined.

(** ** The reading list *)

Section ReadingFacts.

Import OxygenService.

Context {engine : Sql.Engine} {reading_scan : Sql.Scan OxygenReading}.

Lemma no_readings_without_station (db : DB) (id : Z) :
  readings_reference_stations db ->
  (forall st, In st (stations db) -> station_id st <> id) ->
  filter (fun r => rd_station_id r =? id) (readings db) = [].
Proof.
  intros Hfk Hnone.
  destruct (filter _ (readings db)) as [|rd rest] eqn:E; [reflexivity|].
  assert (Hin : In rd (filter (fun r => rd_station_id r =? id) (readings db)))
    by (rewrite E; left; reflexivity).
  apply filter_In in Hin. destruct Hin as [Hin Hid]. apply Z.eqb_eq in Hid.
  destruct (Hfk rd Hin) as (st & Hst & Hsame).
  exfalso. apply (Hnone st Hst). congruence.
Qed.

Lemma order_by_nil {A : Type} (key : A -> Sql.value) (ascending : bool) :
  Sql.order_by key ascending [] = [].
Proof. now destruct ascending. Qed.

Lemma get_readings_missing_station (db : DB) (id : Z) (p : PaginationParams) key ascending :
  Sql.LawfulScan OxygenReading reading_scan ->
  (forall st, In st (stations db) -> station_id st <> id) ->
  readings_reference_stations db ->
  1 <= page p -> 1 <= limit p <= Sql.max_limit -> (page p - 1) * limit p <= Sql.max_limit ->
  column reading_columns (sort_by p) = Some key ->
  Sql.direction (sort_order p) = Some ascending ->
  get_readings_for_station id (Some p) db
  = (inr (mkDatabaseResult true (Some (mkPaginatedResult [] 0 (page p) (limit p) 0))
            None None), db).
Proof.
  intros Hscan Hnone Hfk Hp Hl Ho Hcol Hdir.
  unfold get_readings_for_station, try_except, bind, execute_query, floordiv, default.
  cbn [answer readings_count_query readings_data_query].
  rewrite (no_readings_without_station db id Hfk Hnone).
  rewrite (order_limit_window reading_columns _ _ _ _ _ key ascending Hcol Hdir) by nia.
  replace (limit p =? 0) with false by (symmetry; apply Z.eqb_neq; lia).
  cbn [List.length Z.of_nat]. unfold ret.
  replace ((0 + limit p - 1) / limit p) with 0 by (symmetry; apply Z.div_small; lia).
  rewrite (Permutation_nil (Permutation_sym (Sql.deliver_perm _ _ _ _ []))).
  rewrite order_by_nil, skipn_nil, firstn_nil. reflexivity.
Qed.

(** A list of readings is answered with a result, and a successful one
    carries its page. *)
Lemma get_readings_answers (db : DB) (id : Z) (p : option PaginationParams) :
  exists res,
    get_readings_for_station id p db = (inr res, db)
    /\ (success res = true -> data res <> None).
Proof.
  unfold get_readings_for_station, try_except, bind, execute_query, floordiv.
  cbn [answer readings_count_query readings_data_query].
  destruct (order_limit reading_columns _ _ _ _ _) as [e|rows].
  - eexists. split; [reflexivity|]. simpl. discriminate.
  - destruct (limit (default p _) =? 0).
    + eexists. split; [reflexivity|]. simpl. discriminate.
    + eexists. split; [reflexivity|]. simpl. discriminate.
Qed.

End ReadingFacts.

(** C10 fails as stated: for a station that does not exist and a limit of 0,
    get_readings_for_station returns an error, the division by the limit,
    and the route answers 400 with success false. *)
Lemma C10_zero_limit_is_an_error :
  OxygenService.get_readings_for_station 99
    (Some (OxygenService.pagination_of zero_limit_args "timestamp" "DESC")) empty_db
  = (inr (OxygenService.mkDatabaseResult false None
            (Some "integer division or modulo by zero") None), empty_db)
  /\ OxygenService.get_oxygen_readings 99 zero_limit_args empty_db
     = (OxygenService.JsonFailure "integer division or modulo by zero", 400, empty_db).
Proof.
  split; reflexivity.
Qed.

(** C10, amended: for a station_id with no station in the store (every
    reading with its station, as the foreign key guarantees), a page number
    from 1 on, a limit from 1 on, a LIMIT and an OFFSET the grammar reads (at
    most 18446744073709551615) and sort texts that name a column of the
    readings and a direction, on an engine that answers with selected rows
    only, get_readings_for_station returns a successful result with an empty
    list, total 0 and total_pages 0, and the route answers 200; so it does
    with the defaults of the route.  For no station and no pagination input
    does the route answer 404. *)
Theorem C10_missing_station_gives_empty_page :
  forall (engine : Sql.Engine) (reading_scan : Sql.Scan OxygenService.OxygenReading),
  (forall (db : OxygenService.DB) (id : Z) (p : OxygenService.PaginationParams)
          key ascending,
     Sql.LawfulScan OxygenService.OxygenReading reading_scan ->
     (forall st, In st (OxygenService.stations db) -> OxygenService.station_id st <> id) ->
     readings_reference_stations db ->
     1 <= OxygenService.page p ->
     1 <= OxygenService.limit p <= Sql.max_limit ->
     (OxygenService.page p - 1) * OxygenService.limit p <= Sql.max_limit ->
     OxygenService.column OxygenService.reading_columns (OxygenService.sort_by p) = Some key ->
     Sql.direction (OxygenService.sort_order p) = Some ascending ->
     OxygenService.get_readings_for_station id (Some p) db
     = (inr (OxygenService.mkDatabaseResult true
               (Some (OxygenService.mkPaginatedResult [] 0 (OxygenService.page p)
                        (OxygenService.limit p) 0))
               None None), db)
     /\ forall args,
          OxygenService.pagination_of args "timestamp" "DESC" = p ->
          OxygenService.get_oxygen_readings id args db
          = (OxygenService.JsonSuccess
               (OxygenService.mkPaginatedResult [] 0 (OxygenService.page p)
                  (OxygenService.limit p) 0), 200, db))
  /\ (forall (db : OxygenService.DB) (id : Z),
        Sql.LawfulScan OxygenService.OxygenReading reading_scan ->
        (forall st, In st (OxygenService.stations db) -> OxygenService.station_id st <> id) ->
        readings_reference_stations db ->
        OxygenService.get_readings_for_station id None db
        = (inr (OxygenService.mkDatabaseResult true
                  (Some (OxygenService.mkPaginatedResult [] 0 1 50 0)) None None), db)
        /\ OxygenService.get_oxygen_readings id default_list_args db
           = (OxygenService.JsonSuccess (OxygenService.mkPaginatedResult [] 0 1 50 0),
              200, db))
  /\ (forall (db : OxygenService.DB) (id : Z) (args : OxygenService.ListArgs),
        snd (fst (OxygenService.get_oxygen_readings id args db)) <> 404).
Proof.
  intros engine reading_scan. split; [|split].
  - intros db id p key ascending Hscan Hnone Hfk Hp Hl Ho Hcol Hdir.
    pose proof (get_readings_missing_station db id p key ascending Hscan Hnone Hfk Hp Hl Ho
                  Hcol Hdir) as Hrun.
    split; [exact Hrun|].
    intros args <-. unfold OxygenService.get_oxygen_readings. rewrite Hrun. reflexivity.
  - intros db id Hscan Hnone Hfk.
    pose proof (get_readings_missing_station db id
                  (OxygenService.mkPaginationParams 1 50 "timestamp" "DESC")
                  (fun r => Sql.VInt (OxygenService.timestamp r)) false Hscan Hnone Hfk
                  ltac:(simpl; lia) ltac:(vm_compute; split; discriminate)
                  ltac:(vm_compute; discriminate) eq_refl eq_refl) as Hrun.
    split; [exact Hrun|].
    unfold OxygenService.get_oxygen_readings.
    change (OxygenService.pagination_of default_list_args "timestamp" "DESC")
      with (OxygenService.mkPaginationParams 1 50 "timestamp" "DESC").
    rewrite Hrun. reflexivity.
  - intros db id args. unfold OxygenService.get_oxygen_readings.
    destruct (get_readings_answers db id
                (Some (OxygenService.pagination_of args "timestamp" "DESC")))
      as (res & Hrun & Hdata).
    rewrite Hrun. unfold OxygenService.respond.
    destruct (OxygenService.success res).
    + destruct (OxygenService.data res); [simpl; lia|].
      exfalso. now apply Hdata.
    + simpl. lia.
Qed.

Lemma C10_missing_station_gives_empty_page_witness :
  OxygenService.get_readings_for_station 99
    (Some (OxygenService.mkPaginationParams 2 10 "level_liters" "asc")) one_station_db
  = (inr (OxygenService.mkDatabaseResult true
            (Some (OxygenService.mkPaginatedResult [] 0 2 10 0)) None None), one_station_db).
Proof.
  apply (proj1 (C10_missing_station_gives_empty_page Sql.reference
                  (Sql.table_order OxygenService.OxygenReading)) one_station_db 99
           (OxygenService.mkPaginationParams 2 10 "level_liters" "asc")
           (fun r => Sql.VNum (OxygenService.level_liters r)) true).
  - exact (reference_scan_lawful _).
  - intros st [<-|[]]. simpl. lia.
  - intros rd [].
  - simpl. lia.
  - vm_compute. split; discriminate.
  - vm_compute. discriminate.
  - reflexivity.
  - reflexivity.
Defined.

(** ** Stations by identifier: lookup, update and deletion *)

Section StoreFacts.

Import OxygenService.

Context {engine : Sql.Engine}.

Lemma filter_all_true {A : Type} (p : A -> bool) (l : list A) :
  (forall x, In x l -> p x = true) -> filter p l = l.
Proof.
  induction l as [|x l IH]; simpl; intro H; [reflexivity|].
  rewrite (H x (or_introl eq_refl)). f_equal. apply IH. intros y Hy. apply H. now right.
Qed.

Lemma filter_none {A : Type} (p : A -> bool) (l : list A) :
  (forall x, In x l -> p x = false) -> filter p l = [].
Proof.
  induction l as [|x l IH]; simpl; intro H; [reflexivity|].
  rewrite (H x (or_introl eq_refl)). apply IH. intros y Hy. apply H. now right.
Qed.

(** Under a unique key the rows of an identifier are the row itself. *)
Lemma filter_key_unique (id : Z) (rows : list OxygenStation) (st : OxygenStation) :
  NoDup (map station_id rows) ->
  In st rows -> station_id st = id ->
  filter (fun r => station_id r =? id) rows = [st].
Proof.
  induction rows as [|x rows IH]; simpl; intros Hnd Hin Hid; [contradiction|].
  inversion Hnd as [|? ? Hnotin Hnd']; subst.
  destruct Hin as [->|Hin].
  - rewrite Z.eqb_refl. f_equal. apply filter_none.
    intros y Hy. apply Z.eqb_neq. intro Heq. apply Hnotin. rewrite <- Heq. now apply in_map.
  - replace (station_id x =? station_id st) with false.
    + now apply IH.
    + symmetry. apply Z.eqb_neq. intro Heq. apply Hnotin. rewrite Heq. now apply in_map.
Qed.

(** The rows of an identifier after a rewriting that keeps identifiers. *)
Lemma filter_mapped (g : OxygenStation -> OxygenStation) (id : Z) (rows : list OxygenStation) :
  (forall r, station_id (g r) = station_id r) ->
  filter (fun r => station_id r =? id) (map g rows)
  = map g (filter (fun r => station_id r =? id) rows).
Proof.
  intro Hg. induction rows as [|x rows IH]; simpl; [reflexivity|].
  rewrite Hg. destruct (station_id x =? id); simpl; now rewrite IH.
Qed.

Lemma delete_station_run (id : Z) (db : DB) :
  delete_station id db
  = (inr (if Z.of_nat (List.length (filter (fun r => station_id r =? id) (stations db))) =? 0
          then mkDatabaseResult false None (Some "Oxygen station not found") None
          else mkDatabaseResult true (Some true) None None),
     mkDB (filter (fun r => negb (station_id r =? id)) (stations db))
          (filter (fun r => negb (rd_station_id r =? id)) (readings db))
          (station_seq db) (reading_seq db) (clock db)).
Proof.
  unfold delete_station, execute_update, try_except, bind, delete_station_rows.
  destruct (Z.of_nat _ =? 0); reflexivity.
Qed.

Lemma store_ok_stations_mapped (g : OxygenStation -> OxygenStation) (db : DB) :
  store_ok db ->
  (forall r, station_id (g r) = station_id r) ->
  (forall r, In r (stations db) -> In (status (g r)) status_values) ->
  store_ok (set_stations (map g (stations db)) db).
Proof.
  intros [Hu Hi Hru Hri Hfk Hst] Hg Hstatus.
  constructor; cbn [set_stations stations readings station_seq reading_seq].
  - rewrite map_map. rewrite (map_ext _ station_id) by exact Hg. exact Hu.
  - intros r Hr. apply in_map_iff in Hr. destruct Hr as (r0 & <- & Hr0).
    rewrite Hg. now apply Hi.
  - exact Hru.
  - exact Hri.
  - intros rd Hrd. destruct (Hfk rd Hrd) as (st & Hst1 & Hst2).
    exists (g st). split.
    + apply in_map_iff. exists st. split; [reflexivity|exact Hst1].
    + now rewrite Hg.
  - intros r Hr. apply in_map_iff in Hr. destruct Hr as (r0 & <- & Hr0).
    now apply Hstatus.
Qed.

(** The status an update stores is a member of the enumeration. *)
Lemma stored_status_member (u v : UpdateOxygenStation) (m : string) :
  stored_update u = inr v -> us_status v = Some m -> In m status_values.
Proof.
  intros Hv Hm. destruct (stored_update_columns u v Hv) as (_ & _ & Hs & _).
  rewrite Hm in Hs. destruct (us_status u) as [s|]; [|discriminate].
  cbn [Sql.nullable Sql.and_then] in Hs.
  destruct (Sql.enum_column "status" status_values s) as [e|m'] eqn:E; [discriminate|].
  injection Hs as ->. apply enum_column_inr in E. now apply enum_member in E.
Qed.

(** The ways [create_reading] ends. *)
Lemma create_reading_cases (c : CreateOxygenReading) (db : DB) :
  exists res,
    (create_reading c db = (inr res, db) /\ success res = false)
    \/ (create_reading c db
        = (inr res, mkDB (stations db) (readings db) (station_seq db) (reading_seq db + 1)
                      (clock db))
        /\ success res = false)
    \/ (exists row,
          reading_row c (reading_seq db) (clock db) = inr row
          /\ existsb (fun r => station_id r =? cr_station_id c) (stations db) = true
          /\ create_reading c db
             = (inr res,
                mkDB (levels_set (level_liters row) (cr_station_id c) (clock db) (stations db))
                     (readings db ++ [row])
                     (station_seq db) (reading_seq db + 1) (clock db))
          /\ success res = true).
Proof.
  destruct (reading_row c (reading_seq db) (clock db)) as [e|row] eqn:Hrow.
  - eexists. left. split; [apply create_reading_refused; exact Hrow|reflexivity].
  - destruct (Z_le_gt_dec (reading_seq db) Sql.max_int) as [Hseq|Hseq].
    + destruct (existsb (fun r => station_id r =? cr_station_id c) (stations db)) eqn:Hex.
      * eexists. right. right. exists row. split; [reflexivity|]. split; [reflexivity|].
        split; [apply (create_reading_existing c db row Hex Hrow Hseq)|reflexivity].
      * eexists. right. left.
        split; [apply (create_reading_missing c db row Hex Hrow Hseq)|reflexivity].
    + eexists. left.
      split; [apply (create_reading_exhausted c db row Hrow); lia|reflexivity].
Qed.

End StoreFacts.


(** The cases of membership in a list that is written out. *)
Ltac in_cases H :=
  simpl in H; repeat (destruct H as [H|H]; [try subst|]); try contradiction.

(** [store_ok] of a store that is written out. *)
Ltac store_ok_by_cases :=
  constructor;
  [ repeat constructor; simpl; intuition lia
  | let r := fresh "r" in let H := fresh "H" in intros r H; in_cases H; simpl; lia
  | repeat constructor; simpl; intuition lia
  | let r := fresh "r" in let H := fresh "H" in intros r H; in_cases H; simpl; lia
  | let r := fresh "r" in let H := fresh "H" in
    intros r H; in_cases H;
    first [ eexists; split; [left; reflexivity|reflexivity]
          | eexists; split; [right; left; reflexivity|reflexivity]
          | eexists; split; [right; right; left; reflexivity|reflexivity] ]
  | let r := fresh "r" in let H := fresh "H" in intros r H; in_cases H; simpl; tauto ].


Section LookupFacts.

Import OxygenService.

Lemma find_station_by_id_unique (db : DB) (id : Z) (st : OxygenStation) :
  NoDup (map station_id (stations db)) ->
  In st (stations db) -> station_id st = id ->
  find_station_by_id id db = (inr (mkDatabaseResult true (Some st) None None), db).
Proof.
  intros Hnd Hin Hid. rewrite find_station_by_id_run.
  now rewrite (filter_key_unique id (stations db) st Hnd Hin Hid).
Qed.

Lemma find_station_by_id_missing (db : DB) (id : Z) :
  (forall r, In r (stations db) -> station_id r <> id) ->
  find_station_by_id id db
  = (inr (mkDatabaseResult false None (Some "Oxygen station not found") None), db).
Proof.
  intro Hnone. rewrite find_station_by_id_run.
  rewrite filter_none; [reflexivity|].
  intros r Hr. apply Z.eqb_neq. now apply Hnone.
Qed.

End LookupFacts.

(** X2: a station created under fresh identifiers is the one a lookup by the
    returned identifier finds.  For a request whose values the columns keep,
    while the counter has identifiers left, create_station returns the row
    the columns make of the request under the next identifier: the texts as
    VARCHAR(100) and VARCHAR(255) keep them, the capacity and the level
    rounded to two decimals, the status as the enumeration has it, the
    time of the store as created_at and updated_at; find_station_by_id and
    the GET route on that identifier return that same row afterwards. *)
Theorem X2_created_station_is_found :
  forall (engine : Sql.Engine) (db : OxygenService.DB) (c : OxygenService.CreateOxygenStation)
         (row : OxygenService.OxygenStation),
    (forall r, In r (OxygenService.stations db) ->
               OxygenService.station_id r < OxygenService.station_seq db) ->
    OxygenService.station_row c (OxygenService.station_seq db) (OxygenService.clock db)
    = inr row ->
    OxygenService.station_seq db <= Sql.max_int ->
    let id := OxygenService.station_seq db in
    exists db',
      OxygenService.create_station c db
      = (inr (OxygenService.mkDatabaseResult true (Some row) None (Some id)), db')
      /\ OxygenService.find_station_by_id id db'
         = (inr (OxygenService.mkDatabaseResult true (Some row) None None), db')
      /\ OxygenService.get_oxygen_station_by_id id db'
         = (OxygenService.JsonSuccess row, 200, db')
      /\ OxygenService.station_id row = id
      /\ Sql.varchar 100 (OxygenService.cs_station_name c)
         = Some (OxygenService.station_name row)
      /\ Sql.varchar 255 (OxygenService.cs_location c) = Some (OxygenService.location row)
      /\ Sql.decimal 10 (OxygenService.cs_capacity_liters c)
         = Some (OxygenService.capacity_liters row)
      /\ Sql.decimal 10 (OxygenService.cs_current_level c)
         = Some (OxygenService.current_level row)
      /\ Sql.enum OxygenService.status_values (OxygenService.cs_status c)
         = Some (OxygenService.status row)
      /\ OxygenService.last_refill row = OxygenService.cs_last_refill c
      /\ OxygenService.next_maintenance row = OxygenService.cs_next_maintenance c
      /\ OxygenService.alerts_enabled row = OxygenService.cs_alerts_enabled c
      /\ OxygenService.created_at row = OxygenService.clock db
      /\ OxygenService.updated_at row = OxygenService.clock db.
Proof.
  intros engine db c row Hissued Hrow Hseq id.
  pose proof (station_row_columns _ _ _ _ Hrow) as Hcols.
  assert (Hfilter : filter (fun r => OxygenService.station_id r =? id)
                      (OxygenService.stations db ++ [row]) = [row]).
  { rewrite filter_app, filter_none.
    - simpl. rewrite (proj1 Hcols). unfold id. now rewrite Z.eqb_refl.
    - intros r Hr. apply Z.eqb_neq. specialize (Hissued r Hr). unfold id. lia. }
  eexists. split; [|split; [|split]].
  - unfold OxygenService.create_station, OxygenService.execute_insert,
      OxygenService.try_except, OxygenService.bind, OxygenService.insert_station.
    rewrite Hrow.
    replace (Sql.max_int <? OxygenService.station_seq db) with false
      by (symmetry; apply Z.ltb_ge; lia).
    rewrite find_station_by_id_run. cbn [OxygenService.stations].
    fold id. rewrite Hfilter. reflexivity.
  - rewrite find_station_by_id_run. cbn [OxygenService.stations]. now rewrite Hfilter.
  - unfold OxygenService.get_oxygen_station_by_id.
    rewrite find_station_by_id_run. cbn [OxygenService.stations]. now rewrite Hfilter.
  - exact Hcols.
Qed.

Lemma X2_created_station_is_found_witness :
  exists db',
    OxygenService.create_station emergency_station_request one_station_db
    = (inr (OxygenService.mkDatabaseResult true
              (Some (OxygenService.mkOxygenStation 2 "Emergency Station B" "Emergency Room"
                       300 200 (Some 140%Q) (Some 3%Q) "operational" None None
                       (Some "MedGas Ltd") true 0 0)) None (Some 2)), db')
    /\ OxygenService.get_oxygen_station_by_id 2 db'
       = (OxygenService.JsonSuccess
            (OxygenService.mkOxygenStation 2 "Emergency Station B" "Emergency Room"
               300 200 (Some 140%Q) (Some 3%Q) "operational" None None
               (Some "MedGas Ltd") true 0 0), 200, db').
Proof.
  destruct (X2_created_station_is_found Sql.reference one_station_db emergency_station_request
              (OxygenService.mkOxygenStation 2 "Emergency Station B" "Emergency Room"
                 300 200 (Some 140%Q) (Some 3%Q) "operational" None None
                 (Some "MedGas Ltd") true 0 0))
    as (db' & Hrun & _ & Hget & _).
  - intros r [<-|[]]. simpl. lia.
  - reflexivity.
  - vm_compute. discriminate.
  - exists db'. split; [exact Hrun|exact Hget].
Defined.

(** X3: a lookup by identifier finds a station exactly when one exists.  For
    an identifier no station has, find_station_by_id fails with "Oxygen
    station not found" and the GET route answers 404; for the identifier of a
    station (identifiers unique) they return that station, with 200. *)
Theorem X3_lookup_by_identifier :
  (forall (db : OxygenService.DB) (id : Z),
     (forall r, In r (OxygenService.stations db) -> OxygenService.station_id r <> id) ->
     OxygenService.find_station_by_id id db
     = (inr (OxygenService.mkDatabaseResult false None (Some "Oxygen station not found") None),
        db)
     /\ OxygenService.get_oxygen_station_by_id id db
        = (OxygenService.JsonFailure "Oxygen station not found", 404, db))
  /\ (forall (db : OxygenService.DB) (st : OxygenService.OxygenStation),
        NoDup (map OxygenService.station_id (OxygenService.stations db)) ->
        In st (OxygenService.stations db) ->
        OxygenService.find_station_by_id (OxygenService.station_id st) db
        = (inr (OxygenService.mkDatabaseResult true (Some st) None None), db)
        /\ OxygenService.get_oxygen_station_by_id (OxygenService.station_id st) db
           = (OxygenService.JsonSuccess st, 200, db)).
Proof.
  split.
  - intros db id Hnone.
    pose proof (find_station_by_id_missing db id Hnone) as Hrun.
    split; [exact Hrun|]. unfold OxygenService.get_oxygen_station_by_id. now rewrite Hrun.
  - intros db st Hnd Hin.
    pose proof (find_station_by_id_unique db _ st Hnd Hin eq_refl) as Hrun.
    split; [exact Hrun|]. unfold OxygenService.get_oxygen_station_by_id. now rewrite Hrun.
Qed.

Lemma X3_lookup_by_identifier_witness :
  OxygenService.get_oxygen_station_by_id 7 two_station_db
  = (OxygenService.JsonFailure "Oxygen station not found", 404, two_station_db)
  /\ OxygenService.get_oxygen_station_by_id 1 two_station_db
     = (OxygenService.JsonSuccess full_station, 200, two_station_db).
Proof.
  split.
  - apply (proj1 X3_lookup_by_identifier two_station_db 7).
    intros r [<-|[<-|[]]]; simpl; lia.
  - apply (proj2 X3_lookup_by_identifier two_station_db full_station).
    + repeat constructor; simpl; intuition lia.
    + left. reflexivity.
Defined.

(** X4: deleting an existing station succeeds and removes exactly that
    station and the readings of that station: every other station and every
    reading of another station stays as it was, the counters are not reset,
    and a lookup of the identifier afterwards answers "Oxygen station not
    found". *)
Theorem X4_delete_removes_station_and_its_readings :
  forall (engine : Sql.Engine) (db : OxygenService.DB) (st : OxygenService.OxygenStation),
    In st (OxygenService.stations db) ->
    let id := OxygenService.station_id st in
    exists db',
      OxygenService.delete_station id db
      = (inr (OxygenService.mkDatabaseResult true (Some true) None None), db')
      /\ (forall r, In r (OxygenService.stations db')
                    <-> In r (OxygenService.stations db) /\ OxygenService.station_id r <> id)
      /\ (forall rd, In rd (OxygenService.readings db')
                     <-> In rd (OxygenService.readings db)
                         /\ OxygenService.rd_station_id rd <> id)
      /\ OxygenService.station_seq db' = OxygenService.station_seq db
      /\ OxygenService.reading_seq db' = OxygenService.reading_seq db
      /\ OxygenService.find_station_by_id id db'
         = (inr (OxygenService.mkDatabaseResult false None
                   (Some "Oxygen station not found") None), db').
Proof.
  intros engine db st Hin id. eexists. split; [|split; [|split; [|split; [|split]]]].
  - rewrite delete_station_run.
    assert (Hne : filter (fun r => OxygenService.station_id r =? id)
                    (OxygenService.stations db) <> []).
    { intro E.
      assert (H : In st (filter (fun r => OxygenService.station_id r =? id)
                           (OxygenService.stations db))).
      { apply filter_In. split; [exact Hin|apply Z.eqb_refl]. }
      rewrite E in H. exact H. }
    destruct (filter _ (OxygenService.stations db)); [contradiction|]. reflexivity.
  - intro r. cbn [OxygenService.stations]. rewrite filter_In, negb_true_iff, Z.eqb_neq. tauto.
  - intro rd. cbn [OxygenService.readings]. rewrite filter_In, negb_true_iff, Z.eqb_neq. tauto.
  - reflexivity.
  - reflexivity.
  - apply find_station_by_id_missing. intros r Hr. cbn [OxygenService.stations] in Hr.
    apply filter_In in Hr. destruct Hr as [_ Hr].
    apply negb_true_iff in Hr. now apply Z.eqb_neq.
Qed.

Lemma X4_delete_removes_station_and_its_readings_witness :
  exists db',
    OxygenService.delete_station 1 two_station_db
    = (inr (OxygenService.mkDatabaseResult true (Some true) None None), db')
    /\ OxygenService.readings db' = []
    /\ map OxygenService.station_id (OxygenService.stations db') = [2].
Proof.
  destruct (X4_delete_removes_station_and_its_readings Sql.reference two_station_db
              full_station)
    as (db' & Hrun & _).
  - left. reflexivity.
  - exists db'. split; [exact Hrun|].
    change (OxygenService.station_id full_station) with 1 in Hrun.
    rewrite delete_station_run in Hrun. injection Hrun as <-. split; reflexivity.
Defined.

(** X5: deleting a station that does not exist fails with "Oxygen station
    not found" and leaves the store as it was, when every reading has its
    station. *)
Theorem X5_delete_missing_station_changes_nothing :
  forall (engine : Sql.Engine) (db : OxygenService.DB) (id : Z),
    readings_reference_stations db ->
    (forall r, In r (OxygenService.stations db) -> OxygenService.station_id r <> id) ->
    OxygenService.delete_station id db
    = (inr (OxygenService.mkDatabaseResult false None (Some "Oxygen station not found") None),
       db).
Proof.
  intros engine db id Hfk Hnone. rewrite delete_station_run.
  rewrite (filter_none (fun r => OxygenService.station_id r =? id)).
  2:{ intros r Hr. apply Z.eqb_neq. now apply Hnone. }
  rewrite (filter_all_true (fun r => negb (OxygenService.station_id r =? id))).
  2:{ intros r Hr. apply negb_true_iff, Z.eqb_neq. now apply Hnone. }
  rewrite (filter_all_true (fun r => negb (OxygenService.rd_station_id r =? id))).
  2:{ intros rd Hrd. apply negb_true_iff, Z.eqb_neq.
      destruct (Hfk rd Hrd) as (s & Hs1 & Hs2). rewrite <- Hs2. now apply Hnone. }
  destruct db. reflexivity.
Qed.

Lemma X5_delete_missing_station_changes_nothing_witness :
  OxygenService.delete_station 7 two_station_db
  = (inr (OxygenService.mkDatabaseResult false None (Some "Oxygen station not found") None),
     two_station_db).
Proof.
  apply X5_delete_missing_station_changes_nothing.
  - intros rd H. in_cases H; exists full_station; split;
      solve [left; reflexivity | reflexivity].
  - intros r H. in_cases H; simpl; lia.
Defined.

Section UpdateSuccessFacts.

Import OxygenService.

Lemma update_fields_given (u : UpdateOxygenStation) :
  u <> empty_update -> update_fields u <> [].
Proof.
  intros Hu Hf. apply Hu. destruct u as [a b c d e f g h i j k].
  unfold update_fields in Hf. simpl in Hf.
  destruct a, b, c, d, e, f, g, h, i, j, k; try discriminate Hf. reflexivity.
Qed.

Lemma rows_of_station (id : Z) (rows : list OxygenStation) (st : OxygenStation) :
  In st rows -> station_id st = id -> filter (fun r => station_id r =? id) rows <> [].
Proof.
  intros Hin Hid E.
  assert (H : In st (filter (fun r => station_id r =? id) rows)).
  { apply filter_In. split; [exact Hin|now apply Z.eqb_eq]. }
  rewrite E in H. exact H.
Qed.

(** Under a unique key an update by identifier changes the row of the
    identifier or none. *)
Lemma station_rows_changed_unique (f : OxygenStation -> OxygenStation) (id : Z)
  (rows : list OxygenStation) (st : OxygenStation) :
  NoDup (map station_id rows) -> In st rows -> station_id st = id ->
  rows_changed f id rows = if same_station (f st) st then 0 else 1.
Proof.
  intros Hnd Hin Hid. unfold rows_changed.
  replace (filter (fun r => (station_id r =? id) && negb (same_station (f r) r)) rows)
    with (filter (fun r => negb (same_station (f r) r))
            (filter (fun r => station_id r =? id) rows)).
  - rewrite (filter_key_unique id rows st Hnd Hin Hid). simpl.
    now destruct (same_station (f st) st).
  - clear. induction rows as [|r rows IH]; simpl; [reflexivity|].
    destruct (station_id r =? id); simpl; [|exact IH].
    destruct (negb _); simpl; now rewrite IH.
Qed.

Lemma rewrite_rows_others (f : OxygenStation -> OxygenStation) (id : Z)
  (rows : list OxygenStation) (r : OxygenStation) :
  station_id r <> id -> (forall x, station_id (f x) = station_id x) ->
  (In r (rewrite_rows f id rows) <-> In r rows).
Proof.
  intros Hr Hf. unfold rewrite_rows. rewrite in_map_iff. split.
  - intros (x & Hx & Hxin). destruct (station_id x =? id) eqn:E; simpl in Hx.
    + destruct (negb _).
      * exfalso. apply Hr. rewrite <- Hx, Hf. now apply Z.eqb_eq.
      * now rewrite <- Hx.
    + now rewrite <- Hx.
  - intro Hrin. exists r. split; [|exact Hrin].
    replace (station_id r =? id) with false; [reflexivity|].
    symmetry. now apply Z.eqb_neq.
Qed.

(** An update at another time than the one the row carries changes the row. *)
Lemma assign_changes_time (v : UpdateOxygenStation) (now : datetime) (st : OxygenStation) :
  updated_at st <> now -> same_station (assign v now st) st = false.
Proof.
  intro Hne. unfold same_station. cbn [assign updated_at].
  replace (now =? updated_at st) with false by (symmetry; apply Z.eqb_neq; congruence).
  apply andb_false_r.
Qed.

End UpdateSuccessFacts.

(** X6: an update that is refused changes nothing.  Whenever update_station
    returns an error the store is the one before the call; with no field
    given the error is "No fields to update", also for an existing station;
    for an identifier no station has it is "Oxygen station not found or no
    changes made", whatever the values given; and an update of an existing
    station with a value a column refuses (a status outside the enumeration,
    a text beyond the width of its column, a number with too many digits) is
    answered with the error of that column, or with what the rollback
    raises. *)
Theorem X6_refused_update_changes_nothing :
  forall engine : Sql.Engine,
  (forall (db db' : OxygenService.DB) (id : Z) (u : OxygenService.UpdateOxygenStation) res,
     OxygenService.update_station id u db = (inr res, db') ->
     OxygenService.success res = false -> db' = db)
  /\ (forall (db : OxygenService.DB) (id : Z),
        OxygenService.update_station id empty_update db
        = (inr (OxygenService.mkDatabaseResult false None (Some "No fields to update") None),
           db))
  /\ (forall (db : OxygenService.DB) (id : Z) (u : OxygenService.UpdateOxygenStation),
        u <> empty_update ->
        (forall r, In r (OxygenService.stations db) -> OxygenService.station_id r <> id) ->
        OxygenService.update_station id u db
        = (inr (OxygenService.mkDatabaseResult false None
                  (Some "Oxygen station not found or no changes made") None), db))
  /\ (forall (db : OxygenService.DB) (st : OxygenService.OxygenStation)
             (u : OxygenService.UpdateOxygenStation) (e : exn),
        In st (OxygenService.stations db) ->
        u <> empty_update ->
        OxygenService.stored_update u = inl e ->
        OxygenService.update_station (OxygenService.station_id st) u db
        = (inr (OxygenService.mkDatabaseResult false None
                  (Some (str (OxygenService.after_rollback e))) None), db)).
Proof.
  intro engine. split; [|split; [|split]].
  - intros db db' id u res Hrun Hfail.
    destruct (update_station_cases id u db) as (res0 & [[Hrun0 _]|(v & _ & Hrun0 & Hok & _)]);
      rewrite Hrun0 in Hrun; injection Hrun as <- <-; [reflexivity|].
    rewrite Hok in Hfail. discriminate.
  - reflexivity.
  - intros db id u Hu Hnone.
    unfold OxygenService.update_station, OxygenService.execute_update,
      OxygenService.try_except, OxygenService.bind.
    pose proof (update_fields_given u Hu) as Hf.
    destruct (OxygenService.update_fields u) as [|f fs]; [contradiction|].
    unfold OxygenService.update_station_rows.
    rewrite (filter_none (fun r => OxygenService.station_id r =? id)).
    + reflexivity.
    + intros r Hr. apply Z.eqb_neq. now apply Hnone.
  - intros db st u e Hin Hu He.
    unfold OxygenService.update_station, OxygenService.execute_update,
      OxygenService.try_except, OxygenService.bind.
    pose proof (update_fields_given u Hu) as Hf.
    destruct (OxygenService.update_fields u) as [|f fs]; [contradiction|].
    unfold OxygenService.update_station_rows.
    pose proof (rows_of_station _ _ st Hin eq_refl) as Hne.
    destruct (filter _ (OxygenService.stations db)) as [|x xs]; [contradiction|].
    rewrite He. reflexivity.
Qed.

Lemma X6_refused_update_changes_nothing_witness :
  OxygenService.update_station 7 refill_update two_station_db
  = (inr (OxygenService.mkDatabaseResult false None
            (Some "Oxygen station not found or no changes made") None), two_station_db)
  /\ OxygenService.update_station 1 bad_status_update two_station_db
     = (inr (OxygenService.mkDatabaseResult false None
               (Some "1265 (01000): Data truncated for column 'status' at row 1") None),
        two_station_db).
Proof.
  destruct (X6_refused_update_changes_nothing Sql.reference) as (_ & _ & Hmissing & Hrefused).
  split.
  - apply Hmissing; [discriminate|]. intros r H. in_cases H; simpl; lia.
  - apply (Hrefused two_station_db full_station bad_status_update
             (Sql.truncated "status")).
    + left. reflexivity.
    + discriminate.
    + reflexivity.
Defined.

(** X7: an update of an existing station (identifiers unique) with at least
    one field given, whose values the columns keep, returns the station with
    the given fields replaced by the values as stored, the others kept and
    updated_at set to the time of the store, provided this changes a value
    of the row, as it does whenever the time of the store is not the
    updated_at the row carries.  The identifier is never changed, no other
    station and no reading is touched.  When it changes no value of the row,
    the update is answered "Oxygen station not found or no changes made" and
    the store is as before. *)
Theorem X7_update_rewrites_one_station :
  forall (engine : Sql.Engine) (db : OxygenService.DB) (st : OxygenService.OxygenStation)
         (u v : OxygenService.UpdateOxygenStation),
    NoDup (map OxygenService.station_id (OxygenService.stations db)) ->
    In st (OxygenService.stations db) ->
    u <> empty_update ->
    OxygenService.stored_update u = inr v ->
    let id := OxygenService.station_id st in
    let updated := OxygenService.assign v (OxygenService.clock db) st in
    (OxygenService.same_station updated st = false ->
     exists db',
       OxygenService.update_station id u db
       = (inr (OxygenService.mkDatabaseResult true (Some updated) None None), db')
       /\ OxygenService.station_id updated = id
       /\ In updated (OxygenService.stations db')
       /\ (forall r, OxygenService.station_id r <> id ->
                     (In r (OxygenService.stations db') <-> In r (OxygenService.stations db)))
       /\ OxygenService.readings db' = OxygenService.readings db
       /\ OxygenService.find_station_by_id id db'
          = (inr (OxygenService.mkDatabaseResult true (Some updated) None None), db'))
    /\ (OxygenService.same_station updated st = true ->
        OxygenService.update_station id u db
        = (inr (OxygenService.mkDatabaseResult false None
                  (Some "Oxygen station not found or no changes made") None), db))
    /\ (OxygenService.updated_at st <> OxygenService.clock db ->
        OxygenService.same_station updated st = false).
Proof.
  intros engine db st u v Hnd Hin Hu Hv id updated.
  pose proof (filter_key_unique id (OxygenService.stations db) st Hnd Hin eq_refl) as Hrows.
  pose proof (station_rows_changed_unique (OxygenService.assign v (OxygenService.clock db)) id
                (OxygenService.stations db) st Hnd Hin eq_refl) as Hchanged.
  fold updated in Hchanged.
  assert (Hrun : OxygenService.update_station id u db
                 = OxygenService.bind
                     (OxygenService.execute_update (OxygenService.update_station_rows u id))
                     (fun affected_rows =>
                        if affected_rows =? 0
                        then OxygenService.ret
                               (OxygenService.mkDatabaseResult false None
                                  (Some "Oxygen station not found or no changes made") None)
                        else OxygenService.bind (OxygenService.find_station_by_id id)
                               (fun updated_station =>
                                  OxygenService.ret
                                    (OxygenService.mkDatabaseResult true
                                       (OxygenService.data updated_station) None None)))
                     db).
  { unfold OxygenService.update_station, OxygenService.try_except.
    pose proof (update_fields_given u Hu) as Hf.
    destruct (OxygenService.update_fields u) as [|f fs]; [contradiction|].
    unfold OxygenService.bind, OxygenService.execute_update, OxygenService.try_except,
      OxygenService.update_station_rows.
    rewrite Hrows, Hv.
    destruct (_ =? 0); [reflexivity|].
    rewrite find_station_by_id_run. reflexivity. }
  assert (Hstep : OxygenService.execute_update (OxygenService.update_station_rows u id) db
                  = (inr (if OxygenService.same_station updated st then 0 else 1),
                     OxygenService.set_stations
                       (OxygenService.rewrite_rows
                          (OxygenService.assign v (OxygenService.clock db)) id
                          (OxygenService.stations db)) db)).
  { unfold OxygenService.execute_update, OxygenService.try_except,
      OxygenService.update_station_rows.
    rewrite Hrows, Hv, Hchanged. reflexivity. }
  split; [|split].
  - intro Hdiff.
    assert (Hfound : filter (fun r => OxygenService.station_id r =? id)
                       (OxygenService.rewrite_rows
                          (OxygenService.assign v (OxygenService.clock db)) id
                          (OxygenService.stations db)) = [updated]).
    { unfold OxygenService.rewrite_rows. rewrite filter_mapped.
      - rewrite Hrows. cbn [map]. fold id. rewrite Z.eqb_refl. fold updated.
        now rewrite Hdiff.
      - intro r. destruct (_ && _)%bool; reflexivity. }
    exists (OxygenService.set_stations
              (OxygenService.rewrite_rows (OxygenService.assign v (OxygenService.clock db)) id
                 (OxygenService.stations db)) db).
    split; [|split; [|split; [|split; [|split]]]].
    + rewrite Hrun. unfold OxygenService.bind at 1. rewrite Hstep, Hdiff.
      cbn [Z.eqb]. unfold OxygenService.bind. rewrite find_station_by_id_run.
      cbn [OxygenService.set_stations OxygenService.stations]. rewrite Hfound. reflexivity.
    + reflexivity.
    + cbn [OxygenService.set_stations OxygenService.stations].
      apply in_map_iff. exists st. split; [|exact Hin]. fold id. rewrite Z.eqb_refl.
      fold updated. now rewrite Hdiff.
    + intros r Hr. cbn [OxygenService.set_stations OxygenService.stations].
      now apply rewrite_rows_others.
    + reflexivity.
    + rewrite find_station_by_id_run.
      cbn [OxygenService.set_stations OxygenService.stations]. now rewrite Hfound.
  - intro Hsame. rewrite Hrun. unfold OxygenService.bind. rewrite Hstep, Hsame.
    cbn [Z.eqb]. unfold OxygenService.ret.
    rewrite rewrite_rows_unchanged, set_stations_same; [reflexivity|].
    now rewrite Hchanged, Hsame.
  - apply assign_changes_time.
Qed.

Lemma X7_update_rewrites_one_station_witness :
  exists db',
    OxygenService.update_station 1 maintenance_update two_station_db
    = (inr (OxygenService.mkDatabaseResult true
              (Some (OxygenService.mkOxygenStation 1 "Main Station A (serviced)" "ICU Floor 1"
                       500 500 None None "maintenance" None None None true 0 30))
              None None), db')
    /\ OxygenService.readings db' = OxygenService.readings two_station_db.
Proof.
  destruct (X7_update_rewrites_one_station Sql.reference two_station_db full_station
              maintenance_update
              (OxygenService.mkUpdateOxygenStation (Some "Main Station A (serviced)") None
                 None None None None (Some "maintenance") None None None None))
    as (Hchanged & _ & _).
  - repeat constructor; simpl; intuition lia.
  - left. reflexivity.
  - discriminate.
  - reflexivity.
  - destruct Hchanged as (db' & Hrun & _ & _ & _ & Hreadings & _); [reflexivity|].
    exists db'. split; [exact Hrun|exact Hreadings].
Defined.

(** ** The history of readings *)

Section HistoryFacts.

Import OxygenService.

Context {engine : Sql.Engine} {reading_scan : Sql.Scan OxygenReading}.

Lemma get_readings_run (id : Z) (p : PaginationParams) (db : DB) key ascending :
  column reading_columns (sort_by p) = Some key ->
  Sql.direction (sort_order p) = Some ascending ->
  0 < limit p <= Sql.max_limit -> 1 <= page p -> (page p - 1) * limit p <= Sql.max_limit ->
  let selected := filter (fun r => rd_station_id r =? id) (readings db) in
  let total := Z.of_nat (List.length selected) in
  get_readings_for_station id (Some p) db
  = (inr (mkDatabaseResult true
            (Some (mkPaginatedResult
                     (firstn (Z.to_nat (limit p))
                        (skipn (Z.to_nat ((page p - 1) * limit p))
                           (Sql.order_by key ascending
                              (Sql.deliver (sort_by p) (sort_order p) (limit p)
                                 ((page p - 1) * limit p) selected))))
                     total (page p) (limit p) ((total + limit p - 1) / limit p)))
            None None), db).
Proof.
  intros Hcol Hdir Hl Hp Ho. cbv zeta.
  unfold get_readings_for_station, try_except, bind, execute_query, floordiv, default.
  cbn [answer readings_count_query readings_data_query].
  rewrite (order_limit_window reading_columns _ _ _ _ _ key ascending Hcol Hdir) by nia.
  replace (limit p =? 0) with false by (symmetry; apply Z.eqb_neq; lia).
  reflexivity.
Qed.

(** The windows of the pages 1 to the last, one after the other, are the list. *)
Lemma pages_concat {A : Type} (lim : Z) (l : list A) :
  0 < lim ->
  List.concat
    (map (fun pg => firstn (Z.to_nat lim) (skipn (Z.to_nat ((pg - 1) * lim)) l))
         (pages_upto (ceil_div (Z.of_nat (List.length l)) lim)))
  = l.
Proof.
  intro Hl.
  pose proof (pages_div_bounds (Z.of_nat (List.length l)) lim Hl) as Hb. cbv zeta in Hb.
  rewrite (pages_is_ceiling _ lim Hl) in Hb.
  unfold pages_upto. rewrite <- seq_shift, !map_map.
  rewrite (map_ext _ (fun i => firstn (Z.to_nat lim) (skipn (i * Z.to_nat lim) l))).
  - rewrite windows_concat. apply firstn_all2.
    assert (Hc : 0 <= ceil_div (Z.of_nat (List.length l)) lim) by nia.
    apply Nat2Z.inj_le. rewrite Nat2Z.inj_mul, !Z2Nat.id by lia. apply Hb.
  - intro i. f_equal. f_equal. rewrite Nat2Z.inj_succ.
    replace (Z.succ (Z.of_nat i) - 1) with (Z.of_nat i) by lia.
    rewrite Z2Nat.inj_mul by lia. now rewrite Nat2Z.id.
Qed.

End HistoryFacts.

(** X8: a reading shows in the state it was ingested into.  After
    create_reading for an existing station (identifiers unique) of a reading
    the columns keep, a lookup of the station returns it with current_level
    equal to the level of the reading as stored (rounded to two decimals)
    and everything else as before, but for updated_at, which is the time of
    the store when the level has changed; the history of the station with
    the default pagination counts one reading more and, on an engine that
    delivers every selected row once and while it fits the first page of 50,
    contains the new reading. *)
Theorem X8_reading_shows_in_station_and_history :
  forall (engine : Sql.Engine) (reading_scan : Sql.Scan OxygenService.OxygenReading)
         (db : OxygenService.DB) (c : OxygenService.CreateOxygenReading)
         (st : OxygenService.OxygenStation) (reading : OxygenService.OxygenReading),
    NoDup (map OxygenService.station_id (OxygenService.stations db)) ->
    In st (OxygenService.stations db) ->
    OxygenService.station_id st = OxygenService.cr_station_id c ->
    OxygenService.reading_row c (OxygenService.reading_seq db) (OxygenService.clock db)
    = inr reading ->
    OxygenService.reading_seq db <= Sql.max_int ->
    let sid := OxygenService.cr_station_id c in
    let before :=
      Z.of_nat (List.length (filter (fun r => OxygenService.rd_station_id r =? sid)
                               (OxygenService.readings db))) in
    let level := OxygenService.level_liters reading in
    exists db' history,
      OxygenService.create_reading c db
      = (inr (OxygenService.mkDatabaseResult true (Some (OxygenService.reading_seq db)) None
                (Some (OxygenService.reading_seq db))), db')
      /\ Sql.decimal 10 (OxygenService.cr_level_liters c) = Some level
      /\ OxygenService.find_station_by_id sid db'
         = (inr (OxygenService.mkDatabaseResult true
                   (Some (if Qeq_bool level (OxygenService.current_level st) then st
                          else OxygenService.with_level level (OxygenService.clock db) st))
                   None None), db')
      /\ OxygenService.get_readings_for_station sid None db'
         = (inr (OxygenService.mkDatabaseResult true (Some history) None None), db')
      /\ OxygenService.pr_total history = before + 1
      /\ (Sql.LawfulScan OxygenService.OxygenReading reading_scan ->
          before + 1 <= 50 -> In reading (OxygenService.pr_data history)).
Proof.
  intros engine reading_scan db c st reading Hnd Hin Hid Hrow Hseq sid before level.
  destruct (reading_row_columns _ _ _ _ Hrow) as (_ & Hsid & Hlevel & _).
  assert (Hex : existsb (fun r => OxygenService.station_id r =? sid)
                  (OxygenService.stations db) = true).
  { apply existsb_exists. exists st. split; [exact Hin|now apply Z.eqb_eq]. }
  eexists. eexists. split; [apply create_reading_existing; eassumption|].
  split; [exact Hlevel|]. split; [|split; [|split]].
  - rewrite find_station_by_id_run. cbn [OxygenService.stations].
    fold sid. unfold OxygenService.levels_set. rewrite filter_mapped.
    + rewrite (filter_key_unique sid _ st Hnd Hin Hid). cbn [map].
      unfold OxygenService.level_changes. rewrite Hid. fold sid. rewrite Z.eqb_refl.
      fold level. cbn [andb]. now destruct (Qeq_bool level (OxygenService.current_level st)).
    + intro r. destruct (OxygenService.level_changes _ _ r); reflexivity.
  - apply (get_readings_run sid (OxygenService.mkPaginationParams 1 50 "timestamp" "DESC") _
             (fun r => Sql.VInt (OxygenService.timestamp r)) false eq_refl eq_refl);
      cbn [OxygenService.limit OxygenService.page]; unfold Sql.max_limit; lia.
  - cbn [OxygenService.pr_total OxygenService.readings].
    rewrite filter_app, length_app. cbn [filter]. rewrite Hsid.
    fold sid. rewrite Z.eqb_refl. unfold before. cbn [List.length]. lia.
  - intros Hscan Hfits. cbn [OxygenService.pr_data OxygenService.readings
                               OxygenService.page OxygenService.limit
                               OxygenService.sort_by OxygenService.sort_order].
    change (Z.to_nat ((1 - 1) * 50)) with 0%nat. cbn [skipn].
    assert (Hsel : In reading
                     (filter (fun r => OxygenService.rd_station_id r =? sid)
                        (OxygenService.readings db ++ [reading]))).
    { apply filter_In. split.
      - apply in_or_app. right. left. reflexivity.
      - rewrite Hsid. fold sid. apply Z.eqb_refl. }
    rewrite firstn_all2.
    + apply (Permutation_in _ (Permutation_sym (order_by_perm _ false _))).
      apply (Permutation_in _ (Permutation_sym (Sql.deliver_perm _ _ _ _ _))).
      exact Hsel.
    + rewrite (Permutation_length (order_by_perm _ false _)).
      rewrite (Permutation_length (Sql.deliver_perm _ _ _ _ _)).
      rewrite filter_app, length_app. cbn [filter]. rewrite Hsid.
      fold sid. rewrite Z.eqb_refl. cbn [List.length]. unfold before in Hfits. lia.
Qed.

Lemma X8_reading_shows_in_station_and_history_witness :
  exists db' history,
    OxygenService.create_reading reading_60 two_station_db
    = (inr (OxygenService.mkDatabaseResult true (Some 3) None (Some 3)), db')
    /\ OxygenService.get_readings_for_station 1 None db'
       = (inr (OxygenService.mkDatabaseResult true (Some history) None None), db')
    /\ OxygenService.pr_total history = 3
    /\ In (OxygenService.mkOxygenReading 3 1 60 None None None 30)
          (OxygenService.pr_data history).
Proof.
  destruct (X8_reading_shows_in_station_and_history Sql.reference
              (Sql.table_order OxygenService.OxygenReading) two_station_db reading_60
              full_station (OxygenService.mkOxygenReading 3 1 60 None None None 30))
    as (db' & history & Hrun & _ & _ & Hhist & Htotal & Hin).
  - repeat constructor; simpl; intuition lia.
  - left. reflexivity.
  - reflexivity.
  - reflexivity.
  - vm_compute. discriminate.
  - exists db', history. split; [exact Hrun|]. split; [exact Hhist|].
    split; [exact Htotal|]. apply Hin; [exact (reference_scan_lawful _)|]. simpl. lia.
Defined.

(** X9: the POST route of readings takes the station from the path.  With a
    body whose values the columns keep: for a path identifier no station
    has, the route answers 400 with the engine's foreign key error (or what
    the rollback raises) and stores no row, though the statement has used up
    an identifier of the counter; for the identifier of a station it answers
    201 with the identifier of the new reading, which is stored for that
    station.  A path identifier that is no INT is answered 400 with the
    error of the column, the store unchanged.  A station_id inside the body
    has no effect on the answer or on the store. *)
Theorem X9_reading_route_uses_the_path_station :
  forall engine : Sql.Engine,
  (forall (db : OxygenService.DB) (id : Z) (body : OxygenService.CreateOxygenReading)
          (row : OxygenService.OxygenReading),
     (forall r, In r (OxygenService.stations db) -> OxygenService.station_id r <> id) ->
     OxygenService.reading_row
       (OxygenService.mkCreateOxygenReading id (OxygenService.cr_level_liters body)
          (OxygenService.cr_pressure_psi body) (OxygenService.cr_flow_rate body)
          (OxygenService.cr_temperature body))
       (OxygenService.reading_seq db) (OxygenService.clock db) = inr row ->
     OxygenService.reading_seq db <= Sql.max_int ->
     OxygenService.create_oxygen_reading id body db
     = (OxygenService.JsonFailure
          (str (OxygenService.after_rollback
                  (DatabaseError
                     (Sql.wording (Sql.ForeignKeyFails "oxygen_readings" "station_id"
                                     "oxygen_stations" "station_id"))))),
        400,
        OxygenService.mkDB (OxygenService.stations db) (OxygenService.readings db)
          (OxygenService.station_seq db) (OxygenService.reading_seq db + 1)
          (OxygenService.clock db)))
  /\ (forall (db : OxygenService.DB) (st : OxygenService.OxygenStation)
             (body : OxygenService.CreateOxygenReading) (row : OxygenService.OxygenReading),
        In st (OxygenService.stations db) ->
        OxygenService.reading_row
          (OxygenService.mkCreateOxygenReading (OxygenService.station_id st)
             (OxygenService.cr_level_liters body) (OxygenService.cr_pressure_psi body)
             (OxygenService.cr_flow_rate body) (OxygenService.cr_temperature body))
          (OxygenService.reading_seq db) (OxygenService.clock db) = inr row ->
        OxygenService.reading_seq db <= Sql.max_int ->
        exists db',
          OxygenService.create_oxygen_reading (OxygenService.station_id st) body db
          = (OxygenService.JsonSuccess (Some (OxygenService.reading_seq db)), 201, db')
          /\ OxygenService.readings db' = OxygenService.readings db ++ [row]
          /\ OxygenService.rd_station_id row = OxygenService.station_id st
          /\ OxygenService.reading_id row = OxygenService.reading_seq db)
  /\ (forall (db : OxygenService.DB) (id : Z) (body : OxygenService.CreateOxygenReading),
        Sql.int id = None ->
        OxygenService.create_oxygen_reading id body db
        = (OxygenService.JsonFailure
             (str (OxygenService.after_rollback (Sql.out_of_range "station_id"))), 400, db))
  /\ (forall (db : OxygenService.DB) (id other : Z) (body : OxygenService.CreateOxygenReading),
        OxygenService.create_oxygen_reading id body db
        = OxygenService.create_oxygen_reading id
            (OxygenService.mkCreateOxygenReading other (OxygenService.cr_level_liters body)
               (OxygenService.cr_pressure_psi body) (OxygenService.cr_flow_rate body)
               (OxygenService.cr_temperature body)) db).
Proof.
  intro engine. split; [|split; [|split]].
  - intros db id body row Hnone Hrow Hseq. unfold OxygenService.create_oxygen_reading.
    rewrite (create_reading_missing _ db row); [reflexivity| |exact Hrow|exact Hseq].
    cbn [OxygenService.cr_station_id].
    destruct (existsb _ (OxygenService.stations db)) eqn:E; [|reflexivity].
    apply existsb_exists in E. destruct E as (r & Hr & Heq).
    apply Z.eqb_eq in Heq. exfalso. now apply (Hnone r Hr).
  - intros db st body row Hin Hrow Hseq. unfold OxygenService.create_oxygen_reading.
    destruct (reading_row_columns _ _ _ _ Hrow) as (Hrid & Hsid & _).
    rewrite (create_reading_existing _ db row); [|
      cbn [OxygenService.cr_station_id]; apply existsb_exists;
      exists st; split; [exact Hin|apply Z.eqb_refl] |exact Hrow|exact Hseq].
    eexists. split; [reflexivity|]. split; [reflexivity|]. split; assumption.
  - intros db id body Hint. unfold OxygenService.create_oxygen_reading.
    rewrite (create_reading_refused _ db (Sql.out_of_range "station_id")); [reflexivity|].
    unfold OxygenService.reading_row, Sql.int_column. cbn [OxygenService.cr_station_id].
    rewrite Hint. reflexivity.
  - reflexivity.
Qed.

Lemma X9_reading_route_uses_the_path_station_witness :
  OxygenService.create_oxygen_reading 7 reading_60 two_station_db
  = (OxygenService.JsonFailure
       "1452 (23000): Cannot add or update a child row: a foreign key constraint fails (`healthcare_db`.`oxygen_readings`, CONSTRAINT `oxygen_readings_ibfk_1` FOREIGN KEY (`station_id`) REFERENCES `oxygen_stations` (`station_id`) ON DELETE CASCADE)",
     400,
     OxygenService.mkDB (OxygenService.stations two_station_db)
       (OxygenService.readings two_station_db) 3 4 30)
  /\ (exists db',
         OxygenService.create_oxygen_reading 2 reading_60 two_station_db
         = (OxygenService.JsonSuccess (Some 3), 201, db')
         /\ map OxygenService.rd_station_id (OxygenService.readings db') = [1; 1; 2])
  /\ OxygenService.create_oxygen_reading 4294967296 reading_60 two_station_db
     = (OxygenService.JsonFailure
          "1264 (22003): Out of range value for column 'station_id' at row 1", 400,
        two_station_db).
Proof.
  destruct (X9_reading_route_uses_the_path_station Sql.reference)
    as (Hmissing & Hfound & Hrange & _).
  split; [|split].
  - apply (Hmissing two_station_db 7 reading_60
             (OxygenService.mkOxygenReading 3 7 60 None None None 30)).
    + intros r H. in_cases H; simpl; lia.
    + reflexivity.
    + vm_compute. discriminate.
  - destruct (Hfound two_station_db
                (OxygenService.mkOxygenStation 2 "Emergency Station B" "Emergency Room" 300 200
                   (Some 140%Q) (Some 3%Q) "operational" None None (Some "MedGas Ltd") true
                   0 0)
                reading_60 (OxygenService.mkOxygenReading 3 2 60 None None None 30))
      as (db' & Hrun & Hreadings & _).
    + right. left. reflexivity.
    + reflexivity.
    + vm_compute. discriminate.
    + exists db'. split; [exact Hrun|]. rewrite Hreadings. reflexivity.
  - apply (Hrange two_station_db 4294967296 reading_60). reflexivity.
Defined.

(** X10: the pages of the history.  With a limit above zero, a LIMIT and an
    OFFSET the grammar reads and sort texts that name a column of the
    readings and a direction, every page from 1 on is returned with the same
    total, the number of readings of the station, and the ceiling of
    total / limit as total_pages; no page holds more rows than the limit.
    When no two different readings of the station have equal sort keys (as
    under reading_id), on an engine that keeps the laws, the pages 1 to
    total_pages, one after the other, are the readings of the station in the
    sort order, each once. *)
Theorem X10_history_pages_cover_the_readings :
  forall (engine : Sql.Engine) (reading_scan : Sql.Scan OxygenService.OxygenReading)
         (db : OxygenService.DB) (id lim : Z) (sb so : string) key ascending,
    0 < lim <= Sql.max_limit ->
    OxygenService.column OxygenService.reading_columns sb = Some key ->
    Sql.direction so = Some ascending ->
    let selected :=
      filter (fun r => OxygenService.rd_station_id r =? id) (OxygenService.readings db) in
    let total := Z.of_nat (List.length selected) in
    let call pg :=
      OxygenService.get_readings_for_station id
        (Some (OxygenService.mkPaginationParams pg lim sb so)) db in
    (forall pg, 1 <= pg -> (pg - 1) * lim <= Sql.max_limit ->
       exists rows,
         call pg
         = (inr (OxygenService.mkDatabaseResult true
                   (Some (OxygenService.mkPaginatedResult rows total pg lim
                            (ceil_div total lim)))
                   None None), db)
         /\ Z.of_nat (List.length rows) <= lim)
    /\ (Sql.Lawful engine -> Sql.LawfulScan OxygenService.OxygenReading reading_scan ->
        total <= Sql.max_limit ->
        no_ties key selected ->
        List.concat (map (fun pg => page_rows (call pg)) (pages_upto (ceil_div total lim)))
        = Sql.order_by key ascending selected
        /\ Permutation
             (List.concat (map (fun pg => page_rows (call pg))
                             (pages_upto (ceil_div total lim))))
             selected).
Proof.
  intros engine reading_scan db id lim sb so key ascending Hl Hcol Hdir. cbv zeta.
  set (selected := filter _ (OxygenService.readings db)).
  set (total := Z.of_nat (List.length selected)).
  assert (Hrun : forall pg, 1 <= pg -> (pg - 1) * lim <= Sql.max_limit ->
            OxygenService.get_readings_for_station id
              (Some (OxygenService.mkPaginationParams pg lim sb so)) db
            = (inr (OxygenService.mkDatabaseResult true
                      (Some (OxygenService.mkPaginatedResult
                               (firstn (Z.to_nat lim)
                                  (skipn (Z.to_nat ((pg - 1) * lim))
                                     (Sql.order_by key ascending
                                        (Sql.deliver sb so lim ((pg - 1) * lim) selected))))
                               total pg lim (ceil_div total lim)))
                      None None), db)).
  { intros pg Hpg Ho. rewrite <- (pages_is_ceiling total lim ltac:(lia)).
    apply (get_readings_run id (OxygenService.mkPaginationParams pg lim sb so) db
             key ascending Hcol Hdir Hl Hpg Ho). }
  split.
  - intros pg Hpg Ho. eexists. split; [apply Hrun; assumption|].
    pose proof (firstn_le_length (Z.to_nat lim)
                  (skipn (Z.to_nat ((pg - 1) * lim))
                     (Sql.order_by key ascending
                        (Sql.deliver sb so lim ((pg - 1) * lim) selected)))).
    lia.
  - intros Hlaw Hscan Htotal Hties.
    pose proof (pages_div_bounds total lim ltac:(lia)) as Hb. cbv zeta in Hb.
    rewrite (pages_is_ceiling total lim ltac:(lia)) in Hb.
    assert (Hcat : List.concat
                     (map (fun pg => page_rows
                                       (OxygenService.get_readings_for_station id
                                          (Some (OxygenService.mkPaginationParams pg lim sb so))
                                          db))
                          (pages_upto (ceil_div total lim)))
                   = Sql.order_by key ascending selected).
    { etransitivity; [|apply (pages_concat lim (Sql.order_by key ascending selected));lia].
      rewrite (Permutation_length (order_by_perm key ascending selected)). fold total.
      f_equal. apply map_ext_in. intros pg Hpg.
      unfold pages_upto in Hpg. apply in_map_iff in Hpg. destruct Hpg as (i & <- & Hi).
      apply in_seq in Hi.
      assert (Hc : 0 <= ceil_div total lim) by (unfold total in *; nia).
      rewrite Hrun by nia. unfold page_rows.
      cbn [fst OxygenService.data OxygenService.pr_data].
      rewrite (order_by_delivered key ascending selected) by
        (try exact Hties; apply Sql.deliver_perm).
      reflexivity. }
    split; [exact Hcat|]. rewrite Hcat. apply order_by_perm.
Qed.

Lemma X10_history_pages_cover_the_readings_witness :
  page_rows (OxygenService.get_readings_for_station 1
               (Some (OxygenService.mkPaginationParams 1 1 "timestamp" "DESC")) two_station_db)
  ++ page_rows (OxygenService.get_readings_for_station 1
                  (Some (OxygenService.mkPaginationParams 2 1 "timestamp" "DESC"))
                  two_station_db)
  = [ OxygenService.mkOxygenReading 2 1 450 None None (Some 21%Q) 20;
      OxygenService.mkOxygenReading 1 1 480 None None None 10 ].
Proof.
  destruct (X10_history_pages_cover_the_readings Sql.reference
              (Sql.table_order OxygenService.OxygenReading) two_station_db 1 1
              "timestamp" "DESC" (fun r => Sql.VInt (OxygenService.timestamp r)) false)
    as (_ & Hcat).
  - vm_compute. split; [reflexivity|discriminate].
  - reflexivity.
  - reflexivity.
  - destruct Hcat as [Hcat _].
    + exact reference_lawful.
    + exact (reference_scan_lawful _).
    + vm_compute. discriminate.
    + intros a b Ha Hb. simpl in Ha, Hb.
      destruct Ha as [<-|[<-|[]]], Hb as [<-|[<-|[]]];
        simpl; intros H1 H2; try reflexivity; discriminate.
    + etransitivity; [|etransitivity; [exact Hcat|]]; reflexivity.
Defined.

(** ** The station list: size of a page, and what a page holds *)

Section PageFacts.

Import OxygenService.

Context {engine : Sql.Engine}.

Lemma window_length {A : Type} (lim offset : Z) (l : list A) :
  0 <= lim -> 0 <= offset ->
  Z.of_nat (List.length (firstn (Z.to_nat lim) (skipn (Z.to_nat offset) l)))
  = Z.max 0 (Z.min lim (Z.of_nat (List.length l) - offset)).
Proof.
  intros Hl Ho. rewrite length_firstn, length_skipn. lia.
Qed.

Lemma window_subset {A : Type} (n k : nat) (l : list A) (x : A) :
  In x (firstn n (skipn k l)) -> In x l.
Proof.
  intro H.
  assert (Hs : In x (skipn k l)).
  { rewrite <- (firstn_skipn n (skipn k l)). apply in_or_app. now left. }
  rewrite <- (firstn_skipn k l). apply in_or_app. now right.
Qed.

Lemma order_limit_subset {A : Type} {scan : Sql.Scan A} {lawful : Sql.LawfulScan A scan}
  (cols : list (string * (A -> Sql.value)))
  (sb so : string) (lim offset : Z) (rows window : list A) :
  order_limit cols sb so lim offset rows = inr window ->
  forall x, In x window -> In x rows.
Proof.
  unfold order_limit. intros H x Hx.
  destruct (column cols sb) as [key|];
    [|exact (Sql.other_selected _ _ _ _ _ _ _ H x Hx)].
  destruct (Sql.direction so) as [ascending|];
    [|exact (Sql.other_selected _ _ _ _ _ _ _ H x Hx)].
  destruct (Sql.bad_limit lim offset); [discriminate|].
  injection H as <-. unfold Sql.limit_offset in Hx. apply window_subset in Hx.
  apply (Permutation_in _ (order_by_perm key ascending _)) in Hx.
  apply (Permutation_in _ (Sql.deliver_perm _ _ _ _ _) Hx).
Qed.

Context {station_scan : Sql.Scan OxygenStation}.

(** A successful list call returns rows selected by the conditions. *)
Lemma find_all_stations_selected (f : OxygenStationFilter) (p : PaginationParams)
  (db db' : DB) res listing :
  Sql.LawfulScan OxygenStation station_scan ->
  find_all_stations (Some f) (Some p) db = (inr res, db') ->
  data res = Some listing ->
  forall r, In r (pr_data listing) ->
            In r (stations db) /\ matches (where_conditions f) r = true.
Proof.
  unfold find_all_stations, try_except, bind, execute_query, floordiv, default.
  cbn [answer count_query data_query].
  intros Hscan Hrun Hdata r Hr.
  destruct (order_limit station_columns _ _ _ _ _) as [e|window] eqn:Hw.
  - injection Hrun as <- _. discriminate.
  - destruct (limit p =? 0).
    + injection Hrun as <- _. discriminate.
    + injection Hrun as <- _. injection Hdata as <-. cbn [pr_data] in Hr.
      apply (order_limit_subset _ _ _ _ _ _ _ Hw) in Hr.
      now apply filter_In in Hr.
Qed.

End PageFacts.





(** X13: a filter value that Python counts as false is no filter.  A
    low_level_threshold of zero does not select the stations below 0 percent:
    the list is the one without a threshold; an empty status or location
    text likewise selects as if it were absent. *)
Theorem X13_falsy_filter_values_are_ignored :
  forall (engine : Sql.Engine) (station_scan : Sql.Scan OxygenService.OxygenStation)
         (db : OxygenService.DB) (p : option OxygenService.PaginationParams)
         (s l : option string) (t : Q),
    (t == 0)%Q ->
    OxygenService.find_all_stations
      (Some (OxygenService.mkOxygenStationFilter s l (Some t))) p db
    = OxygenService.find_all_stations (Some (OxygenService.mkOxygenStationFilter s l None)) p db
    /\ OxygenService.find_all_stations
         (Some (OxygenService.mkOxygenStationFilter (Some "") l (Some t))) p db
       = OxygenService.find_all_stations
           (Some (OxygenService.mkOxygenStationFilter None l None)) p db
    /\ OxygenService.find_all_stations
         (Some (OxygenService.mkOxygenStationFilter s (Some "") (Some t))) p db
       = OxygenService.find_all_stations
           (Some (OxygenService.mkOxygenStationFilter s None None)) p db.
Proof.
  intros engine station_scan db p s l t Ht.
  assert (Hw : forall s' l',
             OxygenService.where_conditions (OxygenService.mkOxygenStationFilter s' l' (Some t))
             = OxygenService.where_conditions (OxygenService.mkOxygenStationFilter s' l' None)).
  { intros s' l'. unfold OxygenService.where_conditions, truthy_num.
    cbn [OxygenService.f_status OxygenService.f_location OxygenService.low_level_threshold].
    apply Qeq_bool_iff in Ht. now rewrite Ht. }
  unfold OxygenService.find_all_stations. cbn [OxygenService.default].
  repeat split; rewrite Hw; reflexivity.
Qed.

Lemma X13_falsy_filter_values_are_ignored_witness :
  map OxygenService.station_id
    (page_rows (OxygenService.find_all_stations
                  (Some (OxygenService.mkOxygenStationFilter None None (Some 0%Q)))
                  (Some (OxygenService.mkPaginationParams 1 10 "station_id" "ASC"))
                  three_stations_db))
  = [1; 2; 3].
Proof.
  rewrite (proj1 (X13_falsy_filter_values_are_ignored Sql.reference
                    (Sql.table_order OxygenService.OxygenStation) three_stations_db
                    (Some (OxygenService.mkPaginationParams 1 10 "station_id" "ASC"))
                    None None 0%Q (Qeq_refl 0))).
  reflexivity.
Defined.

(** ** The summary of the stations *)

Section SummaryFacts.

Import OxygenService.

Context {engine : Sql.Engine}.

Lemma count_status_filter (member : string) (rows : list OxygenStation) :
  count_status member rows
  = Z.of_nat (List.length (filter (fun r => Sql.str_eq (status r) member) rows)).
Proof.
  unfold count_status.
  rewrite (count_case_when (fun r => Some (Sql.str_eq (status r) member))).
  f_equal. f_equal. apply filter_ext. intro r. simpl. now destruct (Sql.str_eq _ _).
Qed.

Lemma non_null_values {A : Type} (f : A -> Q) (rows : list A) :
  Sql.non_null (map (fun r => Some (f r)) rows) = map f rows.
Proof.
  induction rows as [|r rows IH]; simpl; [reflexivity|]. now rewrite IH.
Qed.

Lemma total_of_column (f : OxygenStation -> Q) (rows : list OxygenStation) :
  (Sql.total (map f rows) == sum_over f rows)%Q.
Proof.
  induction rows as [|r rows IH]; simpl; [reflexivity|].
  unfold Sql.total in IH. now rewrite IH.
Qed.

Lemma sum_of_column (f : OxygenStation -> Q) (rows : list OxygenStation) :
  (float_or_0 (Sql.sum (map (fun r => Some (f r)) rows)) == sum_over f rows)%Q.
Proof.
  unfold Sql.sum. rewrite non_null_values.
  destruct rows as [|r rows]; [reflexivity|].
  cbn [map]. rewrite float_or_0_eq.
  change (f r :: map f rows) with (map f (r :: rows)). apply total_of_column.
Qed.

Lemma get_statistics_columns (db : DB) :
  exists summary,
    get_statistics db = (inr (mkDatabaseResult true (Some summary) None None), db)
    /\ total_stations summary = Z.of_nat (List.length (stations db))
    /\ operational_stations summary = count_status "operational" (stations db)
    /\ maintenance_stations summary = count_status "maintenance" (stations db)
    /\ offline_stations summary = count_status "offline" (stations db)
    /\ total_capacity summary
       = float_or_0 (Sql.sum (map (fun r => Some (capacity_liters r)) (stations db)))
    /\ total_current_level summary
       = float_or_0 (Sql.sum (map (fun r => Some (current_level r)) (stations db)))
    /\ average_fill_percentage summary
       = float_or_0 (Sql.avg (map (fun r => Sql.mul (level_ratio r) (Sql.lit 100)) (stations db)))
    /\ low_level_alerts summary
       = Z.of_nat (List.length (filter below_fifth (stations db))).
Proof.
  eexists. split; [reflexivity|]. repeat split.
  cbn [low_level_alerts]. unfold stats_query. cbn [col_low_level_alerts].
  rewrite count_case_when. f_equal. f_equal.
  apply filter_ext. intro r. apply low_level_condition.
Qed.

Lemma sum_over_le (f g : OxygenStation -> Q) (rows : list OxygenStation) :
  Forall (fun r => (f r <= g r)%Q) rows -> (sum_over f rows <= sum_over g rows)%Q.
Proof.
  induction 1 as [|r rows Hr _ IH]; simpl; [apply Qle_refl|].
  now apply Qplus_le_compat.
Qed.

Lemma sum_over_const (c : Q) (rows : list OxygenStation) :
  (sum_over (fun _ => c) rows == c * inject_Z (Z.of_nat (List.length rows)))%Q.
Proof.
  induction rows as [|r rows IH]; [simpl; ring|].
  cbn [sum_over fold_right List.length]. fold (sum_over (fun _ => c) rows).
  rewrite IH, Nat2Z.inj_succ. unfold Z.succ. rewrite inject_Z_plus. ring.
Qed.

Lemma fill_percentage_bounds (r : OxygenStation) :
  level_in_bounds r -> (0 < capacity_liters r)%Q ->
  (0 <= fill_percentage r <= 100)%Q.
Proof.
  intros [H0 Hc] Hpos. unfold fill_percentage. split.
  - apply Qmult_le_0_compat; [|discriminate].
    apply Qle_shift_div_l; [exact Hpos|]. now rewrite Qmult_0_l.
  - setoid_replace 100%Q with (1 * 100)%Q at 2 by ring.
    apply Qmult_le_compat_r; [|discriminate].
    apply Qle_shift_div_r; [exact Hpos|]. now rewrite Qmult_1_l.
Qed.

End SummaryFacts.

Section StatusCountFacts.

Context {engine : Sql.Engine} {lawful : Sql.Lawful engine}.

(** A member of the enumeration equals itself and no other member. *)
Lemma status_member_matches (s : string) :
  In s OxygenService.status_values ->
  (Sql.str_eq s "operational", Sql.str_eq s "maintenance", Sql.str_eq s "offline")
  = (String.eqb s "operational", String.eqb s "maintenance", String.eqb s "offline").
Proof.
  intros [<-|[<-|[<-|[]]]]; rewrite !Sql.str_eq_words by reflexivity; reflexivity.
Qed.

Lemma status_counts_partition (rows : list OxygenService.OxygenStation) :
  (forall r, In r rows -> In (OxygenService.status r) OxygenService.status_values) ->
  Z.of_nat (List.length rows)
  = OxygenService.count_status "operational" rows
    + OxygenService.count_status "maintenance" rows
    + OxygenService.count_status "offline" rows.
Proof.
  rewrite !count_status_filter.
  induction rows as [|r rows IH]; intro Hmembers; [reflexivity|].
  assert (Hr : In (OxygenService.status r) OxygenService.status_values)
    by (apply Hmembers; left; reflexivity).
  assert (IH' := IH (fun x Hx => Hmembers x (or_intror Hx))).
  cbn [filter].
  pose proof (status_member_matches _ Hr) as Hcases.
  injection Hcases as -> -> ->.
  destruct Hr as [Hr|[Hr|[Hr|[]]]]; rewrite <- Hr;
    cbn [String.eqb Ascii.eqb Bool.eqb andb]; cbv iota;
    cbn [List.length]; rewrite !Nat2Z.inj_succ; lia.
Qed.

End StatusCountFacts.



Lemma average_within_0_100 (rows : list OxygenService.OxygenStation) :
  Forall level_in_bounds rows ->
  Forall (fun r => (0 < OxygenService.capacity_liters r)%Q) rows ->
  (0 <= OxygenService.float_or_0
          (Sql.avg (map (fun r => Sql.mul (OxygenService.level_ratio r) (Sql.lit 100)) rows))
   <= 100)%Q.
Proof.
  intros Hbounds Hpos. unfold Sql.avg. rewrite (percentages_non_null _ Hpos).
  destruct rows as [|r rows]; [split; discriminate|].
  assert (Hn : (0 < inject_Z (Z.of_nat (List.length (r :: rows))))%Q).
  { cbn [List.length]. unfold Qlt. simpl. lia. }
  assert (Hfill : Forall (fun x => (0 <= fill_percentage x <= 100)%Q) (r :: rows)).
  { rewrite Forall_forall in *. intros x Hx. apply fill_percentage_bounds; auto. }
  set (f := fun r0 : OxygenService.OxygenStation =>
              (OxygenService.current_level r0 / OxygenService.capacity_liters r0
               * inject_Z 100)%Q).
  cbn [map].
  assert (Heq : (OxygenService.float_or_0
                   (Some (Sql.total (f r :: map f rows)
                          / inject_Z (Z.of_nat (List.length (f r :: map f rows)))))
                 == sum_over fill_percentage (r :: rows)
                    / inject_Z (Z.of_nat (List.length (r :: rows))))%Q).
  { rewrite float_or_0_eq.
    change (f r :: map f rows) with (map f (r :: rows)).
    unfold f. rewrite total_percentages, length_map. reflexivity. }
  split.
  - eapply Qle_trans; [|apply Qle_lteq; right; symmetry; exact Heq].
    apply Qle_shift_div_l; [exact Hn|]. rewrite Qmult_0_l.
    setoid_replace 0%Q with (sum_over (fun _ => 0%Q) (r :: rows)).
    + apply sum_over_le. eapply Forall_impl; [|exact Hfill]. intros x Hx. apply Hx.
    + rewrite sum_over_const. ring.
  - eapply Qle_trans; [apply Qle_lteq; right; exact Heq|].
    apply Qle_shift_div_r; [exact Hn|].
    rewrite <- sum_over_const.
    apply sum_over_le. eapply Forall_impl; [|exact Hfill]. intros x Hx. apply Hx.
Qed.

(** X15: the totals of the summary are the sums of the capacities and of the
    levels, and the low-level alerts are at most the stations.  When every
    station keeps 0 <= current_level <= capacity, the total level lies
    between zero and the total capacity, and with positive capacities the
    average fill percentage lies between 0 and 100. *)
Theorem X15_summary_totals_and_bounds :
  forall (engine : Sql.Engine) (db : OxygenService.DB),
    exists summary,
      OxygenService.get_statistics db
      = (inr (OxygenService.mkDatabaseResult true (Some summary) None None), db)
      /\ (OxygenService.total_capacity summary
          == sum_over OxygenService.capacity_liters (OxygenService.stations db))%Q
      /\ (OxygenService.total_current_level summary
          == sum_over OxygenService.current_level (OxygenService.stations db))%Q
      /\ 0 <= OxygenService.low_level_alerts summary <= OxygenService.total_stations summary
      /\ (Forall level_in_bounds (OxygenService.stations db) ->
          (0 <= OxygenService.total_current_level summary
           <= OxygenService.total_capacity summary)%Q
          /\ (Forall (fun r => (0 < OxygenService.capacity_liters r)%Q)
                     (OxygenService.stations db) ->
              (0 <= OxygenService.average_fill_percentage summary <= 100)%Q)).
Proof.
  intros engine db.
  destruct (get_statistics_columns db)
    as (summary & Hrun & Ht & _ & _ & _ & Hcap & Hlevel & Havg & Hlow).
  exists summary. split; [exact Hrun|].
  split; [rewrite Hcap; apply sum_of_column|].
  split; [rewrite Hlevel; apply sum_of_column|].
  split.
  { rewrite Hlow, Ht. pose proof (filter_length_le below_fifth (OxygenService.stations db)).
    lia. }
  intro Hbounds. split.
  - rewrite Hcap, Hlevel, !sum_of_column. split.
    + setoid_replace 0%Q
        with (sum_over (fun _ => 0%Q) (OxygenService.stations db)).
      * apply sum_over_le. eapply Forall_impl; [|exact Hbounds].
        intros r Hr. apply Hr.
      * rewrite sum_over_const. ring.
    + apply sum_over_le. eapply Forall_impl; [|exact Hbounds]. intros r Hr. apply Hr.
  - intro Hpos. rewrite Havg. now apply average_within_0_100.
Qed.

Lemma X15_summary_totals_and_bounds_witness :
  exists summary,
    OxygenService.get_statistics three_stations_db
    = (inr (OxygenService.mkDatabaseResult true (Some summary) None None), three_stations_db)
    /\ (0 <= OxygenService.average_fill_percentage summary <= 100)%Q.
Proof.
  destruct (X15_summary_totals_and_bounds Sql.reference three_stations_db)
    as (summary & Hrun & _ & _ & _ & Hbounds).
  exists summary. split; [exact Hrun|].
  apply Hbounds.
  - repeat constructor; unfold level_in_bounds, Qle; simpl; lia.
  - repeat constructor.
Defined.

(** X16: a station created and then deleted leaves the tables as they were;
    only the counter of station identifiers has advanced, so the identifier
    is not issued again.  (A request the columns keep, the counter within
    INT, every station identifier below the counter, every reading with its
    station.) *)
Theorem X16_create_then_delete_restores_the_tables :
  forall (engine : Sql.Engine) (db : OxygenService.DB) (c : OxygenService.CreateOxygenStation)
         (row : OxygenService.OxygenStation),
    (forall r, In r (OxygenService.stations db) ->
               OxygenService.station_id r < OxygenService.station_seq db) ->
    readings_reference_stations db ->
    OxygenService.station_row c (OxygenService.station_seq db) (OxygenService.clock db)
    = inr row ->
    OxygenService.station_seq db <= Sql.max_int ->
    let id := OxygenService.station_seq db in
    OxygenService.create_station c db
    = (inr (OxygenService.mkDatabaseResult true (Some row) None (Some id)),
       OxygenService.mkDB (OxygenService.stations db ++ [row]) (OxygenService.readings db)
         (id + 1) (OxygenService.reading_seq db) (OxygenService.clock db))
    /\ OxygenService.delete_station id (store_after (OxygenService.create_station c db))
       = (inr (OxygenService.mkDatabaseResult true (Some true) None None),
          OxygenService.mkDB (OxygenService.stations db) (OxygenService.readings db)
            (id + 1) (OxygenService.reading_seq db) (OxygenService.clock db)).
Proof.
  intros engine db c row Hissued Hfk Hrow Hseq id.
  pose proof (proj1 (station_row_columns _ _ _ _ Hrow)) as Hid.
  destruct (create_station_accepted c db row Hrow Hseq) as (found & Hrun & Hfound & Hfid).
  assert (found = row) as ->.
  { apply in_app_or in Hfound. destruct Hfound as [Hold|[<-|[]]]; [|reflexivity].
    specialize (Hissued found Hold). lia. }
  split; [exact Hrun|].
  unfold store_after. rewrite Hrun. cbn [snd]. rewrite delete_station_run.
  cbn [OxygenService.stations OxygenService.readings OxygenService.station_seq
         OxygenService.reading_seq OxygenService.clock].
  fold id. rewrite !filter_app.
  rewrite (filter_none (fun r => OxygenService.station_id r =? id) (OxygenService.stations db)).
  2:{ intros r Hr. apply Z.eqb_neq. specialize (Hissued r Hr). unfold id. lia. }
  rewrite (filter_all_true (fun r => negb (OxygenService.station_id r =? id))
             (OxygenService.stations db)).
  2:{ intros r Hr. apply negb_true_iff, Z.eqb_neq. specialize (Hissued r Hr). unfold id. lia. }
  rewrite (filter_all_true (fun r => negb (OxygenService.rd_station_id r =? id))).
  2:{ intros rd Hrd. apply negb_true_iff, Z.eqb_neq.
      destruct (Hfk rd Hrd) as (s & Hs1 & Hs2). rewrite <- Hs2.
      specialize (Hissued s Hs1). unfold id. lia. }
  cbn [filter]. rewrite Hid. fold id. rewrite Z.eqb_refl.
  cbn [negb app List.length]. rewrite app_nil_r. reflexivity.
Qed.

Lemma X16_create_then_delete_restores_the_tables_witness :
  OxygenService.delete_station 3
    (store_after (OxygenService.create_station emergency_station_request two_station_db))
  = (inr (OxygenService.mkDatabaseResult true (Some true) None None),
     OxygenService.mkDB (OxygenService.stations two_station_db)
       (OxygenService.readings two_station_db) 4 3 30).
Proof.
  apply (X16_create_then_delete_restores_the_tables Sql.reference two_station_db
           emergency_station_request
           (OxygenService.mkOxygenStation 3 "Emergency Station B" "Emergency Room" 300 200
              (Some 140%Q) (Some 3%Q) "operational" None None (Some "MedGas Ltd") true 30 30)).
  - intros r H. in_cases H; simpl; lia.
  - intros rd H. in_cases H; exists full_station; split;
      solve [left; reflexivity | reflexivity].
  - reflexivity.
  - vm_compute. discriminate.
Defined.

(** ** The level update of [main.py], further *)

Section LevelUpdateFacts.

Import Main.

Lemma existsb_rewritten (id level : Z) (db : Table) :
  existsb (fun r => (station_id r =? id) && (capacity_liters r =? 0))
          (map (fun r => if station_id r =? id then set_level level r else r) db)
  = existsb (fun r => (station_id r =? id) && (capacity_liters r =? 0)) db.
Proof.
  induction db as [|r db IH]; [reflexivity|].
  cbn [map existsb]. rewrite IH.
  destruct (station_id r =? id) eqn:E; cbn [set_level station_id capacity_liters];
    rewrite E; reflexivity.
Qed.

Lemma update_oxygen_level_run (id level : Z) (db db' : Table) ok :
  update_oxygen_level id level db = (inr ok, db') ->
  exists st,
    find (fun r => station_id r =? id) db = Some st
    /\ level <= capacity_liters st
    /\ existsb (fun r => (station_id r =? id) && (capacity_liters r =? 0)) db = false
    /\ ok = mkLevelUpdated "Oxygen level updated successfully" level
    /\ db' = map (fun r => if station_id r =? id then set_level level r else r) db.
Proof.
  unfold update_oxygen_level, check_query. intro Hrun.
  destruct (find (fun r => station_id r =? id) db) as [st|] eqn:Hfind;
    simpl in Hrun; [|discriminate].
  destruct (level >? capacity_liters st) eqn:Hgt; [discriminate|].
  unfold update_query in Hrun.
  destruct (existsb _ db) eqn:Hz; [discriminate|].
  injection Hrun as <- <-.
  exists st. repeat split.
  rewrite Z.gtb_ltb in Hgt. apply Z.ltb_ge in Hgt. exact Hgt.
Qed.

(** The percentage grows with the level. *)
Lemma percentage_monotone (cap l1 l2 : Z) :
  0 < cap -> l1 <= l2 ->
  (inject_Z l1 / inject_Z cap * inject_Z 100 <= inject_Z l2 / inject_Z cap * inject_Z 100)%Q.
Proof.
  intros Hc Hl. apply Qmult_le_compat_r; [|discriminate].
  unfold Qdiv. apply Qmult_le_compat_r.
  - rewrite <- Zle_Qle. exact Hl.
  - apply Qinv_le_0_compat. unfold Qle. simpl. lia.
Qed.

End LevelUpdateFacts.

(** X17: a level update that succeeded can be repeated: the same request on
    the table it left succeeds again, with the same answer, and every row
    keeps every column the endpoint reads, compares or derives: identifier,
    code, name, location, capacity, thresholds, level and status.  (The
    statement also sets updated_at to the current time, a column that is not
    among the ones represented.) *)
Theorem X17_level_update_is_idempotent :
  forall (db db' : Main.Table) (id level : Z) ok,
    Main.update_oxygen_level id level db = (inr ok, db') ->
    exists db'',
      Main.update_oxygen_level id level db' = (inr ok, db'')
      /\ Forall2
           (fun r r' =>
              Main.station_id r' = Main.station_id r
              /\ Main.station_code r' = Main.station_code r
              /\ Main.station_name r' = Main.station_name r
              /\ Main.location r' = Main.location r
              /\ Main.capacity_liters r' = Main.capacity_liters r
              /\ Main.alert_threshold_low r' = Main.alert_threshold_low r
              /\ Main.alert_threshold_critical r' = Main.alert_threshold_critical r
              /\ Main.current_level_liters r' = Main.current_level_liters r
              /\ Main.status r' = Main.status r)
           db' db''.
Proof.
  intros db db' id level ok Hrun.
  destruct (update_oxygen_level_run id level db db' ok Hrun)
    as (st & Hfind & Hle & Hz & -> & ->).
  exists (map (fun r => if Main.station_id r =? id then Main.set_level level r else r) db).
  split.
  - unfold Main.update_oxygen_level, Main.check_query.
    rewrite find_map_level, Hfind. cbn [option_map Main.set_level Main.capacity_liters].
    replace (level >? Main.capacity_liters st) with false
      by (symmetry; rewrite Z.gtb_ltb; apply Z.ltb_ge; lia).
    unfold Main.update_query. rewrite existsb_rewritten, Hz.
    f_equal. rewrite map_map. apply map_ext. intro r.
    destruct (Main.station_id r =? id) eqn:E; cbn [Main.set_level Main.station_id]; rewrite E;
      reflexivity.
  - clear. induction db as [|r db IH]; simpl; constructor; [|exact IH].
    repeat split; reflexivity.
Qed.

Lemma X17_level_update_is_idempotent_witness :
  exists db'',
    Main.update_oxygen_level 1 140 (snd (Main.update_oxygen_level 1 140 [scenario_station]))
    = (inr (Main.mkLevelUpdated "Oxygen level updated successfully" 140), db'')
    /\ map Main.status db'' = ["low"].
Proof.
  destruct (X17_level_update_is_idempotent [scenario_station]
              (snd (Main.update_oxygen_level 1 140 [scenario_station])) 1 140
              (Main.mkLevelUpdated "Oxygen level updated successfully" 140) eq_refl)
    as (db'' & Hrun & Hrows).
  exists db''. split; [exact Hrun|].
  simpl in Hrows. inversion Hrows as [|r r' rows rows' Hr Hrest Ha Hb]; subst.
  inversion Hrest; subst. simpl.
  destruct Hr as (_ & _ & _ & _ & _ & _ & _ & _ & Hstatus). rewrite Hstatus. reflexivity.
Defined.

(** X18: a level update touches nothing but the level and the status of the
    station addressed.  When it is answered with an error the table is the
    one before; when it succeeds, every row keeps its identifier, code, name,
    location, capacity and thresholds, the rows of the station addressed hold
    the new level, and every other row is unchanged. *)
Theorem X18_level_update_frame :
  (forall (db db' : Main.Table) (id level : Z) e,
     Main.update_oxygen_level id level db = (inl e, db') -> db' = db)
  /\ (forall (db db' : Main.Table) (id level : Z) ok,
        Main.update_oxygen_level id level db = (inr ok, db') ->
        Forall2
          (fun r r' =>
             Main.station_id r' = Main.station_id r
             /\ Main.station_code r' = Main.station_code r
             /\ Main.station_name r' = Main.station_name r
             /\ Main.location r' = Main.location r
             /\ Main.capacity_liters r' = Main.capacity_liters r
             /\ Main.alert_threshold_low r' = Main.alert_threshold_low r
             /\ Main.alert_threshold_critical r' = Main.alert_threshold_critical r
             /\ (Main.station_id r = id -> Main.current_level_liters r' = level)
             /\ (Main.station_id r <> id -> r' = r))
          db db').
Proof.
  split.
  - intros db db' id level e. unfold Main.update_oxygen_level.
    destruct (Main.check_query id db) as [capacity|]; [|now intros [= _ <-]].
    destruct (level >? capacity); [now intros [= _ <-]|].
    destruct (Main.update_query level id db); [now intros [= _ <-]|discriminate].
  - intros db db' id level ok Hrun.
    destruct (update_oxygen_level_run id level db db' ok Hrun) as (_ & _ & _ & _ & _ & ->).
    clear Hrun. induction db as [|r db IH]; simpl; [constructor|].
    constructor; [|exact IH].
    destruct (Main.station_id r =? id) eqn:E.
    + apply Z.eqb_eq in E. repeat split; try reflexivity. intro H. contradiction.
    + apply Z.eqb_neq in E. repeat split; try reflexivity. intro H. contradiction.
Qed.

Lemma X18_level_update_frame_witness :
  snd (Main.update_oxygen_level 1 600 [scenario_station]) = [scenario_station]
  /\ List.length (snd (Main.update_oxygen_level 1 140 [scenario_station])) = 1%nat.
Proof.
  split.
  - apply (proj1 X18_level_update_frame [scenario_station] _ 1 600
             (Main.mkHTTPException 400 "Level cannot exceed capacity")).
    reflexivity.
  - pose proof (proj2 X18_level_update_frame [scenario_station] _ 1 140
                  (Main.mkLevelUpdated "Oxygen level updated successfully" 140) eq_refl) as H.
    symmetry. exact (Forall2_length H).
Defined.

Lemma Qle_bool_below (p q t : Q) :
  (p <= q)%Q -> Qle_bool q t = true -> Qle_bool p t = true.
Proof.
  intros Hpq Hq. apply Qle_bool_iff. apply Qle_bool_iff in Hq. now apply (Qle_trans _ q).
Qed.

(** X19: the status of the level update never improves as the level falls.
    For a station with a capacity that is not negative, a lower level gives a
    status at least as alarming (normal, low, critical in this order) as a
    higher one, whatever the thresholds.  And when the low threshold is not
    above the critical one, the status "low" is never assigned. *)
Theorem X19_status_follows_the_level :
  (forall (r : Main.Station) (lower higher : Z),
     0 <= Main.capacity_liters r ->
     lower <= higher ->
     severity (Main.status_case higher r) <= severity (Main.status_case lower r))
  /\ (forall (r : Main.Station) (level : Z) (tl tc : Q),
        Main.alert_threshold_low r = Some tl ->
        Main.alert_threshold_critical r = Some tc ->
        (tl <= tc)%Q ->
        Main.status_case level r <> "low").
Proof.
  split.
  - intros r lower higher Hcap Hle.
    unfold Main.status_case, Main.level_percentage, Sql.div, Sql.mul, Sql.lit.
    destruct (Z.eq_dec (Main.capacity_liters r) 0) as [Hz|Hnz].
    + rewrite Hz. cbn. lia.
    + rewrite inject_Z_nonzero by exact Hnz.
      pose proof (percentage_monotone (Main.capacity_liters r) lower higher
                    ltac:(lia) Hle) as Hp.
      set (p1 := (inject_Z lower / inject_Z (Main.capacity_liters r) * inject_Z 100)%Q) in *.
      set (p2 := (inject_Z higher / inject_Z (Main.capacity_liters r) * inject_Z 100)%Q) in *.
      destruct (Main.alert_threshold_critical r) as [tc|],
               (Main.alert_threshold_low r) as [tl|];
        unfold Sql.le, Sql.is_true;
        repeat match goal with
               | |- context [Qle_bool ?a ?b] =>
                   let E := fresh "E" in destruct (Qle_bool a b) eqn:E
               end;
        try (cbn; lia);
        repeat match goal with
               | H1 : Qle_bool p2 ?t = true, H2 : Qle_bool p1 ?t = false |- _ =>
                   rewrite (Qle_bool_below p1 p2 t Hp H1) in H2; discriminate H2
               end.
  - intros r level tl tc Htl Htc Hlt.
    unfold Main.status_case. rewrite Htl, Htc.
    destruct (Main.level_percentage level r) as [p|]; unfold Sql.le, Sql.is_true.
    + destruct (Qle_bool p tc) eqn:Ec; [discriminate|].
      destruct (Qle_bool p tl) eqn:El; [|discriminate].
      apply Qle_bool_iff in El. apply Qle_bool_false in Ec.
      exfalso. apply Ec. now apply (Qle_trans _ tl).
    + discriminate.
Qed.

Lemma X19_status_follows_the_level_witness :
  severity (Main.status_case 140 scenario_station)
  <= severity (Main.status_case 60 scenario_station)
  /\ Main.status_case 140
       (Main.mkStation 1 "OXY001" "Oxygen Station 1" "ICU - Bed 1" 500 500 "normal"
          (Some 15%Q) (Some 30%Q)) <> "low".
Proof.
  split.
  - apply (proj1 X19_status_follows_the_level scenario_station 60 140); simpl; lia.
  - apply (proj2 X19_status_follows_the_level _ 140 15%Q 30%Q).
    + reflexivity.
    + reflexivity.
    + unfold Qle. simpl. lia.
Defined.

(** ** The list methods without pagination *)

(** X20: without pagination the list methods always fail.  The default
    PaginationParams sorts by "id", a column neither oxygen_stations nor
    patients has: for every store and every filter, find_all_stations and
    PatientService.find_all called without pagination return the engine's
    unknown-column error and no page, on every engine that keeps the laws
    (to which "id" is a name like another). *)
Theorem X20_default_pagination_always_fails :
  forall (engine : Sql.Engine) (station_scan : Sql.Scan OxygenService.OxygenStation)
         (patient_scan : Sql.Scan PatientService.Patient),
    Sql.Lawful engine ->
    Sql.LawfulScan OxygenService.OxygenStation station_scan ->
    Sql.LawfulScan PatientService.Patient patient_scan ->
  (forall (db : OxygenService.DB) (f : option OxygenService.OxygenStationFilter),
     OxygenService.find_all_stations f None db
     = (inr (OxygenService.mkDatabaseResult false None
               (Some "1054 (42S22): Unknown column 'id' in 'order clause'") None), db))
  /\ (forall (db : PatientService.DB) (f : option PatientService.PatientFilter),
        PatientService.find_all f None db
        = (inr (OxygenService.mkDatabaseResult false None
                  (Some "1054 (42S22): Unknown column 'id' in 'order clause'") None), db)).
Proof.
  intros engine station_scan patient_scan Hlaw Hstations Hpatients. split; intros db f.
  - unfold OxygenService.find_all_stations, OxygenService.try_except, OxygenService.bind,
      OxygenService.execute_query.
    cbn [OxygenService.answer OxygenService.count_query OxygenService.data_query
           OxygenService.default OxygenService.default_pagination OxygenService.sort_by
           OxygenService.sort_order OxygenService.limit OxygenService.page].
    unfold OxygenService.order_limit.
    change (OxygenService.column OxygenService.station_columns "id") with
      (@None (OxygenService.OxygenStation -> Sql.value)).
    cbv iota.
    rewrite Sql.unknown_name;
      first [reflexivity | apply Sql.id_not_reserved | discriminate].
  - unfold PatientService.find_all, PatientService.try_except, PatientService.bind,
      PatientService.count_query, PatientService.data_query.
    cbn [OxygenService.default OxygenService.default_pagination OxygenService.sort_by
           OxygenService.sort_order OxygenService.limit OxygenService.page].
    unfold OxygenService.order_limit.
    change (OxygenService.column PatientService.patient_columns "id") with
      (@None (PatientService.Patient -> Sql.value)).
    cbv iota.
    rewrite Sql.unknown_name;
      first [reflexivity | apply Sql.id_not_reserved | discriminate].
Qed.

Lemma X20_default_pagination_always_fails_witness :
  OxygenService.find_all_stations None None three_stations_db
  = (inr (OxygenService.mkDatabaseResult false None
            (Some "1054 (42S22): Unknown column 'id' in 'order clause'") None),
     three_stations_db)
  /\ PatientService.find_all None None two_patients_db
     = (inr (OxygenService.mkDatabaseResult false None
               (Some "1054 (42S22): Unknown column 'id' in 'order clause'") None),
        two_patients_db).
Proof.
  destruct (X20_default_pagination_always_fails Sql.reference
              (Sql.table_order OxygenService.OxygenStation)
              (Sql.table_order PatientService.Patient)
              reference_lawful (reference_scan_lawful _) (reference_scan_lawful _))
    as (Hstations & Hpatients).
  split; [apply Hstations|apply Hpatients].
Defined.

(** ** Patients *)

Section PatientFacts.

Import PatientService.

Context {engine : Sql.Engine}.

Lemma key_rows_unique {A : Type} (key : A -> Z) (id : Z) (rows : list A) (x : A) :
  NoDup (map key rows) -> In x rows -> key x = id ->
  filter (fun r => key r =? id) rows = [x].
Proof.
  induction rows as [|y rows IH]; simpl; intros Hnd Hin Hid; [contradiction|].
  inversion Hnd as [|? ? Hnotin Hnd']; subst.
  destruct Hin as [->|Hin].
  - rewrite Z.eqb_refl. f_equal. apply filter_none.
    intros z Hz. apply Z.eqb_neq. intro Heq. apply Hnotin. rewrite <- Heq. now apply in_map.
  - replace (key y =? key x) with false.
    + now apply IH.
    + symmetry. apply Z.eqb_neq. intro Heq. apply Hnotin. rewrite Heq. now apply in_map.
Qed.

Lemma rows_rewritten {A : Type} (key : A -> Z) (f : A -> A) (id : Z) (rows : list A) :
  (forall r, key (f r) = key r) ->
  filter (fun r => key r =? id) (map (fun r => if key r =? id then f r else r) rows)
  = map f (filter (fun r => key r =? id) rows).
Proof.
  intro Hf. induction rows as [|x rows IH]; simpl; [reflexivity|].
  destruct (key x =? id) eqn:E; simpl.
  - rewrite Hf, E. simpl. now rewrite IH.
  - rewrite E. exact IH.
Qed.

Lemma find_by_id_run (id : Z) (db : DB) :
  find_by_id id db
  = (inr match filter (fun r => patient_id r =? id) (patients db) with
         | [] => OxygenService.mkDatabaseResult false None (Some "Patient not found") None
         | patient :: _ => OxygenService.mkDatabaseResult true (Some patient) None None
         end, db).
Proof.
  unfold find_by_id, try_except, bind, select_by_id, ret.
  destruct (filter _ (patients db)); reflexivity.
Qed.

Lemma find_by_patient_number_run (number : string) (db : DB) :
  find_by_patient_number number db
  = (inr match filter (fun r => Sql.str_eq (patient_number r) number) (patients db) with
         | [] => OxygenService.mkDatabaseResult false None (Some "Patient not found") None
         | patient :: _ => OxygenService.mkDatabaseResult true (Some patient) None None
         end, db).
Proof.
  unfold find_by_patient_number, try_except, bind, select_by_number, ret.
  destruct (filter _ (patients db)); reflexivity.
Qed.

Lemma delete_run (id : Z) (db : DB) :
  delete id db
  = (inr (if rows_changed (mark_deleted (clock db)) id (patients db) =? 0
          then OxygenService.mkDatabaseResult false None (Some "Patient not found") None
          else OxygenService.mkDatabaseResult true (Some true) None None),
     mkDB (map (fun r => if patient_id r =? id then mark_deleted (clock db) r else r)
               (patients db))
          (patient_seq db) (clock db)).
Proof.
  unfold delete, execute_update, try_except, bind, soft_delete_rows.
  destruct (rows_changed _ _ _ =? 0); reflexivity.
Qed.

Lemma same_text_refl (a : option string) : same_text a a = true.
Proof. destruct a; simpl; [apply String.eqb_refl|reflexivity]. Qed.

Lemma same_text_eq (a b : option string) : same_text a b = true -> a = b.
Proof.
  destruct a, b; simpl; intro H; try discriminate; [|reflexivity].
  apply String.eqb_eq in H. now subst.
Qed.

Lemma same_row_refl (r : Patient) : same_row r r = true.
Proof.
  unfold same_row. now rewrite !Z.eqb_refl, !String.eqb_refl, !same_text_refl.
Qed.

Lemma same_row_eq (a b : Patient) : same_row a b = true <-> a = b.
Proof.
  split; [|intros ->; apply same_row_refl].
  destruct a, b. unfold same_row.
  cbn [patient_id patient_number first_name last_name date_of_birth gender phone email
         address emergency_contact_name emergency_contact_phone blood_type allergies
         medical_history status created_at updated_at].
  intro H. repeat (apply andb_prop in H; destruct H as [H ?]).
  repeat match goal with
         | E : Z.eqb _ _ = true |- _ => apply Z.eqb_eq in E
         | E : String.eqb _ _ = true |- _ => apply String.eqb_eq in E
         | E : same_text _ _ = true |- _ => apply same_text_eq in E
         end.
  subst. reflexivity.
Qed.

(** A soft delete changes a row unless it is deleted already with the
    present time as its [updated_at]. *)
Lemma mark_deleted_same (now : Z) (r : Patient) :
  same_row (mark_deleted now r) r = String.eqb "deleted" (status r) && (now =? updated_at r).
Proof.
  unfold same_row, mark_deleted.
  cbn [patient_id patient_number first_name last_name date_of_birth gender phone email
         address emergency_contact_name emergency_contact_phone blood_type allergies
         medical_history status created_at updated_at].
  rewrite !Z.eqb_refl, !String.eqb_refl, !same_text_refl.
  cbn [andb]. now rewrite andb_true_r.
Qed.

Lemma rows_changed_unique (f : Patient -> Patient) (id : Z) (rows : list Patient) (p : Patient) :
  NoDup (map patient_id rows) -> In p rows -> patient_id p = id ->
  rows_changed f id rows = if same_row (f p) p then 0 else 1.
Proof.
  intros Hnd Hin Hid. unfold rows_changed.
  rewrite (key_rows_unique patient_id id rows p Hnd Hin Hid). cbn [filter].
  destruct (same_row (f p) p); reflexivity.
Qed.

Lemma rows_changed_none (f : Patient -> Patient) (id : Z) (rows : list Patient) :
  (forall r, In r rows -> patient_id r <> id) -> rows_changed f id rows = 0.
Proof.
  intro H. unfold rows_changed. rewrite (filter_none (fun r => patient_id r =? id)).
  - reflexivity.
  - intros r Hr. apply Z.eqb_neq. now apply H.
Qed.

Lemma stats_run (db : DB) :
  get_statistics db
  = (inr (OxygenService.mkDatabaseResult true
            (Some (mkStats
                     (Z.of_nat (List.length (filter not_deleted (patients db))))
                     (count_when (fun r => Sql.str_eq (status r) "active")
                        (filter not_deleted (patients db)))
                     (count_when (fun r => Sql.str_eq (status r) "inactive")
                        (filter not_deleted (patients db)))
                     (count_when (fun r => Sql.str_eq (status r) "admitted")
                        (filter not_deleted (patients db)))
                     (count_when (fun r => Sql.str_eq (gender r) "Male")
                        (filter not_deleted (patients db)))
                     (count_when (fun r => Sql.str_eq (gender r) "Female")
                        (filter not_deleted (patients db)))
                     (count_when (fun r => date_of (created_at r) =? date_of (clock db))
                        (filter not_deleted (patients db)))))
            None None), db).
Proof. reflexivity. Qed.

Lemma count_when_filter (p : Patient -> bool) (rows : list Patient) :
  count_when p rows = Z.of_nat (List.length (filter p rows)).
Proof.
  unfold count_when, Sql.count. f_equal.
  induction rows as [|r rows IH]; simpl; [reflexivity|].
  unfold Sql.case_when_1 at 1. simpl. destruct (p r); simpl; now rewrite IH.
Qed.

End PatientFacts.

(** X21: deleting a patient is a soft delete.  For an existing patient
    (identifiers unique) the row stays in the table with status "deleted" and
    its number, names and creation time as before; a lookup by identifier and
    the GET route still return the patient, with 200; no row is removed and
    every other patient is unchanged.  The delete succeeds, and the route
    answers 200, when the statement changes the row; for a patient deleted
    already whose updated_at is the present time it changes nothing, and the
    answer is "Patient not found" with 404 although the patient is there. *)
Theorem X21_patient_delete_is_soft :
  forall (engine : Sql.Engine) (db : PatientService.DB) (p : PatientService.Patient),
    NoDup (map PatientService.patient_id (PatientService.patients db)) ->
    In p (PatientService.patients db) ->
    let id := PatientService.patient_id p in
    exists db' found,
      PatientService.delete id db
      = (inr (if deleted_just_now db p
              then OxygenService.mkDatabaseResult false None (Some "Patient not found") None
              else OxygenService.mkDatabaseResult true (Some true) None None), db')
      /\ PatientService.delete_patient id db
         = (if deleted_just_now db p
            then (OxygenService.JsonFailure "Patient not found", 404)
            else (OxygenService.JsonSuccess (Some true), 200), db')
      /\ (deleted_just_now db p = true -> db' = db)
      /\ PatientService.find_by_id id db'
         = (inr (OxygenService.mkDatabaseResult true (Some found) None None), db')
      /\ PatientService.get_patient_by_id id db' = (OxygenService.JsonSuccess found, 200, db')
      /\ PatientService.status found = "deleted"
      /\ PatientService.patient_number found = PatientService.patient_number p
      /\ PatientService.first_name found = PatientService.first_name p
      /\ PatientService.last_name found = PatientService.last_name p
      /\ PatientService.created_at found = PatientService.created_at p
      /\ List.length (PatientService.patients db') = List.length (PatientService.patients db)
      /\ (forall r, In r (PatientService.patients db) -> PatientService.patient_id r <> id ->
                    In r (PatientService.patients db')).
Proof.
  intros engine db p Hnd Hin id.
  pose proof (key_rows_unique PatientService.patient_id id _ p Hnd Hin eq_refl) as Hrows.
  assert (Hdel : PatientService.delete id db
                 = (inr (if deleted_just_now db p
                         then OxygenService.mkDatabaseResult false None
                                (Some "Patient not found") None
                         else OxygenService.mkDatabaseResult true (Some true) None None),
                    PatientService.mkDB
                      (map (fun r => if PatientService.patient_id r =? id
                                     then PatientService.mark_deleted (PatientService.clock db) r
                                     else r) (PatientService.patients db))
                      (PatientService.patient_seq db) (PatientService.clock db))).
  { rewrite delete_run, (rows_changed_unique _ id _ p Hnd Hin eq_refl), mark_deleted_same.
    unfold deleted_just_now. destruct (_ && _); reflexivity. }
  assert (Hfound : filter (fun r => PatientService.patient_id r =? id)
                     (map (fun r => if PatientService.patient_id r =? id
                                    then PatientService.mark_deleted (PatientService.clock db) r
                                    else r) (PatientService.patients db))
                   = [PatientService.mark_deleted (PatientService.clock db) p]).
  { rewrite (rows_rewritten PatientService.patient_id) by reflexivity. now rewrite Hrows. }
  eexists. exists (PatientService.mark_deleted (PatientService.clock db) p).
  split; [exact Hdel|].
  split; [unfold PatientService.delete_patient; rewrite Hdel;
          destruct (deleted_just_now db p); reflexivity|].
  split.
  { intro Hsame. destruct db as [rows seq now]. cbn [PatientService.patients
      PatientService.patient_seq PatientService.clock] in *. f_equal.
    etransitivity; [|apply map_id]. apply map_ext_in. intros r Hr.
    destruct (PatientService.patient_id r =? id) eqn:E; [|reflexivity].
    assert (Hrp : In r (filter (fun r => PatientService.patient_id r =? id) rows))
      by (apply filter_In; split; assumption).
    rewrite Hrows in Hrp. destruct Hrp as [<-|[]].
    apply same_row_eq. rewrite mark_deleted_same. exact Hsame. }
  split; [rewrite find_by_id_run; cbn [PatientService.patients]; now rewrite Hfound|].
  split.
  { unfold PatientService.get_patient_by_id. rewrite find_by_id_run.
    cbn [PatientService.patients]. now rewrite Hfound. }
  repeat (split; [reflexivity|]).
  split; [cbn [PatientService.patients]; apply length_map|].
  intros r Hr Hne. cbn [PatientService.patients]. apply in_map_iff. exists r.
  split; [|exact Hr].
  replace (PatientService.patient_id r =? id) with false; [reflexivity|].
  symmetry. now apply Z.eqb_neq.
Qed.

Lemma X21_patient_delete_is_soft_witness :
  exists db' found,
    PatientService.delete 1 two_patients_db
    = (inr (OxygenService.mkDatabaseResult true (Some true) None None), db')
    /\ PatientService.get_patient_by_id 1 db' = (OxygenService.JsonSuccess found, 200, db')
    /\ PatientService.status found = "deleted"
    /\ PatientService.patient_number found = "P001".
Proof.
  destruct (X21_patient_delete_is_soft Sql.reference two_patients_db john_doe)
    as (db' & found & Hdel & _ & _ & _ & Hget & Hstatus & Hnumber & _).
  - repeat constructor; simpl; intuition lia.
  - left. reflexivity.
  - exists db', found. repeat split; assumption.
Defined.

Section PatientCountFacts.

Import PatientService.

Context {engine : Sql.Engine} {lawful : Sql.Lawful engine}.

Lemma mark_deleted_is_deleted (now : Z) (r : Patient) : not_deleted (mark_deleted now r) = false.
Proof.
  unfold not_deleted. cbn [mark_deleted status]. now rewrite Sql.str_eq_refl.
Qed.

Lemma deleted_count (id : Z) (now : Z) (rows : list Patient) (p : Patient) :
  NoDup (map patient_id rows) -> In p rows -> patient_id p = id ->
  Z.of_nat (List.length
              (filter not_deleted
                 (map (fun r => if patient_id r =? id then mark_deleted now r else r) rows)))
  = Z.of_nat (List.length (filter not_deleted rows)) - (if not_deleted p then 1 else 0).
Proof.
  induction rows as [|x rows IH]; intros Hnd Hin Hid; [contradiction|].
  inversion Hnd as [|? ? Hnotin Hnd']; subst.
  cbn [map filter]. destruct Hin as [->|Hin].
  - rewrite Z.eqb_refl, mark_deleted_is_deleted.
    rewrite (map_ext_in _ (fun r => r)), map_id.
    + destruct (not_deleted p); cbn [List.length]; lia.
    + intros r Hr. replace (patient_id r =? patient_id p) with false; [reflexivity|].
      symmetry. apply Z.eqb_neq. intro Heq. apply Hnotin. rewrite <- Heq. now apply in_map.
  - replace (patient_id x =? patient_id p) with false.
    + specialize (IH Hnd' Hin eq_refl).
      destruct (not_deleted x); cbn [List.length]; lia.
    + symmetry. apply Z.eqb_neq. intro Heq. apply Hnotin. rewrite Heq. now apply in_map.
Qed.

Lemma not_both_genders (g : string) :
  Sql.str_eq g "Male" = true -> Sql.str_eq g "Female" = true -> False.
Proof.
  intros H1 H2. apply Sql.str_eq_sym in H1.
  pose proof (Sql.str_eq_trans _ _ _ H1 H2) as H.
  rewrite Sql.str_eq_words in H by reflexivity. discriminate.
Qed.

Lemma disjoint_filters {A : Type} (p q : A -> bool) (rows : list A) :
  (forall x, p x = true -> q x = true -> False) ->
  (List.length (filter p rows) + List.length (filter q rows) <= List.length rows)%nat.
Proof.
  intro Hpq. induction rows as [|x rows IH]; simpl; [lia|].
  destruct (p x) eqn:Ep, (q x) eqn:Eq; simpl; try lia.
  exfalso. now apply (Hpq x).
Qed.

Lemma patient_status_partition (rows : list Patient) :
  (forall r, In r rows -> In (status r) status_values) ->
  List.length (filter not_deleted rows)
  = (List.length (filter (fun r => Sql.str_eq (status r) "active") (filter not_deleted rows))
     + List.length (filter (fun r => Sql.str_eq (status r) "inactive") (filter not_deleted rows))
     + List.length (filter (fun r => Sql.str_eq (status r) "admitted")
                      (filter not_deleted rows)))%nat.
Proof.
  induction rows as [|r rows IH]; intro Hmembers; [reflexivity|].
  assert (Hr : In (status r) status_values) by (apply Hmembers; left; reflexivity).
  specialize (IH (fun x Hx => Hmembers x (or_intror Hx))).
  assert (Hcases :
            not_deleted r = false
            \/ (not_deleted r = true
                /\ (Sql.str_eq (status r) "active", Sql.str_eq (status r) "inactive",
                    Sql.str_eq (status r) "admitted")
                   = (true, false, false))
            \/ (not_deleted r = true
                /\ (Sql.str_eq (status r) "active", Sql.str_eq (status r) "inactive",
                    Sql.str_eq (status r) "admitted")
                   = (false, true, false))
            \/ (not_deleted r = true
                /\ (Sql.str_eq (status r) "active", Sql.str_eq (status r) "inactive",
                    Sql.str_eq (status r) "admitted")
                   = (false, false, true))).
  { unfold not_deleted.
    destruct Hr as [Hr|[Hr|[Hr|[Hr|[]]]]]; rewrite <- Hr;
      [right; left|right; right; left|right; right; right|left];
      try split; rewrite ?Sql.str_eq_words by reflexivity; reflexivity. }
  cbn [filter].
  destruct Hcases as [Hd|[[Hd H]|[[Hd H]|[Hd H]]]]; rewrite Hd; [exact IH| | |];
    injection H as H1 H2 H3; cbn [filter]; rewrite H1, H2, H3; cbn [List.length]; lia.
Qed.

End PatientCountFacts.





Section PatientCreateFacts.

Import PatientService.

Context {engine : Sql.Engine}.

Lemma no_number_match (number : string) (rows : list Patient) :
  existsb (fun r => Sql.str_eq (patient_number r) number) rows = false ->
  filter (fun r => Sql.str_eq (patient_number r) number) rows = [].
Proof.
  intro H. apply filter_none. intros r Hr.
  destruct (Sql.str_eq (patient_number r) number) eqn:E; [|reflexivity].
  assert (Hex : existsb (fun r => Sql.str_eq (patient_number r) number) rows = true)
    by (apply existsb_exists; now exists r).
  congruence.
Qed.

(** The columns of the row a creation request becomes. *)
Lemma patient_row_columns (c : CreatePatient) (id : Z) (now : datetime) (row : Patient) :
  patient_row c id now = inr row ->
  patient_id row = id
  /\ Sql.varchar 50 (cp_patient_number c) = Some (patient_number row)
  /\ Sql.varchar 100 (cp_first_name c) = Some (first_name row)
  /\ Sql.varchar 100 (cp_last_name c) = Some (last_name row)
  /\ date_of_birth row = cp_date_of_birth c
  /\ Sql.enum gender_values (cp_gender c) = Some (gender row)
  /\ Sql.enum status_values (cp_status c) = Some (status row)
  /\ created_at row = now
  /\ updated_at row = now.
Proof.
  unfold patient_row. intro H. column_cases H. injection H as <-. cbn.
  unfold Sql.varchar_column in *.
  destruct (Sql.varchar 50 _); [|discriminate].
  destruct (Sql.varchar 100 (cp_first_name c)); [|discriminate].
  destruct (Sql.varchar 100 (cp_last_name c)); [|discriminate].
  apply enum_column_inr in Hcol2, Hcol11.
  repeat split; congruence.
Qed.

Lemma create_store (c : CreatePatient) (db : DB) :
  snd (create c db) = snd (insert_patient c db).
Proof.
  unfold create, execute_insert, try_except, bind.
  destruct (insert_patient c db) as [[e|id] db']; [reflexivity|].
  rewrite find_by_id_run. reflexivity.
Qed.

(** The members an update stores for gender and status. *)
Lemma stored_update_members (u v : UpdatePatient) :
  stored_update u = inr v ->
  (forall m, up_gender v = Some m -> In m gender_values)
  /\ (forall m, up_status v = Some m -> In m status_values).
Proof.
  unfold stored_update. intro H. column_cases H. injection H as <-. cbn.
  split; intros m ->.
  - destruct (up_gender u) as [s|]; [|discriminate].
    cbn [Sql.nullable Sql.and_then] in Hcol1.
    destruct (Sql.enum_column "gender" gender_values s) as [e|m'] eqn:E; [discriminate|].
    injection Hcol1 as ->. apply enum_column_inr in E. now apply enum_member in E.
  - destruct (up_status u) as [s|]; [|discriminate].
    cbn [Sql.nullable Sql.and_then] in Hcol10.
    destruct (Sql.enum_column "status" status_values s) as [e|m'] eqn:E; [discriminate|].
    injection Hcol10 as ->. apply enum_column_inr in E. now apply enum_member in E.
Qed.

Lemma update_store (id : Z) (u : UpdatePatient) (db : DB) :
  snd (update id u db) = db
  \/ exists v,
       stored_update u = inr v
       /\ snd (update id u db)
          = mkDB (map (fun r => if patient_id r =? id then assign v (clock db) r else r)
                      (patients db))
                 (patient_seq db) (clock db).
Proof.
  unfold update, execute_update, try_except, bind.
  destruct (update_fields u); [left; reflexivity|].
  unfold update_rows.
  destruct (filter _ (patients db)); [left; reflexivity|].
  destruct (stored_update u) as [e|v]; [left; reflexivity|].
  right. exists v. split; [reflexivity|].
  destruct (rows_changed _ _ _ =? 0); [reflexivity|].
  rewrite find_by_id_run. reflexivity.
Qed.

Lemma ordered_pairs_snoc {A : Type} (R : A -> A -> Prop) (l : list A) (x : A) :
  ForallOrdPairs R l -> (forall a, In a l -> R a x) -> ForallOrdPairs R (l ++ [x]).
Proof.
  induction 1 as [|a l Ha Hl IH]; intro Hx; simpl.
  - constructor; [constructor|constructor].
  - constructor.
    + apply Forall_app. split; [exact Ha|]. constructor; [|constructor].
      apply Hx. left. reflexivity.
    + apply IH. intros b Hb. apply Hx. right. exact Hb.
Qed.

Lemma ordered_pairs_map {A : Type} (R : A -> A -> Prop) (f : A -> A) (l : list A) :
  (forall a b, R a b -> R (f a) (f b)) ->
  ForallOrdPairs R l -> ForallOrdPairs R (map f l).
Proof.
  intro Hf. induction 1 as [|a l Ha Hl IH]; simpl; constructor; [|exact IH].
  apply Forall_map. eapply Forall_impl; [|exact Ha]. intros b Hb. now apply Hf.
Qed.

(** An UPDATE by identifier that keeps identifier and patient number, and
    writes members of the enumerations, keeps what the constraints
    guarantee. *)
Lemma rewritten_patients_ok (f : Patient -> Patient) (id : Z) (db : DB) :
  (forall r, patient_id (f r) = patient_id r) ->
  (forall r, patient_number (f r) = patient_number r) ->
  (forall r, In (gender r) gender_values -> In (gender (f r)) gender_values) ->
  (forall r, In (status r) status_values -> In (status (f r)) status_values) ->
  patients_ok db ->
  patients_ok (mkDB (map (fun r => if patient_id r =? id then f r else r) (patients db))
                 (patient_seq db) (clock db)).
Proof.
  intros Hid Hnumber Hgender Hstatus [Hnd Hissued Hnumbers Hg Hs].
  set (h := fun r => if patient_id r =? id then f r else r).
  assert (Hkey : forall r, patient_id (h r) = patient_id r).
  { intro r. unfold h. destruct (_ =? _); [apply Hid|reflexivity]. }
  assert (Hnum : forall r, patient_number (h r) = patient_number r).
  { intro r. unfold h. destruct (_ =? _); [apply Hnumber|reflexivity]. }
  constructor; cbn [patients patient_seq].
  - rewrite map_map. rewrite (map_ext _ patient_id Hkey). exact Hnd.
  - intros r' Hr'. apply in_map_iff in Hr'. destruct Hr' as (r & <- & Hr).
    rewrite Hkey. now apply Hissued.
  - apply ordered_pairs_map; [|exact Hnumbers]. intros a b Hab. now rewrite !Hnum.
  - intros r' Hr'. apply in_map_iff in Hr'. destruct Hr' as (r & <- & Hr).
    unfold h. destruct (_ =? _); [apply Hgender|]; now apply Hg.
  - intros r' Hr'. apply in_map_iff in Hr'. destruct Hr' as (r & <- & Hr).
    unfold h. destruct (_ =? _); [apply Hstatus|]; now apply Hs.
Qed.

End PatientCreateFacts.

(** X24: a patient number is taken once.  A creation request whose values
    the columns keep, while the counter has identifiers left, and whose
    number as stored equals, under the collation of the table, the number of
    a patient in the table is refused with the engine's duplicate-entry
    error (or what the rollback raises) and answered 400; the table is
    unchanged, and the identifier the request had taken from the counter is
    not issued again.  The columns are asked first: a request with a value a
    column refuses is answered with the error of that column, whatever its
    number, and the store with its counter is as before. *)
Theorem X24_duplicate_patient_number_is_refused :
  forall engine : Sql.Engine,
  (forall (db : PatientService.DB) (c : PatientService.CreatePatient)
          (row p : PatientService.Patient),
     PatientService.patient_row c (PatientService.patient_seq db) (PatientService.clock db)
     = inr row ->
     PatientService.patient_seq db <= Sql.max_int ->
     In p (PatientService.patients db) ->
     Sql.str_eq (PatientService.patient_number p) (PatientService.patient_number row) = true ->
     let db' := PatientService.mkDB (PatientService.patients db)
                  (PatientService.patient_seq db + 1) (PatientService.clock db) in
     let message :=
       str (OxygenService.after_rollback
              (DatabaseError
                 (Sql.wording (Sql.DuplicateEntry "patients" "patient_number"
                                 (PatientService.patient_number row))))) in
     PatientService.create c db
     = (inr (OxygenService.mkDatabaseResult false None (Some message) None), db')
     /\ PatientService.create_patient c db = (OxygenService.JsonFailure message, 400, db'))
  /\ (forall (db : PatientService.DB) (c : PatientService.CreatePatient) (e : exn),
        PatientService.patient_row c (PatientService.patient_seq db) (PatientService.clock db)
        = inl e ->
        let message := str (OxygenService.after_rollback e) in
        PatientService.create c db
        = (inr (OxygenService.mkDatabaseResult false None (Some message) None), db)
        /\ PatientService.create_patient c db = (OxygenService.JsonFailure message, 400, db)).
Proof.
  intro engine. split.
  - intros db c row p Hrow Hseq Hin Hsame db' message.
    assert (Hrun : PatientService.create c db
                   = (inr (OxygenService.mkDatabaseResult false None (Some message) None),
                      db')).
    { unfold PatientService.create, PatientService.execute_insert, PatientService.try_except,
        PatientService.bind, PatientService.insert_patient.
      rewrite Hrow.
      replace (Sql.max_int <? PatientService.patient_seq db) with false
        by (symmetry; apply Z.ltb_ge; lia).
      replace (existsb _ (PatientService.patients db)) with true; [reflexivity|].
      symmetry. apply existsb_exists. now exists p. }
    split; [exact Hrun|]. unfold PatientService.create_patient. now rewrite Hrun.
  - intros db c e Hrow message.
    assert (Hrun : PatientService.create c db
                   = (inr (OxygenService.mkDatabaseResult false None (Some message) None),
                      db)).
    { unfold PatientService.create, PatientService.execute_insert, PatientService.try_except,
        PatientService.bind, PatientService.insert_patient.
      rewrite Hrow. reflexivity. }
    split; [exact Hrun|]. unfold PatientService.create_patient. now rewrite Hrun.
Qed.

Lemma X24_duplicate_patient_number_is_refused_witness :
  PatientService.create_patient duplicate_request two_patients_db
  = (OxygenService.JsonFailure
       "1062 (23000): Duplicate entry 'p001' for key 'patients.patient_number'", 400,
     PatientService.mkDB [john_doe; jane_smith] 4 90000)
  /\ PatientService.create_patient long_blood_type_request two_patients_db
     = (OxygenService.JsonFailure
          "1406 (22001): Data too long for column 'blood_type' at row 1", 400,
        two_patients_db).
Proof.
  split.
  - apply (proj2 (proj1 (X24_duplicate_patient_number_is_refused Sql.reference)
                    two_patients_db duplicate_request
                    (PatientService.mkPatient 3 "p001" "Johnny" "Doe" 5613 "Male" None None
                       None None None None None None "active" 90000 90000)
                    john_doe eq_refl ltac:(vm_compute; discriminate)
                    (or_introl eq_refl) eq_refl)).
  - apply (proj2 (proj2 (X24_duplicate_patient_number_is_refused Sql.reference)
                    two_patients_db long_blood_type_request
                    (Sql.too_long "blood_type") eq_refl)).
Defined.

(** X25: a patient created is found again.  For a request whose values the
    columns keep and whose number as stored no patient has under the
    collation of the table (identifiers issued by the counter, which has
    some left), create succeeds, the route answers 201, and the row the
    columns make of the request, with the texts as their columns keep them,
    gender and status written as the enumerations have them and both
    timestamps at the time of the call, is what a lookup by the returned
    identifier and a lookup by the stored patient number return. *)
Theorem X25_created_patient_is_found :
  forall (engine : Sql.Engine) (db : PatientService.DB) (c : PatientService.CreatePatient)
         (row : PatientService.Patient),
    Sql.Lawful engine ->
    (forall r, In r (PatientService.patients db) ->
               PatientService.patient_id r < PatientService.patient_seq db) ->
    PatientService.patient_row c (PatientService.patient_seq db) (PatientService.clock db)
    = inr row ->
    PatientService.patient_seq db <= Sql.max_int ->
    (forall r, In r (PatientService.patients db) ->
               Sql.str_eq (PatientService.patient_number r) (PatientService.patient_number row)
               = false) ->
    let id := PatientService.patient_seq db in
    exists db',
      PatientService.create c db
      = (inr (OxygenService.mkDatabaseResult true (Some row) None (Some id)), db')
      /\ PatientService.create_patient c db
         = (OxygenService.JsonSuccess (row, Some id), 201, db')
      /\ PatientService.find_by_id id db'
         = (inr (OxygenService.mkDatabaseResult true (Some row) None None), db')
      /\ PatientService.find_by_patient_number (PatientService.patient_number row) db'
         = (inr (OxygenService.mkDatabaseResult true (Some row) None None), db')
      /\ PatientService.patient_id row = id
      /\ Sql.varchar 50 (PatientService.cp_patient_number c)
         = Some (PatientService.patient_number row)
      /\ Sql.varchar 100 (PatientService.cp_first_name c)
         = Some (PatientService.first_name row)
      /\ Sql.varchar 100 (PatientService.cp_last_name c) = Some (PatientService.last_name row)
      /\ PatientService.date_of_birth row = PatientService.cp_date_of_birth c
      /\ Sql.enum PatientService.gender_values (PatientService.cp_gender c)
         = Some (PatientService.gender row)
      /\ Sql.enum PatientService.status_values (PatientService.cp_status c)
         = Some (PatientService.status row)
      /\ PatientService.created_at row = PatientService.clock db
      /\ PatientService.updated_at row = PatientService.clock db.
Proof.
  intros engine db c row Hlaw Hissued Hrow Hseq Hnew id.
  pose proof (patient_row_columns _ _ _ _ Hrow) as Hcols.
  assert (Hex : existsb (fun r => Sql.str_eq (PatientService.patient_number r)
                                    (PatientService.patient_number row))
                  (PatientService.patients db) = false).
  { destruct (existsb _ (PatientService.patients db)) eqn:E; [|reflexivity].
    apply existsb_exists in E. destruct E as (r & Hr & Hm).
    rewrite (Hnew r Hr) in Hm. discriminate. }
  assert (Hfilter : filter (fun r => PatientService.patient_id r =? id)
                      (PatientService.patients db ++ [row]) = [row]).
  { rewrite filter_app, filter_none.
    - simpl. rewrite (proj1 Hcols). unfold id. now rewrite Z.eqb_refl.
    - intros r Hr. apply Z.eqb_neq. specialize (Hissued r Hr). unfold id. lia. }
  assert (Hrun : PatientService.create c db
                 = (inr (OxygenService.mkDatabaseResult true (Some row) None (Some id)),
                    PatientService.mkDB (PatientService.patients db ++ [row]) (id + 1)
                      (PatientService.clock db))).
  { unfold PatientService.create, PatientService.execute_insert, PatientService.try_except,
      PatientService.bind, PatientService.insert_patient.
    rewrite Hrow.
    replace (Sql.max_int <? PatientService.patient_seq db) with false
      by (symmetry; apply Z.ltb_ge; lia).
    rewrite Hex, find_by_id_run. cbn [PatientService.patients].
    fold id. rewrite Hfilter. reflexivity. }
  eexists. split; [exact Hrun|]. split; [|split; [|split]].
  - unfold PatientService.create_patient. rewrite Hrun. reflexivity.
  - rewrite find_by_id_run. cbn [PatientService.patients]. now rewrite Hfilter.
  - rewrite find_by_patient_number_run. cbn [PatientService.patients].
    rewrite filter_app, (no_number_match _ _ Hex).
    cbn [filter app]. now rewrite Sql.str_eq_refl.
  - exact Hcols.
Qed.

Lemma X25_created_patient_is_found_witness :
  exists db' row,
    PatientService.create_patient robert_request two_patients_db
    = (OxygenService.JsonSuccess (row, Some 3), 201, db')
    /\ PatientService.find_by_patient_number "P003" db'
       = (inr (OxygenService.mkDatabaseResult true (Some row) None None), db')
    /\ PatientService.gender row = "Male".
Proof.
  destruct (X25_created_patient_is_found Sql.reference two_patients_db robert_request
              (PatientService.mkPatient 3 "P003" "Robert" "Johnson" 3258 "Male"
                 (Some "555-0301") None None None None (Some "B-") None (Some "Hypertension")
                 "active" 90000 90000))
    as (db' & _ & Hroute & _ & Hnumber & _).
  - exact reference_lawful.
  - intros r H. in_cases H; simpl; lia.
  - reflexivity.
  - vm_compute. discriminate.
  - intros r H. in_cases H; reflexivity.
  - exists db'. eexists. split; [exact Hroute|]. split; [exact Hnumber|reflexivity].
Defined.



(** X27: an update of an existing patient (identifiers unique) with at least
    one field given, whose values the columns keep: texts within the widths
    of their columns, gender and status members of their enumerations.  When
    the assignments of the values as stored change the row the update
    succeeds, the route answers 200 with the row after the assignments, and
    a lookup returns that row; when they leave every stored value as it is,
    the present time as updated_at included, the answer is "Patient not
    found or no changes made" with 400 and the store is unchanged.  A row
    whose updated_at is not the present time always changes.  Identifier,
    patient number and creation time are never changed, updated_at becomes
    the present time, and no other patient is touched.  An update of an
    existing patient with a value a column refuses is answered with the
    error of that column (or what the rollback raises), the store as
    before. *)
Theorem X27_patient_update_rewrites_one_row :
  forall (engine : Sql.Engine) (db : PatientService.DB) (p : PatientService.Patient)
         (u : PatientService.UpdatePatient),
    NoDup (map PatientService.patient_id (PatientService.patients db)) ->
    In p (PatientService.patients db) ->
    PatientService.update_fields u <> [] ->
    let id := PatientService.patient_id p in
    (forall v : PatientService.UpdatePatient,
        PatientService.stored_update u = inr v ->
        let updated := PatientService.assign v (PatientService.clock db) p in
        let unchanged := PatientService.same_row updated p in
        exists db',
          PatientService.update id u db
          = (inr (if unchanged
                  then OxygenService.mkDatabaseResult false None
                         (Some "Patient not found or no changes made") None
                  else OxygenService.mkDatabaseResult true (Some updated) None None), db')
          /\ PatientService.update_patient id u db
             = (if unchanged
                then (OxygenService.JsonFailure "Patient not found or no changes made", 400)
                else (OxygenService.JsonSuccess updated, 200), db')
          /\ (unchanged = true -> db' = db)
          /\ (PatientService.updated_at p <> PatientService.clock db -> unchanged = false)
          /\ PatientService.find_by_id id db'
             = (inr (OxygenService.mkDatabaseResult true (Some updated) None None), db')
          /\ PatientService.patient_id updated = id
          /\ PatientService.patient_number updated = PatientService.patient_number p
          /\ PatientService.created_at updated = PatientService.created_at p
          /\ PatientService.updated_at updated = PatientService.clock db
          /\ (forall r, PatientService.patient_id r <> id ->
                        (In r (PatientService.patients db')
                         <-> In r (PatientService.patients db))))
    /\ (forall e : exn,
           PatientService.stored_update u = inl e ->
           PatientService.update id u db
           = (inr (OxygenService.mkDatabaseResult false None
                     (Some (str (OxygenService.after_rollback e))) None), db)
           /\ PatientService.update_patient id u db
              = (OxygenService.JsonFailure (str (OxygenService.after_rollback e)), 400, db)).
Proof.
  intros engine db p u Hnd Hin Hfields id.
  pose proof (key_rows_unique PatientService.patient_id id _ p Hnd Hin eq_refl) as Hrows.
  split.
  - intros v Hv updated unchanged.
    set (rows' := map (fun r => if PatientService.patient_id r =? id
                                then PatientService.assign v (PatientService.clock db) r
                                else r) (PatientService.patients db)).
    assert (Hfound : filter (fun r => PatientService.patient_id r =? id) rows' = [updated]).
    { unfold rows'. rewrite (rows_rewritten PatientService.patient_id) by reflexivity.
      now rewrite Hrows. }
    assert (Hrun : PatientService.update id u db
                   = (inr (if unchanged
                           then OxygenService.mkDatabaseResult false None
                                  (Some "Patient not found or no changes made") None
                           else OxygenService.mkDatabaseResult true (Some updated) None None),
                      PatientService.mkDB rows' (PatientService.patient_seq db)
                        (PatientService.clock db))).
    { unfold PatientService.update, PatientService.execute_update, PatientService.try_except,
        PatientService.bind.
      destruct (PatientService.update_fields u) as [|f fs]; [contradiction|].
      unfold PatientService.update_rows. fold id. rewrite Hrows, Hv.
      rewrite (rows_changed_unique _ id _ p Hnd Hin eq_refl).
      fold updated. fold unchanged. fold rows'.
      destruct unchanged; cbn [Z.eqb]; [reflexivity|].
      rewrite find_by_id_run. cbn [PatientService.patients]. rewrite Hfound. reflexivity. }
    exists (PatientService.mkDB rows' (PatientService.patient_seq db)
              (PatientService.clock db)).
    split; [exact Hrun|].
    split; [unfold PatientService.update_patient; rewrite Hrun; destruct unchanged;
            reflexivity|].
    split.
    { intro Hsame. destruct db as [rows seq now].
      cbn [PatientService.patients PatientService.patient_seq PatientService.clock] in *.
      f_equal. unfold rows'. etransitivity; [|apply map_id]. apply map_ext_in. intros r Hr.
      destruct (PatientService.patient_id r =? id) eqn:E; [|reflexivity].
      assert (Hrp : In r (filter (fun r => PatientService.patient_id r =? id) rows))
        by (apply filter_In; split; assumption).
      rewrite Hrows in Hrp. destruct Hrp as [<-|[]]. now apply same_row_eq. }
    split.
    { intro Hclock. destruct unchanged eqn:E; [|reflexivity].
      apply same_row_eq in E. exfalso. apply Hclock. rewrite <- E at 1. reflexivity. }
    split; [rewrite find_by_id_run; cbn [PatientService.patients]; now rewrite Hfound|].
    repeat (split; [reflexivity|]).
    intros r Hr. cbn [PatientService.patients]. unfold rows'. rewrite in_map_iff. split.
    + intros (x & Hx & Hxin). destruct (PatientService.patient_id x =? id) eqn:E.
      * exfalso. apply Hr. rewrite <- Hx.
        cbn [PatientService.assign PatientService.patient_id]. now apply Z.eqb_eq.
      * now rewrite <- Hx.
    + intro Hrin. exists r. split; [|exact Hrin].
      replace (PatientService.patient_id r =? id) with false; [reflexivity|].
      symmetry. now apply Z.eqb_neq.
  - intros e He.
    assert (Hrun : PatientService.update id u db
                   = (inr (OxygenService.mkDatabaseResult false None
                             (Some (str (OxygenService.after_rollback e))) None), db)).
    { unfold PatientService.update, PatientService.execute_update, PatientService.try_except,
        PatientService.bind.
      destruct (PatientService.update_fields u) as [|f fs]; [contradiction|].
      unfold PatientService.update_rows. fold id. rewrite Hrows, He. reflexivity. }
    split; [exact Hrun|]. unfold PatientService.update_patient. now rewrite Hrun.
Qed.

Lemma X27_patient_update_rewrites_one_row_witness :
  exists db' updated,
    PatientService.update_patient 1 inactive_update two_patients_db
    = (OxygenService.JsonSuccess updated, 200, db')
    /\ PatientService.status updated = "inactive"
    /\ PatientService.updated_at updated = 90000
    /\ PatientService.update_patient 1 inactive_update db'
       = (OxygenService.JsonFailure "Patient not found or no changes made", 400, db').
Proof.
  destruct (proj1 (X27_patient_update_rewrites_one_row Sql.reference two_patients_db john_doe
                     inactive_update
                     ltac:(repeat constructor; simpl; intuition lia)
                     (or_introl eq_refl) ltac:(discriminate))
              (PatientService.mkUpdatePatient None None None None None None None None None
                 None None None (Some "inactive")) eq_refl)
    as (db' & _ & Hroute & _).
  exists db'. eexists. split; [exact Hroute|]. split; [reflexivity|]. split; [reflexivity|].
  pose proof Hroute as Hdb. vm_compute in Hdb. injection Hdb as <-. reflexivity.
Defined.

Section PatientListFacts.

Import PatientService.

Context {engine : Sql.Engine} {patient_scan : Sql.Scan Patient}.

Lemma find_all_run (f : PatientFilter) (p : OxygenService.PaginationParams) (db : DB)
  key ascending :
  OxygenService.column patient_columns (OxygenService.sort_by p) = Some key ->
  Sql.direction (OxygenService.sort_order p) = Some ascending ->
  0 < OxygenService.limit p <= Sql.max_limit -> 1 <= OxygenService.page p ->
  (OxygenService.page p - 1) * OxygenService.limit p <= Sql.max_limit ->
  let selected := filter (matches (where_conditions f)) (patients db) in
  let total := Z.of_nat (List.length selected) in
  find_all (Some f) (Some p) db
  = (inr (OxygenService.mkDatabaseResult true
            (Some (OxygenService.mkPaginatedResult
                     (firstn (Z.to_nat (OxygenService.limit p))
                        (skipn (Z.to_nat ((OxygenService.page p - 1) * OxygenService.limit p))
                           (Sql.order_by key ascending
                              (Sql.deliver (OxygenService.sort_by p)
                                 (OxygenService.sort_order p) (OxygenService.limit p)
                                 ((OxygenService.page p - 1) * OxygenService.limit p)
                                 selected))))
                     total (OxygenService.page p) (OxygenService.limit p)
                     (ceil_div total (OxygenService.limit p))))
            None None), db).
Proof.
  intros Hcol Hdir Hl Hp Ho. cbv zeta.
  unfold find_all, try_except, bind, count_query, data_query, floordiv, OxygenService.default.
  rewrite (order_limit_window patient_columns _ _ _ _ _ key ascending Hcol Hdir) by nia.
  replace (OxygenService.limit p =? 0) with false by (symmetry; apply Z.eqb_neq; lia).
  unfold ret. rewrite pages_is_ceiling by lia. reflexivity.
Qed.

End PatientListFacts.



(** X29: the two list routes called with no query argument answer 200 on
    every store: they sort by patient_id and by station_name, columns the
    tables have, where the default of the services names a column they do
    not have.  The answer is page 1, the first 50 at most of all rows in the
    order of the column as the engine sorts them, rows with equal keys as
    they are delivered; the total is the number of all rows, deleted
    patients included. *)
Theorem X29_list_routes_work_without_arguments :
  forall (engine : Sql.Engine) (station_scan : Sql.Scan OxygenService.OxygenStation)
         (patient_scan : Sql.Scan PatientService.Patient),
  (forall db : PatientService.DB,
     let total := Z.of_nat (List.length (PatientService.patients db)) in
     PatientService.get_patients (PatientService.mkPatientArgs None None None None)
       default_list_args db
     = (OxygenService.JsonSuccess
          (OxygenService.mkPaginatedResult
             (firstn 50 (Sql.order_by (fun r => Sql.VInt (PatientService.patient_id r)) true
                           (Sql.deliver "patient_id" "ASC" 50 0 (PatientService.patients db))))
             total 1 50 (ceil_div total 50)), 200, db))
  /\ (forall db : OxygenService.DB,
        let total := Z.of_nat (List.length (OxygenService.stations db)) in
        OxygenService.get_oxygen_stations no_filter_args default_list_args db
        = (OxygenService.JsonSuccess
             (OxygenService.mkPaginatedResult
                (firstn 50 (Sql.order_by (fun r => Sql.VStr (OxygenService.station_name r)) true
                              (Sql.deliver "station_name" "ASC" 50 0
                                 (OxygenService.stations db))))
                total 1 50 (ceil_div total 50)), 200, db)).
Proof.
  intros engine station_scan patient_scan. split; intros db total.
  - unfold PatientService.get_patients.
    rewrite (find_all_run _ _ db (fun r => Sql.VInt (PatientService.patient_id r)) true)
      by (reflexivity || (simpl; unfold Sql.max_limit; lia)).
    cbn [PatientService.where_conditions PatientService.pf_status PatientService.pf_gender
           PatientService.pf_blood_type PatientService.pf_search truthy_str app
           PatientService.arg_status PatientService.arg_gender PatientService.arg_blood_type
           PatientService.arg_search].
    rewrite filter_all_true by reflexivity. reflexivity.
  - unfold OxygenService.get_oxygen_stations.
    rewrite (find_all_stations_run _ _ db (fun r => Sql.VStr (OxygenService.station_name r)) true)
      by (reflexivity || (simpl; unfold Sql.max_limit; lia)).
    cbn [OxygenService.where_conditions OxygenService.status OxygenService.location
           OxygenService.low_level_threshold truthy_str truthy_num app
           OxygenService.arg_status OxygenService.arg_location
           OxygenService.arg_low_level_threshold no_filter_args].
    rewrite filter_all_true by reflexivity.
    rewrite pages_is_ceiling by (simpl; lia). reflexivity.
Qed.
